(** * Chip_Atlasmcp: the fetch / cache / parse / filter / persist pipeline

    A shallow embedding of [Chip_Atlasmcp/Chip_Atlasmcp.py], of the
    [fetch] command of [cli.py] and of the [fetch_chip_atlas] tool of
    [mcp_server.py], with the parts of Python, pandas, rich and the [csv]
    module that they call, followed by the properties of the pipeline.

    Conventions.
    - A Python [str] is a [string] whose characters stand for the code
      points U+0000 .. U+00FF.  Text outside that range is not modelled:
      an operation that would have to produce it ends in [Unmodelled].
    - A file is a list of bytes; the file system is a finite map from paths
      to contents.  Operating-system failures (permissions, a full disk, a
      path occupied by a directory) are outside the model, so
      [os.makedirs(..., exist_ok=True)] is the identity on the path map.
      The results directory holds files only, as the program leaves it:
      a results file whose name has a slash cannot be created, and
      [to_csv] raises [OSError].
    - [console.print] is modelled for what it raises.  rich reads the
      text as markup and raises [MarkupError] on a closing tag without
      its opening tag; the terminal takes every character.  The home
      directory is taken to hold no opening bracket.
    - A computation is a function from the world to an outcome and a new
      world.  An outcome is a value, a raised Python exception, or
      [Unmodelled]. *)

From Stdlib Require Import String Ascii List Bool Arith Lia NArith DecimalString.
From Stdlib.Strings Require Import Byte.
From stdpp Require Import base option gmap strings list.

Import ListNotations.
Local Open Scope string_scope.
Local Open Scope nat_scope.
Local Open Scope list_scope.

(* ====================================================================== *)
(** * Python strings *)
(* ====================================================================== *)

Module Py.

(** Code points that have a lowercase mapping, within U+0000 .. U+00FF:
    A-Z, and the Latin-1 capitals U+00C0 .. U+00DE except U+00D7. *)
Definition has_lower (c : ascii) : bool :=
  let n := N_of_ascii c in
  (((65 <=? n) && (n <=? 90)) ||
   ((192 <=? n) && (n <=? 222) && negb (n =? 215)))%N.

Definition lower_char (c : ascii) : ascii :=
  if has_lower c then ascii_of_N (N_of_ascii c + 32) else c.

(** [s.lower()] *)
Fixpoint lower (s : string) : string :=
  match s with
  | EmptyString => EmptyString
  | String c s' => String (lower_char c) (lower s')
  end.

(** [c.isspace()] for one character: U+0009 .. U+000D, U+001C .. U+0020,
    U+0085 and U+00A0. *)
Definition isspace (c : ascii) : bool :=
  let n := N_of_ascii c in
  (((9 <=? n) && (n <=? 13)) || ((28 <=? n) && (n <=? 32)) ||
   (n =? 133) || (n =? 160))%N.

Fixpoint lstrip (s : string) : string :=
  match s with
  | EmptyString => EmptyString
  | String c s' => if isspace c then lstrip s' else s
  end.

Fixpoint rstrip (s : string) : string :=
  match s with
  | EmptyString => EmptyString
  | String c s' =>
      match rstrip s' with
      | EmptyString => if isspace c then EmptyString else String c EmptyString
      | r => String c r
      end
  end.

(** [s.strip()] *)
Definition strip (s : string) : string := rstrip (lstrip s).

(** [s.startswith(p)] *)
Fixpoint startswith (p s : string) : bool :=
  match p, s with
  | EmptyString, _ => true
  | String a p', String b s' => Ascii.eqb a b && startswith p' s'
  | String _ _, EmptyString => false
  end.

(** [sub in s] *)
Fixpoint str_in (sub s : string) : bool :=
  startswith sub s ||
  match s with
  | EmptyString => false
  | String _ s' => str_in sub s'
  end.

(** [s.endswith(suffix)] *)
Fixpoint endswith (s suffix : string) : bool :=
  String.eqb s suffix ||
  match s with
  | EmptyString => false
  | String _ s' => endswith s' suffix
  end.

(** [len(s)] *)
Definition len (s : string) : nat := String.length s.

(** [sorted(l, key=len)]: Python's sort is stable, so an element goes in
    front of the already sorted later elements of the same length. *)
Fixpoint insert_by_len (x : string) (l : list string) : list string :=
  match l with
  | [] => [x]
  | y :: l' => if (len x <=? len y)%nat then x :: l else y :: insert_by_len x l'
  end.

Fixpoint sorted_by_len (l : list string) : list string :=
  match l with
  | [] => []
  | x :: l' => insert_by_len x (sorted_by_len l')
  end.

(** [x in l] for a list of strings *)
Definition str_in_list (x : string) (l : list string) : bool :=
  existsb (String.eqb x) l.

(** Truth value of an [Optional[str]]: [None] and the empty string are
    false. *)
Definition truthy (o : option string) : bool :=
  match o with
  | None => false
  | Some EmptyString => false
  | Some (String _ _) => true
  end.

End Py.

(* ====================================================================== *)
(** * Column detection ([fetch_and_display], "Smart column detection") *)
(* ====================================================================== *)

Module Detect.
Import Py.

(** The [for c in df.columns: if c.strip().lower() == "antigen": ... break]
    loop. *)
Definition exact_antigen (c : string) : bool :=
  String.eqb (lower (strip c)) "antigen".

(** ["antigen" in c.lower()] *)
Definition antigen_in (c : string) : bool := str_in "antigen" (lower c).

(** [[c for c in df.columns if "antigen" in c.lower()]] *)
Definition possible_cols (cols : list string) : list string :=
  List.filter antigen_in cols.

(** [sorted(possible_cols, key=len)[0]] *)
Definition shortest_possible (cols : list string) : option string :=
  List.head (sorted_by_len (possible_cols cols)).

Definition detect_column (cols : list string) : option string :=
  let col := List.find exact_antigen cols in
  let col :=
    if negb (truthy col) then
      match possible_cols cols with
      | [] => col
      | _ :: _ => shortest_possible cols
      end
    else col in
  let col :=
    if negb (truthy col) && str_in_list "Cell type" cols
    then Some "Cell type" else col in
  col.

End Detect.

(* ====================================================================== *)
(** * Outcomes and exceptions *)
(* ====================================================================== *)

(** The Python exceptions the pipeline can meet.  All of them are
    subclasses of [Exception]; only [UnicodeDecodeError] is caught by name. *)
Inductive exn : Set :=
| UnicodeDecodeError
| EmptyDataError
| ParserError
| CsvError
| ReError
| AttributeError
| KeyError
| FileNotFoundError
| RequestException
| HTTPError
| BadZipFile
| MarkupError
| OSError.

Definition is_UnicodeDecodeError (e : exn) : bool :=
  match e with UnicodeDecodeError => true | _ => false end.

(** What a call ends in: a value, a raised exception, or an input on which
    the behaviour of the library is left outside this model. *)
Inductive outcome (A : Type) : Type :=
| Ok (a : A)
| Raise (e : exn)
| Unmodelled.

Arguments Ok {A} a.
Arguments Raise {A} e.
Arguments Unmodelled {A}.

Definition obind {A B} (o : outcome A) (k : A -> outcome B) : outcome B :=
  match o with
  | Ok a => k a
  | Raise e => Raise e
  | Unmodelled => Unmodelled
  end.

Definition omap {A B} (f : A -> B) (o : outcome A) : outcome B :=
  obind o (fun a => Ok (f a)).

(* ====================================================================== *)
(** * Bytes and text codecs *)
(* ====================================================================== *)

Module Codec.

Inductive encoding : Set := Utf8 | Latin1.

Definition is_cont (n : N) : bool := ((128 <=? n) && (n <? 192))%N.

(** Result of decoding: text within U+0000 .. U+00FF, an invalid byte
    sequence, or well-formed text with a code point above U+00FF. *)
Inductive decoded : Set :=
| DecOk (s : string)
| DecError
| DecWide.

Definition dec_cons (c : ascii) (d : decoded) : decoded :=
  match d with
  | DecOk s => DecOk (String c s)
  | DecError => DecError
  | DecWide => DecWide
  end.

Definition dec_wide (d : decoded) : decoded :=
  match d with
  | DecError => DecError
  | _ => DecWide
  end.

(** Strict UTF-8 decoding (RFC 3629: no overlong forms, no surrogates,
    nothing above U+10FFFF). *)
Fixpoint utf8_decode (l : list byte) : decoded :=
  match l with
  | [] => DecOk EmptyString
  | b1 :: r1 =>
      let n1 := Byte.to_N b1 in
      if (n1 <? 128)%N then dec_cons (ascii_of_N n1) (utf8_decode r1)
      else if (n1 <? 194)%N then DecError
      else if (n1 <? 224)%N then
        match r1 with
        | b2 :: r2 =>
            let n2 := Byte.to_N b2 in
            if is_cont n2 then
              if (n1 <? 196)%N
              then dec_cons (ascii_of_N ((n1 - 192) * 64 + (n2 - 128)))
                            (utf8_decode r2)
              else dec_wide (utf8_decode r2)
            else DecError
        | [] => DecError
        end
      else if (n1 <? 240)%N then
        match r1 with
        | b2 :: b3 :: r3 =>
            let n2 := Byte.to_N b2 in
            let n3 := Byte.to_N b3 in
            let lo := if (n1 =? 224)%N then 160%N else 128%N in
            let hi := if (n1 =? 237)%N then 160%N else 192%N in
            if (lo <=? n2)%N && (n2 <? hi)%N && is_cont n3
            then dec_wide (utf8_decode r3) else DecError
        | _ => DecError
        end
      else if (n1 <? 245)%N then
        match r1 with
        | b2 :: b3 :: b4 :: r4 =>
            let n2 := Byte.to_N b2 in
            let n3 := Byte.to_N b3 in
            let n4 := Byte.to_N b4 in
            let lo := if (n1 =? 240)%N then 144%N else 128%N in
            let hi := if (n1 =? 244)%N then 144%N else 192%N in
            if (lo <=? n2)%N && (n2 <? hi)%N && is_cont n3 && is_cont n4
            then dec_wide (utf8_decode r4) else DecError
        | _ => DecError
        end
      else DecError
  end.

(** Latin-1 decoding: every byte is its own code point. *)
Fixpoint latin1_decode (l : list byte) : string :=
  match l with
  | [] => EmptyString
  | b :: r => String (ascii_of_byte b) (latin1_decode r)
  end.

(** [bytes.decode(enc)] as [open(..., encoding=enc)] applies it. *)
Definition decode (enc : encoding) (l : list byte) : outcome string :=
  match enc with
  | Latin1 => Ok (latin1_decode l)
  | Utf8 =>
      match utf8_decode l with
      | DecOk s => Ok s
      | DecError => Raise UnicodeDecodeError
      | DecWide => Unmodelled
      end
  end.

(** UTF-8 encoding of text within U+0000 .. U+00FF. *)
Fixpoint utf8_encode (s : string) : list byte :=
  match s with
  | EmptyString => []
  | String c s' =>
      let n := N_of_ascii c in
      if (n <? 128)%N then byte_of_ascii c :: utf8_encode s'
      else byte_of_ascii (ascii_of_N (192 + n / 64))
           :: byte_of_ascii (ascii_of_N (128 + n mod 64))
           :: utf8_encode s'
  end.

End Codec.

(* ====================================================================== *)
(** * The [csv] module: reader, writer and delimiter sniffing *)
(* ====================================================================== *)

Module Csv.

Definition LF : ascii := ascii_of_nat 10.
Definition CR : ascii := ascii_of_nat 13.
Definition TAB : ascii := ascii_of_nat 9.
Definition NUL : ascii := ascii_of_nat 0.
Definition COMMA : ascii := ascii_of_nat 44.
Definition SEMICOLON : ascii := ascii_of_nat 59.
Definition SPACE : ascii := ascii_of_nat 32.
Definition COLON : ascii := ascii_of_nat 58.
Definition DQUOTE : ascii := ascii_of_nat 34.
Definition SQUOTE : ascii := ascii_of_nat 39.

Definition is_newline (c : ascii) : bool := Ascii.eqb c LF || Ascii.eqb c CR.

(** [c in s] for one character *)
Fixpoint has_char (c : ascii) (s : string) : bool :=
  match s with
  | EmptyString => false
  | String d s' => Ascii.eqb c d || has_char c s'
  end.

(** [s.count(c)] for one character *)
Fixpoint count_char (c : ascii) (s : string) : nat :=
  match s with
  | EmptyString => 0
  | String d s' => (if Ascii.eqb c d then 1 else 0) + count_char c s'
  end.

(** ** Reader

    The state machine of [csv.reader] for a dialect with the double quote as
    quote character, [doublequote], no escape character, no [skipinitialspace] and
    [strict=True], fed by a file opened with [newline=''] (lines end at
    LF, CR or CR LF).  [AfterCR] is [StartRecord] right after a CR, where
    an LF still belongs to the same line end. *)
Inductive rstate : Set :=
| StartRecord | AfterCR | StartField | InField | InQuoted | QuoteInQuoted.

Definition records : Type := list (list string).

(** Close the field being read and start a new, empty one in front. *)
Definition new_field (r : records) : records :=
  match r with
  | rec :: rs => (EmptyString :: rec) :: rs
  | [] => [[EmptyString]]
  end.

(** Put a character in front of the field being read. *)
Definition push_char (c : ascii) (r : records) : records :=
  match r with
  | (f :: fs) :: rs => (String c f :: fs) :: rs
  | [] :: rs => [String c EmptyString] :: rs
  | [] => [[String c EmptyString]]
  end.

Definition after_newline (c : ascii) : rstate :=
  if Ascii.eqb c CR then AfterCR else StartRecord.

Fixpoint scan (delim : ascii) (st : rstate) (text : string)
  : outcome records :=
  match text with
  | EmptyString =>
      match st with
      | StartRecord | AfterCR => Ok []
      | StartField | InField | QuoteInQuoted => Ok [[EmptyString]]
      | InQuoted => Raise CsvError
      end
  | String c t =>
      match st with
      | InQuoted =>
          if Ascii.eqb c DQUOTE then scan delim QuoteInQuoted t
          else omap (push_char c) (scan delim InQuoted t)
      | QuoteInQuoted =>
          if Ascii.eqb c DQUOTE
          then omap (push_char c) (scan delim InQuoted t)
          else if Ascii.eqb c delim
          then omap new_field (scan delim StartField t)
          else if is_newline c
          then omap (cons [EmptyString]) (scan delim (after_newline c) t)
          else Raise CsvError
      | InField =>
          if is_newline c
          then omap (cons [EmptyString]) (scan delim (after_newline c) t)
          else if Ascii.eqb c delim
          then omap new_field (scan delim StartField t)
          else omap (push_char c) (scan delim InField t)
      | StartField =>
          if is_newline c
          then omap (cons [EmptyString]) (scan delim (after_newline c) t)
          else if Ascii.eqb c DQUOTE then scan delim InQuoted t
          else if Ascii.eqb c delim
          then omap new_field (scan delim StartField t)
          else omap (push_char c) (scan delim InField t)
      | StartRecord | AfterCR =>
          if (match st with AfterCR => true | _ => false end)
             && Ascii.eqb c LF
          then scan delim StartRecord t
          else if is_newline c
          then omap (cons []) (scan delim (after_newline c) t)
          else if Ascii.eqb c DQUOTE then scan delim InQuoted t
          else if Ascii.eqb c delim
          then omap new_field (scan delim StartField t)
          else omap (push_char c) (scan delim InField t)
      end
  end.

(** [csv.reader(f, dialect, strict=True)] read to the end. *)
Definition reader (delim : ascii) (text : string) : outcome records :=
  scan delim StartRecord text.

(** [f.readline()] on a file opened with [newline='']: the first line
    with its line end, and what follows. *)
Fixpoint readline (text : string) : string * string :=
  match text with
  | EmptyString => (EmptyString, EmptyString)
  | String c t =>
      if Ascii.eqb c LF then (String c EmptyString, t)
      else if Ascii.eqb c CR then
        match t with
        | String d t' =>
            if Ascii.eqb d LF
            then (String c (String d EmptyString), t')
            else (String c EmptyString, t)
        | EmptyString => (String c EmptyString, t)
        end
      else let (l, r) := readline t in (String c l, r)
  end.

(** ** Sniffer

    [csv.Sniffer().sniff(line).delimiter] for one line without quote
    characters, which is how pandas calls it.  The candidates are the
    7-bit characters (codes 0 .. 126) that occur in the line. *)

(** [line.split('\n')] with the empty pieces filtered out, for a line as
    [readline] returns it: the line without its final LF. *)
Fixpoint drop_lf (line : string) : string :=
  match line with
  | EmptyString => EmptyString
  | String c t => if Ascii.eqb c LF then drop_lf t else String c (drop_lf t)
  end.

Definition candidates (data : string) : list ascii :=
  List.filter (fun c => has_char c data)
              (List.map ascii_of_nat (seq 0 127)).

Definition preferred : list ascii := [COMMA; TAB; SEMICOLON; SPACE; COLON].

(** The maximum of the candidates for the order on (count, character):
    what [items.sort(); items[-1]] selects. *)
Definition dominates (data : string) (a b : ascii) : bool :=
  let ca := count_char a data in
  let cb := count_char b data in
  ((cb <? ca) || ((cb =? ca) && (nat_of_ascii b <? nat_of_ascii a)))%nat.

Fixpoint dominant (data : string) (best : ascii) (l : list ascii) : ascii :=
  match l with
  | [] => best
  | c :: l' => dominant data (if dominates data c best then c else best) l'
  end.

Definition guess_delimiter (line : string) : option ascii :=
  let data := drop_lf line in
  match candidates data with
  | [] => None
  | [c] => Some c
  | c :: cs =>
      match List.find (fun d => existsb (Ascii.eqb d) (c :: cs)) preferred with
      | Some d => Some d
      | None => Some (dominant data c cs)
      end
  end.

(** [Sniffer.sniff]: lines with a quote character go through the
    sniffer's quote heuristics, which are not modelled, and so do the
    results CR and NUL, whose treatment as a delimiter differs between
    Python versions. *)
Definition sniff (line : string) : outcome ascii :=
  if has_char DQUOTE line || has_char SQUOTE line then Unmodelled
  else match guess_delimiter line with
       | None => Raise CsvError
       | Some d =>
           if Ascii.eqb d CR || Ascii.eqb d NUL then Unmodelled else Ok d
       end.

End Csv.

(* ====================================================================== *)
(** * pandas: frames, [read_csv], [to_csv], [Series.str.contains] *)
(* ====================================================================== *)

(** The model follows pandas 2 with the Python parser engine
    ([engine="python"]) and [dtype=str], on a POSIX system (lines are
    written with LF). *)
Module Pandas.
Import Py Codec Csv.

(** A cell read with [dtype=str] is a string or NaN ([None]). *)
Definition cell : Type := option string.

Record DataFrame : Type := {
  columns : list string;
  rows : list (list cell)
}.

(** [df.shape[1]] *)
Definition shape1 (df : DataFrame) : nat := List.length (columns df).

(** [df.empty]: some axis has length 0. *)
Definition empty (df : DataFrame) : bool :=
  match columns df, rows df with
  | [], _ => true
  | _, [] => true
  | _, _ => false
  end.

(** ** Reading *)

(** The strings [read_csv] turns into NaN by default. *)
Definition na_values : list string :=
  [ EmptyString; "#N/A"; "#N/A N/A"; "#NA"; "-1.#IND"; "-1.#QNAN"; "-NaN";
    "-nan"; "1.#IND"; "1.#QNAN"; "<NA>"; "N/A"; "NA"; "NULL"; "NaN";
    "None"; "n/a"; "nan"; "null" ].

Definition is_na (s : string) : bool := existsb (String.eqb s) na_values.

Definition to_cell (s : string) : cell := if is_na s then None else Some s.

(** [_remove_empty_lines]: a line is dropped when it has no field, or one
    field that is blank. *)
Definition is_empty_line (l : list string) : bool :=
  match l with
  | [] => true
  | [f] => match strip f with EmptyString => true | _ => false end
  | _ => false
  end.

Definition decimal (n : nat) : string :=
  NilZero.string_of_uint (Nat.to_uint n).

(** An empty header field at position [i] is named [Unnamed: i]. *)
Fixpoint name_unnamed (i : nat) (fields : list string) : list string :=
  match fields with
  | [] => []
  | f :: fs =>
      (match f with
       | EmptyString => "Unnamed: " +:+ decimal i
       | _ => f
       end) :: name_unnamed (S i) fs
  end.

(** Positions of the named header fields followed by those of the empty
    ones: the order in which duplicates are renamed. *)
Fixpoint positions (want_empty : bool) (i : nat) (fields : list string)
  : list nat :=
  match fields with
  | [] => []
  | f :: fs =>
      let e := match f with EmptyString => true | _ => false end in
      (if Bool.eqb e want_empty then [i] else []) ++
      positions want_empty (S i) fs
  end.

Definition col_loop_order (fields : list string) : list nat :=
  positions false 0 fields ++ positions true 0 fields.

Definition count_of (counts : gmap string nat) (k : string) : nat :=
  default 0 (counts !! k).

(** The [while cur_count > 0] loop that looks for a free name
    [old_col.cur_count].  It ends after at most one round per column;
    [fuel] is that bound. *)
Fixpoint rename_loop (fuel : nat) (this_columns : list string)
         (old_col col : string) (cur_count : nat)
         (counts : gmap string nat) : string * nat * gmap string nat :=
  match fuel, cur_count with
  | _, O => (col, cur_count, counts)
  | O, _ => (col, cur_count, counts)
  | S fuel', S _ =>
      let counts := <[old_col := S cur_count]> counts in
      let col := old_col +:+ "." +:+ decimal cur_count in
      if str_in_list col this_columns
      then rename_loop fuel' this_columns old_col col (S cur_count) counts
      else rename_loop fuel' this_columns old_col col (count_of counts col)
                       counts
  end.

Definition mangle_step (st : list string * gmap string nat) (i : nat)
  : list string * gmap string nat :=
  let '(this_columns, counts) := st in
  let col := List.nth i this_columns EmptyString in
  let '(col', cur, counts') :=
    rename_loop (S (List.length this_columns)) this_columns col col
                (count_of counts col) counts in
  (<[i := col']> this_columns, <[col' := S cur]> counts').

(** Column names from the header fields ([_infer_columns]). *)
Definition header_names (fields : list string) : list string :=
  fst (List.fold_left mangle_step (col_loop_order fields)
                      (name_unnamed 0 fields, ∅)).

(** A row of [n] cells from the fields of a line, after [k] leading
    index fields: short lines are filled with NaN. *)
Definition row_cells (n k : nat) (line : list string) : list cell :=
  firstn n (skipn k (List.map to_cell line ++
                     repeat None (n + k - List.length line))).

Definition remove_empty_lines (lines : list (list string))
  : list (list string) :=
  List.filter (fun l => negb (is_empty_line l)) lines.

(** From the header fields and the data lines (empty ones removed) to a
    frame: [_get_index_name] (leading fields of the first data line
    beyond the header are an index), then [_rows_to_cols] (a longer line
    is an error).  The layout with index names on a line of their own is
    not modelled. *)
Definition build_frame (header : list string) (data : list (list string))
  : outcome DataFrame :=
  let n := List.length header in
  match data with
  | [] => Ok {| columns := header_names header; rows := [] |}
  | line :: rest =>
      let k := List.length line - n in
      let names_row :=
        match rest with
        | next :: _ => List.length next =? List.length line + n
        | [] => false
        end in
      if names_row then Unmodelled
      else if existsb (fun l => n + k <? List.length l) data
      then Raise ParserError
      else Ok {| columns := header_names header;
                 rows := List.map (row_cells n k) data |}
  end.

(** An error of the [csv] reader in the data is reported by pandas as a
    [ParserError]. *)
Definition parser_error {A} (o : outcome A) : outcome A :=
  match o with
  | Raise CsvError => Raise ParserError
  | _ => o
  end.

(** [read_csv] on decoded text with a one-character separator: the first
    line that is not empty is the header. *)
Definition parse_with_sep (delim : ascii) (text : string)
  : outcome DataFrame :=
  obind (parser_error (reader delim text)) (fun recs =>
  match remove_empty_lines recs with
  | [] => Raise EmptyDataError
  | header :: data => build_frame header data
  end).

(** [read_csv] on decoded text with [sep=None]: the delimiter is sniffed
    from the first line, which is the header whatever it holds. *)
Definition parse_sniffing (text : string) : outcome DataFrame :=
  let (line, rest) := readline text in
  obind (sniff line) (fun delim =>
  obind (reader delim line) (fun first =>
  obind (parser_error (reader delim rest)) (fun recs =>
  match first with
  | header :: _ => build_frame header (remove_empty_lines recs)
  | [] => Unmodelled
  end))).

(** [pd.read_csv(f, sep=sep, dtype=str, encoding=enc, engine="python")]
    on the contents of the file.  The file is decoded before it is
    split into lines; a NUL character is treated differently by
    different Python versions and is not modelled. *)
Definition parse_csv (contents : list byte) (sep : option ascii)
           (enc : encoding) : outcome DataFrame :=
  obind (decode enc contents) (fun text =>
  if has_char NUL text then Unmodelled
  else match sep with
       | Some delim => parse_with_sep delim text
       | None => parse_sniffing text
       end).

(** ** Writing *)

(** [csv.writer] with the default dialect of [to_csv]: comma, double
    quote, [QUOTE_MINIMAL], [doublequote], lines ended by LF. *)
Definition needs_quote (f : string) : bool :=
  has_char COMMA f || has_char DQUOTE f || has_char LF f.

Fixpoint double_quotes (f : string) : string :=
  match f with
  | EmptyString => EmptyString
  | String c f' =>
      if Ascii.eqb c DQUOTE
      then String DQUOTE (String DQUOTE (double_quotes f'))
      else String c (double_quotes f')
  end.

Definition write_field (f : string) : string :=
  if needs_quote f
  then String DQUOTE (double_quotes f +:+ String DQUOTE EmptyString)
  else f.

Fixpoint join_fields (fs : list string) : string :=
  match fs with
  | [] => EmptyString
  | [f] => f
  | f :: fs' => f +:+ String COMMA (join_fields fs')
  end.

(** [writer.writerow(fields)]: a record that is one empty field is
    written as two quotes.  Whether a CR inside a field is quoted
    depends on the Python version, so such fields are not modelled. *)
Definition writerow (fields : list string) : outcome string :=
  if existsb (has_char CR) fields then Unmodelled
  else match fields with
       | [EmptyString] =>
           Ok (String DQUOTE (String DQUOTE (String LF EmptyString)))
       | _ =>
           Ok (join_fields (List.map write_field fields)
               +:+ String LF EmptyString)
       end.

(** NaN is written as the empty string ([na_rep]). *)
Definition cell_text (c : cell) : string := default EmptyString c.

Fixpoint writerows (rs : list (list cell)) : outcome string :=
  match rs with
  | [] => Ok EmptyString
  | r :: rs' =>
      obind (writerow (List.map cell_text r)) (fun l =>
      omap (fun t => l +:+ t) (writerows rs'))
  end.

(** The bytes [df.to_csv(path, index=False)] writes (UTF-8). *)
Definition to_csv (df : DataFrame) : outcome (list byte) :=
  obind (writerow (columns df)) (fun h =>
  omap (fun t => utf8_encode (h +:+ t)) (writerows (rows df))).

End Pandas.

(* ====================================================================== *)
(** * Regular expressions, as far as the keyword filter needs them *)
(* ====================================================================== *)

(** [Series.str.contains(pat, case=False)] leaves [regex] at its default
    [True]: the keyword is compiled with [re.compile(pat, re.IGNORECASE)]
    and every value is tested with [search].  Modelled are the patterns
    made of ordinary characters and dots, and two families of patterns
    that [re.compile] rejects; every other pattern is [Unmodelled]. *)
Module Re.
Import Py Csv.

Definition metachars : string := ".^$*+?{}[]\|()".

Definition is_meta (c : ascii) : bool := has_char c metachars.

Inductive atom : Set :=
| Lit (c : ascii)
| AnyChar.

Fixpoint atoms (pat : string) : option (list atom) :=
  match pat with
  | EmptyString => Some []
  | String c p =>
      if Ascii.eqb c "."%char then option_map (cons AnyChar) (atoms p)
      else if is_meta c then None
      else option_map (cons (Lit c)) (atoms p)
  end.

(** A pattern that starts with a repetition operator has nothing to
    repeat. *)
Definition starts_with_repeat (pat : string) : bool :=
  match pat with
  | String c _ => has_char c "*+?"
  | EmptyString => false
  end.

(** A parenthesis that is opened outside a character class, not escaped,
    and never closed. *)
Definition unclosed_group (pat : string) : bool :=
  has_char "("%char pat && negb (has_char ")"%char pat)
  && negb (has_char "\"%char pat) && negb (has_char "["%char pat).

Definition compile (pat : string) : outcome (list atom) :=
  match atoms pat with
  | Some r => Ok r
  | None =>
      if starts_with_repeat pat || unclosed_group pat
      then Raise ReError else Unmodelled
  end.

(** One pattern item against one character, ignoring case; the dot
    matches everything but LF. *)
Definition atom_matches (a : atom) (c : ascii) : bool :=
  match a with
  | Lit d => Ascii.eqb (lower_char d) (lower_char c)
  | AnyChar => negb (Ascii.eqb c LF)
  end.

Fixpoint match_here (r : list atom) (s : string) : bool :=
  match r, s with
  | [], _ => true
  | a :: r', String c s' => atom_matches a c && match_here r' s'
  | _ :: _, EmptyString => false
  end.

(** [pattern.search(s) is not None] *)
Fixpoint search (r : list atom) (s : string) : bool :=
  match_here r s ||
  match s with
  | EmptyString => false
  | String _ s' => search r s'
  end.

End Re.

(* ====================================================================== *)
(** * Selecting from a frame *)
(* ====================================================================== *)

Module Frame.
Import Py Pandas.

(** [df[col]] is a Series when one column carries the label and a frame
    when several do. *)
Inductive selection : Type :=
| SelSeries (values : list cell)
| SelFrame (sub : DataFrame).

Fixpoint label_positions (col : string) (i : nat) (cols : list string)
  : list nat :=
  match cols with
  | [] => []
  | c :: cs =>
      (if String.eqb c col then [i] else []) ++ label_positions col (S i) cs
  end.

Definition column_values (df : DataFrame) (i : nat) : list cell :=
  List.map (fun r => List.nth i r None) (rows df).

(** [df[col]] *)
Definition getitem (df : DataFrame) (col : string) : outcome selection :=
  match label_positions col 0 (columns df) with
  | [] => Raise KeyError
  | [i] => Ok (SelSeries (column_values df i))
  | ps =>
      Ok (SelFrame
            {| columns := List.map (fun _ => col) ps;
               rows := List.map (fun r => List.map (fun i => List.nth i r None) ps)
                                (rows df) |})
  end.

(** [str(x)] of a cell: NaN prints as [nan]. *)
Definition str_of_cell (c : cell) : string :=
  match c with
  | Some s => s
  | None => "nan"
  end.

(** [.astype(str)]: every value, NaN included, becomes its [str]. *)
Definition astype_str (s : selection) : selection :=
  match s with
  | SelSeries vs => SelSeries (List.map (fun c => Some (str_of_cell c)) vs)
  | SelFrame sub =>
      SelFrame {| columns := columns sub;
                  rows := List.map (List.map (fun c => Some (str_of_cell c)))
                                   (rows sub) |}
  end.

(** [.str]: only a Series has the accessor. *)
Definition str_accessor (s : selection) : outcome (list cell) :=
  match s with
  | SelSeries vs => Ok vs
  | SelFrame _ => Raise AttributeError
  end.

(** [.str.contains(pat, case=False, na=na)] *)
Definition str_contains (vs : list cell) (pat : string) (na : bool)
  : outcome (list bool) :=
  omap (fun r =>
          List.map (fun c => match c with
                             | Some s => Re.search r s
                             | None => na
                             end) vs)
       (Re.compile pat).

Fixpoint select_rows {A} (rs : list A) (mask : list bool) : list A :=
  match rs, mask with
  | r :: rs', b :: mask' =>
      if b then r :: select_rows rs' mask' else select_rows rs' mask'
  | _, _ => []
  end.

(** [df[mask]] for a boolean Series [mask] *)
Definition getitem_mask (df : DataFrame) (mask : list bool) : DataFrame :=
  {| columns := columns df; rows := select_rows (rows df) mask |}.

End Frame.

(* ====================================================================== *)
(** * Python: the repr of strings and lists *)
(* ====================================================================== *)

Module Repr.
Import Py Csv.

Definition BACKSLASH : ascii := "\"%char.

Definition hex_digit (n : N) : ascii :=
  match String.get (N.to_nat n) "0123456789abcdef" with
  | Some c => c
  | None => "0"%char
  end.

(** [c.isprintable()] within U+0000 .. U+00FF: the ASCII characters from
    the space to the tilde, and U+00A1 .. U+00FF except the soft hyphen. *)
Definition isprintable (c : ascii) : bool :=
  let n := N_of_ascii c in
  (((32 <=? n) && (n <=? 126)) || ((161 <=? n) && negb (n =? 173)))%N.

(** One character inside the quotes. *)
Definition escape (quote c : ascii) : string :=
  if Ascii.eqb c quote || Ascii.eqb c BACKSLASH
  then String BACKSLASH (String c EmptyString)
  else if Ascii.eqb c TAB then "\t"
  else if Ascii.eqb c LF then "\n"
  else if Ascii.eqb c CR then "\r"
  else if isprintable c then String c EmptyString
  else String BACKSLASH
         (String "x"%char
            (String (hex_digit (N_of_ascii c / 16)%N)
               (String (hex_digit (N_of_ascii c mod 16)%N) EmptyString))).

Fixpoint escape_all (quote : ascii) (s : string) : string :=
  match s with
  | EmptyString => EmptyString
  | String c s' => escape quote c +:+ escape_all quote s'
  end.

(** The quote [repr] puts around a string: the double quote when the
    string holds a single quote and no double quote. *)
Definition quote_of (s : string) : ascii :=
  if has_char SQUOTE s && negb (has_char DQUOTE s) then DQUOTE else SQUOTE.

(** [repr(s)] *)
Definition repr_str (s : string) : string :=
  String (quote_of s) (escape_all (quote_of s) s
                       +:+ String (quote_of s) EmptyString).

Fixpoint join_reprs (l : list string) : string :=
  match l with
  | [] => EmptyString
  | [s] => repr_str s
  | s :: l' => repr_str s +:+ ", " +:+ join_reprs l'
  end.

(** [repr(l)], which is also [str(l)], for a list of strings *)
Definition repr_list (l : list string) : string :=
  "[" +:+ join_reprs l +:+ "]".

End Repr.

(* ====================================================================== *)
(** * rich: console markup *)
(* ====================================================================== *)

(** [console.print] reads its text as markup.  A tag is an opening
    bracket, one of the characters a to z, hash, slash, at, then any
    characters but an opening bracket up to the first closing bracket; an
    odd number of backslashes in front of it makes it ordinary text.  A
    closing tag with nothing to close raises [MarkupError].  Whether two
    different style names are the same style is decided by the style
    parser of rich, which is not modelled: a closing tag is followed only
    when its name is the name of the tag opened last. *)
Module Rich.
Import Py Csv Repr.

Definition LBRACKET : ascii := "["%char.
Definition RBRACKET : ascii := "]"%char.
Definition SLASH : ascii := "/"%char.
Definition AT : ascii := "@"%char.
Definition HASH : ascii := "#"%char.
Definition EQUALS : ascii := "="%char.

(** The first character of a tag. *)
Definition tag_start (c : ascii) : bool :=
  let n := N_of_ascii c in
  ((97 <=? n) && (n <=? 122))%N
  || Ascii.eqb c HASH || Ascii.eqb c SLASH || Ascii.eqb c AT.

(** [text.partition("=")[0]]: the name of a tag. *)
Fixpoint before_equals (text : string) : string :=
  match text with
  | EmptyString => EmptyString
  | String c text' =>
      if Ascii.eqb c EQUALS then EmptyString
      else String c (before_equals text')
  end.

Fixpoint rev_onto (s acc : string) : string :=
  match s with
  | EmptyString => acc
  | String c s' => rev_onto s' (String c acc)
  end.

(** Whether a text, read backwards, starts with an odd number of
    backslashes. *)
Fixpoint odd_backslashes (reversed : string) : bool :=
  match reversed with
  | String c r => if Ascii.eqb c BACKSLASH then negb (odd_backslashes r)
                  else false
  | EmptyString => false
  end.

(** A closing tag against the stack of open tags, the last opened
    first. *)
Definition close_tag (style_name : string) (stack : list string)
  : outcome (list string) :=
  match stack with
  | [] => Raise MarkupError
  | top :: below =>
      match style_name with
      | EmptyString => Ok below                        (* implicit close *)
      | String _ _ =>
          if String.eqb (strip top) style_name then Ok below
          else Unmodelled
      end
  end.

(** One tag: an opening tag is put on the stack (handlers, whose names
    start with an at sign, are not modelled). *)
Definition apply_tag (text : string) (stack : list string)
  : outcome (list string) :=
  match before_equals text with
  | String c name =>
      if Ascii.eqb c SLASH then close_tag (strip name) stack
      else if Ascii.eqb c AT then Unmodelled
      else Ok (String c name :: stack)
  | EmptyString => Ok (EmptyString :: stack)
  end.

(** Where the scanner is: in ordinary text, after an odd or even number
    of backslashes; just after an opening bracket; or inside what may
    become a tag, whose text so far is kept backwards. *)
Inductive place : Type :=
| InText (escaped : bool)
| AfterBracket (escaped : bool)
| InTag (escaped : bool) (reversed : string).

Fixpoint scan (p : place) (stack : list string) (s : string)
  : outcome (place * list string) :=
  match s with
  | EmptyString => Ok (p, stack)
  | String c s' =>
      match p with
      | InText escaped =>
          if Ascii.eqb c LBRACKET then scan (AfterBracket escaped) stack s'
          else if Ascii.eqb c BACKSLASH
               then scan (InText (negb escaped)) stack s'
               else scan (InText false) stack s'
      | AfterBracket escaped =>
          if tag_start c
          then scan (InTag escaped (String c EmptyString)) stack s'
          else if Ascii.eqb c LBRACKET then scan (AfterBracket false) stack s'
          else if Ascii.eqb c BACKSLASH then scan (InText true) stack s'
          else scan (InText false) stack s'
      | InTag escaped reversed =>
          if Ascii.eqb c RBRACKET then
            if escaped then scan (InText false) stack s'
            else obind (apply_tag (rev_onto reversed EmptyString) stack)
                       (fun stack' => scan (InText false) stack' s')
          else if Ascii.eqb c LBRACKET
               then scan (AfterBracket (odd_backslashes reversed)) stack s'
               else scan (InTag escaped (String c reversed)) stack s'
      end
  end.

(** [rich.markup.render(markup)], for what it raises. *)
Definition render (markup : string) : outcome unit :=
  omap (fun _ => tt) (scan (InText false) [] markup).

(** Several texts rendered one after the other. *)
Fixpoint render_all (texts : list string) : outcome unit :=
  match texts with
  | [] => Ok tt
  | t :: texts' => obind (render t) (fun _ => render_all texts')
  end.

End Rich.

(* ====================================================================== *)
(** * The world: files, network, console *)
(* ====================================================================== *)

(** What the console is asked to print, one constructor per
    [console.print] call of the module. *)
Inductive message : Type :=
| UnknownMetadataType (metadata_type : string)
| FoundLocalFile (metadata_type fpath : string)
| Downloading (metadata_type url : string)
| Extracted (metadata_type base_dir : string)
| DownloadError (metadata_type : string) (e : exn)
| NotLocated (metadata_type : string)
| LoadError (metadata_type : string) (e : exn)
| LoadedColumns (cols : list string)
| NoSuitableColumn (metadata_type : string)
| UsingColumn (col : string)
| NoEntries (keyword metadata_type : string)
| FoundMatches (n : nat) (keyword metadata_type : string)
| Preview (matches : Pandas.DataFrame)
| SavedTo (results_dir fname : string)
| NoDataToSave (gene metadata_type : string)
| SavedSuccessfully (results_dir fname : string)
| SaveError (e : exn).

(** The text of a message as rich reads it, up to the exception it ends
    with.  The directories of the environment (the home directory, and
    with it the base and the results directory and the path of a cached
    file) are left out: they are taken to hold no opening bracket, and
    then rich finds no tag in them. *)
Definition markup (msg : message) : string :=
  match msg with
  | UnknownMetadataType t => "[red]Unknown metadata type: " +:+ t +:+ "[/red]"
  | FoundLocalFile t _ => "[green]Found local file for " +:+ t +:+ ":[/green] "
  | Downloading t u =>
      "[yellow]Downloading " +:+ t +:+ " from " +:+ u +:+ "...[/yellow]"
  | Extracted t _ => "[green]Extracted " +:+ t +:+ " into:[/green] "
  | DownloadError t _ =>
      "[red]Error downloading/extracting " +:+ t +:+ ":[/red] "
  | NotLocated t =>
      "[red]Error: could not locate " +:+ t +:+ " file after extraction.[/red]"
  | LoadError t _ => "[red]Error loading " +:+ t +:+ " file:[/red] "
  | LoadedColumns cols =>
      "[cyan]Loaded columns:[/cyan] " +:+ Repr.repr_list cols
  | NoSuitableColumn t => "[red]No suitable column found in " +:+ t +:+ "[/red]"
  | UsingColumn col => "[green]Using column:[/green] " +:+ col
  | NoEntries keyword t =>
      "[yellow]No entries found for '" +:+ keyword +:+ "' in " +:+ t
      +:+ "[/yellow]"
  | FoundMatches n keyword t =>
      "[green]Found " +:+ Pandas.decimal n +:+ " matches for '" +:+ keyword
      +:+ "' in " +:+ t +:+ "[/green]"
  | Preview _ => EmptyString
  | SavedTo _ fname =>
      "[green]Full dataset saved to:[/green] /" +:+ fname
      +:+ String Csv.LF EmptyString
  | NoDataToSave gene t =>
      "[yellow]No data to save for " +:+ gene +:+ " (" +:+ t +:+ ")[/yellow]"
  | SavedSuccessfully _ fname =>
      "[green]Full dataset saved successfully:[/green] /" +:+ fname
  | SaveError _ => "[red]Error while saving dataset:[/red] "
  end.

(** The exception whose [str] ends the text of a message. *)
Definition carried (msg : message) : option exn :=
  match msg with
  | DownloadError _ e | LoadError _ e | SaveError e => Some e
  | _ => None
  end.

(** What rendering the [str] of an exception ends in, after the tags
    of the message were closed.  The message of a [MarkupError] quotes
    the closing tag that failed, which fails again.  The messages of
    pandas, of the csv and re modules and of the codecs hold no tag.
    The message of an [OSError] names a directory made of the caller's
    text, and the messages of the server and of the archive come from
    the environment: they are not modelled. *)
Definition exn_renders (e : exn) : outcome unit :=
  match e with
  | MarkupError => Raise MarkupError
  | UnicodeDecodeError | EmptyDataError | ParserError | CsvError | ReError
  | AttributeError | FileNotFoundError => Ok tt
  | KeyError | OSError | RequestException | HTTPError | BadZipFile =>
      Unmodelled
  end.

(** The texts of the preview table in the order rich measures them:
    column by column, the header and then the cell of each of the first
    ten rows, for the first five columns.  [row.get(c, "N/A")] is the
    value of the row when one column carries the label [c]. *)
Fixpoint table_columns (df : Pandas.DataFrame) (cols : list string)
  : outcome unit :=
  match cols with
  | [] => Ok tt
  | c :: cols' =>
      match Frame.label_positions c 0 (Pandas.columns df) with
      | [i] =>
          obind (Rich.render_all
                   (c :: List.map (fun r => Frame.str_of_cell (List.nth i r None))
                                  (firstn 10 (Pandas.rows df))))
                (fun _ => table_columns df cols')
      | _ => Unmodelled
      end
  end.

(** What [console.print] of a message ends in. *)
Definition printed (msg : message) : outcome unit :=
  match msg with
  | Preview df => table_columns df (firstn 5 (Pandas.columns df))
  | _ =>
      obind (Rich.render (markup msg)) (fun _ =>
      match carried msg with
      | Some e => exn_renders e
      | None => Ok tt
      end)
  end.

Record World : Type := {
  fs : gmap string (list byte);      (* path -> contents *)
  requests : list string;            (* URLs fetched so far, oldest first *)
  console : list message             (* printed so far, oldest first *)
}.

(** What [requests.get], [raise_for_status], [ZipFile] and [extractall]
    end in for a URL: an exception before anything is written, or the
    members written into the target directory (as relative paths),
    followed or not by an exception. *)
Inductive response : Type :=
| Failed (e : exn)
| Extracts (members : list (string * list byte)) (then_raises : option exn).

(** How a block of statements ends when it does not raise. *)
Inductive flow (R A : Type) : Type :=
| Return (r : R)      (* the function returns [r] *)
| Next (a : A).       (* control goes on after the statement *)

Arguments Return {R A} r.
Arguments Next {R A} a.

Definition M (A : Type) : Type := World -> outcome A * World.

Definition ret {A} (a : A) : M A := fun w => (Ok a, w).

Definition bind {A B} (m : M A) (k : A -> M B) : M B :=
  fun w =>
    match m w with
    | (Ok a, w') => k a w'
    | (Raise e, w') => (Raise e, w')
    | (Unmodelled, w') => (Unmodelled, w')
    end.

(** [try: body  except Exception as e: handler(e)] *)
Definition try_except {A} (body : M A) (handler : exn -> M A) : M A :=
  fun w =>
    match body w with
    | (Raise e, w') => handler e w'
    | r => r
    end.

(** Lift a library call that does not touch the world. *)
Definition lift {A} (o : outcome A) : M A := fun w => (o, w).

Declare Scope pipe_scope.
Delimit Scope pipe_scope with pipe.
Notation "x <- m ;; k" := (bind m (fun x => k))
  (at level 100, m at next level, right associativity) : pipe_scope.
Notation "m ;;; k" := (bind m (fun _ => k))
  (at level 100, right associativity) : pipe_scope.

(** The world after [if not silent: console.print(msg)] went through. *)
Definition print_to (silent : bool) (msg : message) (w : World) : World :=
  if silent then w
  else {| fs := fs w; requests := requests w; console := console w ++ [msg] |}.

(** What [if not silent: console.print(msg)] ends in. *)
Definition print_outcome (silent : bool) (msg : message) : outcome unit :=
  if silent then Ok tt else printed msg.

(** [if not silent: console.print(msg)] *)
Definition say (silent : bool) (msg : message) : M unit :=
  fun w =>
    match print_outcome silent msg with
    | Ok _ => (Ok tt, print_to silent msg w)
    | Raise e => (Raise e, w)
    | Unmodelled => (Unmodelled, w)
    end.

(** [os.path.exists(path)]; the path map holds regular files only. *)
Definition path_exists (path : string) : M bool :=
  fun w => (Ok (bool_decide (is_Some (fs w !! path))), w).

(** [os.makedirs(path, exist_ok=True)] *)
Definition makedirs (path : string) : M unit := ret tt.

(** [os.path.join(d, f)] for a relative [f] *)
Definition path_join (d f : string) : string := d +:+ "/" +:+ f.

(** Whether a file named [fname] can be made in the results directory.
    The directory holds files only, as the program leaves it, so a name
    with a slash points into a directory that does not exist, and pandas
    raises [OSError].  A NUL and a name of more than 255 bytes are
    treated differently by different systems and are not modelled. *)
Definition creatable (fname : string) : outcome unit :=
  if Csv.has_char Rich.SLASH fname then Raise OSError
  else if Csv.has_char Csv.NUL fname
          || (255 <? List.length (Codec.utf8_encode fname))
       then Unmodelled
       else Ok tt.

(** [df.to_csv(os.path.join(d, fname), index=False)]: the file is
    opened, then written. *)
Definition to_csv_file (df : Pandas.DataFrame) (d fname : string) : M unit :=
  fun w =>
    match creatable fname with
    | Ok _ =>
        match Pandas.to_csv df with
        | Ok contents =>
            (Ok tt,
             {| fs := <[path_join d fname := contents]> (fs w);
                requests := requests w; console := console w |})
        | Raise e => (Raise e, w)
        | Unmodelled => (Unmodelled, w)
        end
    | Raise e => (Raise e, w)
    | Unmodelled => (Unmodelled, w)
    end.

(* ====================================================================== *)
(** * The catalog *)
(* ====================================================================== *)

Record MetadataSpec : Type := {
  filename : string;
  url : string;
  unzipped_files : list string
}.

Definition archive_root : string :=
  "https://dbarchive.biosciencedbc.jp/data/chip-atlas/LATEST/".

Definition spec_of (stem : string) : MetadataSpec :=
  {| filename := stem +:+ ".zip";
     url := archive_root +:+ stem +:+ ".zip";
     unzipped_files := [stem +:+ ".tsv"; stem +:+ ".csv"] |}.

Definition METADATA_SPECS : gmap string MetadataSpec :=
  list_to_map
    [ ("experiment_list", spec_of "chip_atlas_experiment_list");
      ("file_list", spec_of "chip_atlas_file_list");
      ("analysis_list", spec_of "chip_atlas_analysis_list");
      ("antigen_list", spec_of "chip_atlas_antigen_list");
      ("celltype_list", spec_of "chip_atlas_celltype_list") ].

(* ====================================================================== *)
(** * The pipeline ([Chip_Atlasmcp.py]) *)
(* ====================================================================== *)

Module ChipAtlas.
Import Py Codec Csv Pandas Frame Detect.
Local Open Scope pipe_scope.

Section Pipeline.

(** The user's home directory ([os.path.expanduser] of the tilde) and
    the archive server. *)
Variable home : string.
Variable remote : string -> response.

(** [os.path.expanduser("~/Chip_Atlasmcp")] *)
Definition base_dir : string := home +:+ "/Chip_Atlasmcp".

(** [os.path.expanduser("~/Chip_Atlasmcp/results")] *)
Definition results_dir : string := home +:+ "/Chip_Atlasmcp/results".

(** The first candidate file name whose path is in the path map. *)
Definition first_existing (m : gmap string (list byte))
           (fnames : list string) : option string :=
  option_map (path_join base_dir)
    (List.find (fun f => bool_decide (is_Some (m !! path_join base_dir f)))
               fnames).

(** The two [for fname in spec["unzipped_files"]] loops: the first
    candidate that exists. *)
Fixpoint find_local (fnames : list string) : M (option string) :=
  match fnames with
  | [] => ret None
  | fname :: rest =>
      let fpath := path_join base_dir fname in
      found <- path_exists fpath ;;
      if found then ret (Some fpath) else find_local rest
  end.

(** [zf.extractall(base_dir)] *)
Definition extract_members (members : list (string * list byte))
  : M unit :=
  fun w =>
    (Ok tt,
     {| fs := List.fold_left
                (fun m '(name, contents) =>
                   <[path_join base_dir name := contents]> m)
                members (fs w);
        requests := requests w;
        console := console w |}).

(** [requests.get(url, timeout=60)], [raise_for_status()] and the
    extraction of the archive. *)
Definition download (u : string) : M unit :=
  (fun w => (Ok tt, {| fs := fs w; requests := requests w ++ [u];
                       console := console w |})) ;;;
  match remote u with
  | Failed e => lift (Raise e)
  | Extracts members then_raises =>
      extract_members members ;;;
      match then_raises with
      | Some e => lift (Raise e)
      | None => ret tt
      end
  end.

Definition ensure_metadata_file (metadata_type : string) (silent : bool)
  : M (option string) :=
  match METADATA_SPECS !! metadata_type with
  | None =>
      say silent (UnknownMetadataType metadata_type) ;;;
      ret None
  | Some spec =>
      makedirs base_dir ;;;
      (* Check if file already present *)
      local <- find_local (unzipped_files spec) ;;
      match local with
      | Some fpath =>
          say silent (FoundLocalFile metadata_type fpath) ;;;
          ret (Some fpath)
      | None =>
          (* Download otherwise *)
          say silent (Downloading metadata_type (url spec)) ;;;
          r <- try_except
                 (download (url spec) ;;;
                  say silent (Extracted metadata_type base_dir) ;;;
                  ret (Next tt))
                 (fun e =>
                    say silent (DownloadError metadata_type e) ;;;
                    ret (Return None)) ;;
          match r with
          | Return v => ret v
          | Next _ =>
              (* Verify extracted file exists *)
              extracted <- find_local (unzipped_files spec) ;;
              match extracted with
              | Some fpath => ret (Some fpath)
              | None =>
                  say silent (NotLocated metadata_type) ;;;
                  ret None
              end
          end
      end
  end.

(** [pd.read_csv(fpath, sep=sep, dtype=str, encoding=enc,
    engine="python")] *)
Definition read_csv (fpath : string) (sep : option ascii) (enc : encoding)
  : M DataFrame :=
  fun w =>
    match fs w !! fpath with
    | None => (Raise FileNotFoundError, w)
    | Some contents => (parse_csv contents sep enc, w)
    end.

(** The two reads under one encoding: the parse, and the comma retry
    when it gave a single column. *)
Definition read_with (fpath : string) (sep : option ascii)
           (enc : encoding) : M DataFrame :=
  df <- read_csv fpath sep enc ;;
  if shape1 df =? 1 then read_csv fpath (Some COMMA) enc else ret df.

(** [df.columns = [c.strip() for c in df.columns]] *)
Definition strip_columns (df : DataFrame) : DataFrame :=
  {| columns := List.map strip (columns df); rows := rows df |}.

(** [sep = "\t" if fpath.endswith(".tsv") else None] *)
Definition sep_for (fpath : string) : option ascii :=
  if endswith fpath ".tsv" then Some TAB else None.

(** [load_metadata] from the [try] statement on, for the path that
    [ensure_metadata_file] returned. *)
Definition load_path (metadata_type : string) (silent : bool)
           (fpath : string) : M (option DataFrame) :=
  let sep := sep_for fpath in
  r <- try_except
         (df <- read_with fpath sep Utf8 ;; ret (Next df))
         (fun e =>
            if is_UnicodeDecodeError e
            then df <- read_with fpath sep Latin1 ;; ret (Next df)
            else say silent (LoadError metadata_type e) ;;;
                 ret (Return None)) ;;
  match r with
  | Return v => ret v
  | Next df =>
      let df := strip_columns df in
      say silent (LoadedColumns (columns df)) ;;;
      ret (Some df)
  end.

Definition load_metadata (metadata_type : string) (silent : bool)
  : M (option DataFrame) :=
  fpath <- ensure_metadata_file metadata_type silent ;;
  if truthy fpath
  then load_path metadata_type silent (default EmptyString fpath)
  else ret None.

(** [f"chip_atlas_{keyword}_{metadata_type}.csv"] *)
Definition results_name (keyword metadata_type : string) : string :=
  "chip_atlas_" +:+ keyword +:+ "_" +:+ metadata_type +:+ ".csv".

(** [os.path.join(results_dir, fname)] *)
Definition results_path (keyword metadata_type : string) : string :=
  path_join results_dir (results_name keyword metadata_type).

(** [df[df[col].astype(str).str.contains(keyword, case=False,
    na=False)]] *)
Definition filter_rows (df : DataFrame) (col keyword : string)
  : outcome DataFrame :=
  obind (getitem df col) (fun sel =>
  obind (str_accessor (astype_str sel)) (fun values =>
  obind (str_contains values keyword false) (fun mask =>
  Ok (getitem_mask df mask)))).

Definition fetch_and_display (metadata_type keyword column_hint : string)
           (silent : bool) : M (option DataFrame) :=
  loaded <- load_metadata metadata_type silent ;;
  match loaded with
  | None => ret None
  | Some df =>
      (* Smart column detection *)
      let col := detect_column (columns df) in
      if negb (truthy col) then
        say silent (NoSuitableColumn metadata_type) ;;;
        ret None
      else
        let col := default EmptyString col in
        say silent (UsingColumn col) ;;;
        (* Search keyword (case-insensitive) *)
        matches <- lift (filter_rows df col keyword) ;;
        if empty matches then
          say silent (NoEntries keyword metadata_type) ;;;
          ret None
        else
          say silent (FoundMatches (List.length (rows matches))
                                   keyword metadata_type) ;;;
          (* Display preview table *)
          say silent (Preview matches) ;;;
          (* Save full dataset *)
          makedirs results_dir ;;;
          let fname := results_name keyword metadata_type in
          to_csv_file matches results_dir fname ;;;
          say silent (SavedTo results_dir fname) ;;;
          ret (Some matches)
  end.

(** [save_full_dataset]; [df] is [None] or a frame. *)
Definition save_full_dataset (df : option DataFrame)
           (gene metadata_type : string) (silent : bool) : M unit :=
  try_except
    (match df with
     | None =>
         say silent (NoDataToSave gene metadata_type)
     | Some d =>
         if empty d then say silent (NoDataToSave gene metadata_type)
         else
           makedirs results_dir ;;;
           let filename := results_name gene metadata_type in
           to_csv_file d results_dir filename ;;;
           say silent (SavedSuccessfully results_dir filename)
     end)
    (fun e => say silent (SaveError e)).

End Pipeline.

End ChipAtlas.

(* ====================================================================== *)
(** * What the specification says, in its own words *)
(* ====================================================================== *)

(** ** Column detection *)
Module ColumnSpec.
Import Py.

(** A name equal to "antigen" case-insensitively. *)
Definition is_antigen (c : string) : Prop := lower c = "antigen".

(** A name containing the substring "antigen" case-insensitively. *)
Definition antigen_like (c : string) : Prop :=
  str_in "antigen" (lower c) = true.

(** [c] is the first column, in column order, that satisfies [P]. *)
Definition first_such (P : string -> Prop) (cols : list string) (c : string)
  : Prop :=
  exists before after,
    cols = before ++ c :: after /\ P c /\ (forall d, In d before -> ~ P d).

(** [c] is the shortest-named antigen-like column; among several of the
    shortest length it is the one that comes first. *)
Definition shortest_first (cols : list string) (c : string) : Prop :=
  exists before after,
    cols = before ++ c :: after /\ antigen_like c /\
    (forall d, In d before -> antigen_like d -> len c < len d) /\
    (forall d, In d after -> antigen_like d -> len c <= len d).

(** The priority order: exact match, shortest substring match, the
    column named "Cell type", nothing. *)
Inductive detects (cols : list string) : option string -> Prop :=
| by_exact_match c :
    first_such is_antigen cols c ->
    detects cols (Some c)
| by_substring c :
    (forall d, In d cols -> ~ is_antigen d) ->
    shortest_first cols c ->
    detects cols (Some c)
| by_cell_type :
    (forall d, In d cols -> ~ antigen_like d) ->
    In "Cell type" cols ->
    detects cols (Some "Cell type")
| by_nothing :
    (forall d, In d cols -> ~ antigen_like d) ->
    ~ In "Cell type" cols ->
    detects cols None.

(** A whitespace-trimmed name. *)
Definition trimmed (c : string) : Prop := strip c = c.

End ColumnSpec.

(** ** Keyword filter *)
Module FilterSpec.
Import Py Pandas Frame.

(** [value] contains [keyword] as a case-insensitive substring. *)
Definition contains_ci (keyword value : string) : bool :=
  str_in (lower keyword) (lower value).

(** The rows whose value in column number [i] contains the keyword;
    a NaN never matches. *)
Definition substring_matches (df : DataFrame) (i : nat) (keyword : string)
  : list (list cell) :=
  List.filter (fun r => match List.nth i r None with
                        | Some s => contains_ci keyword s
                        | None => false
                        end) (rows df).

(** A keyword without regular-expression metacharacters. *)
Definition plain_keyword (keyword : string) : Prop :=
  forall c, Csv.has_char c keyword = true -> Re.is_meta c = false.

(** The pattern of a keyword read literally. *)
Fixpoint lits (s : string) : list Re.atom :=
  match s with
  | EmptyString => []
  | String c s' => Re.Lit c :: lits s'
  end.

End FilterSpec.

(** ** Round trip through the results file *)
Module RoundTripSpec.
Import Py Csv Pandas.

Fixpoint all_chars (p : ascii -> bool) (s : string) : bool :=
  match s with
  | EmptyString => true
  | String c s' => p c && all_chars p s'
  end.









(** The fields of the rows as [to_csv] hands them to the writer. *)
Definition texts (rs : list (list cell)) : list (list string) :=
  List.map (List.map cell_text) rs.







End RoundTripSpec.

(* ====================================================================== *)
(** * The pipeline, step by step *)
(* ====================================================================== *)

(** Closed forms of the monadic definitions, used to reason about them. *)
Module Unfolded.
Import Py Codec Csv Pandas Frame Detect ChipAtlas.

(** A step that may print but touches neither files nor network. *)
Definition quiet {A} (m : M A) : Prop :=
  forall w, fs (snd (m w)) = fs w /\ requests (snd (m w)) = requests w.

(** A print followed by [k]. *)
Definition after_print {A} (silent : bool) (msg : message) (w : World)
           (k : World -> outcome A * World) : outcome A * World :=
  match print_outcome silent msg with
  | Ok _ => k (print_to silent msg w)
  | Raise e => (Raise e, w)
  | Unmodelled => (Unmodelled, w)
  end.

(** A text in which rich finds no tag: it has no opening bracket. *)
Definition plain (s : string) : Prop := has_char Rich.LBRACKET s = false.

(** The print is skipped, or every text of the caller or of the file
    that it shows is plain. *)
Definition shown (silent : bool) (texts : list string) : Prop :=
  silent = true \/ Forall plain texts.

(** The exceptions of a read: of the decoder, of the csv module and of
    pandas. *)
Definition read_error (e : exn) : bool :=
  match e with
  | UnicodeDecodeError | CsvError | ParserError | EmptyDataError => true
  | _ => false
  end.

(** The two reads under one encoding, on the contents of the file. *)
Definition parse_twice (contents : list byte) (sep : option ascii)
           (enc : encoding) : outcome DataFrame :=
  obind (parse_csv contents sep enc) (fun df =>
  if shape1 df =? 1 then parse_csv contents (Some COMMA) enc else Ok df).

(** What the table is and what is printed, when the reads gave [df]. *)
Definition loaded (silent : bool) (df : DataFrame) (w : World)
  : outcome (option DataFrame) * World :=
  after_print silent (LoadedColumns (columns (strip_columns df))) w
    (fun w' => (Ok (Some (strip_columns df)), w')).

(** The world after a file was written. *)
Definition written (path : string) (contents : list byte) (w : World)
  : World :=
  {| fs := <[path := contents]> (fs w); requests := requests w;
     console := console w |}.

(** The world after a request for [u]. *)
Definition requested (u : string) (w : World) : World :=
  {| fs := fs w; requests := requests w ++ [u]; console := console w |}.

(** The path map after the members of an archive were written under the
    base directory. *)
Definition extracted (home : string) (members : list (string * list byte))
           (m : gmap string (list byte)) : gmap string (list byte) :=
  List.fold_left
    (fun m '(name, contents) =>
       <[path_join (base_dir home) name := contents]> m)
    members m.

Definition unpacked (home : string) (members : list (string * list byte))
           (w : World) : World :=
  {| fs := extracted home members (fs w); requests := requests w;
     console := console w |}.

(** The keys of the catalog. *)
Definition known_types : list string :=
  ["experiment_list"; "file_list"; "analysis_list"; "antigen_list";
   "celltype_list"].

Section WithEnv.
Variable home : string.
Variable remote : string -> response.

(** The [try] statement of [ensure_metadata_file]. *)
Definition download_block (t : string) (silent : bool)
           (spec : MetadataSpec) : M (flow (option string) unit) :=
  try_except
    (bind (download home remote (url spec)) (fun _ =>
     bind (say silent (Extracted t (base_dir home))) (fun _ =>
     ret (Next tt))))
    (fun e => bind (say silent (DownloadError t e)) (fun _ =>
              ret (Return None))).

(** [fetch_and_display] after a successful load. *)
Definition after_load (t keyword : string) (silent : bool)
           (df : DataFrame) : M (option DataFrame) :=
  let col := detect_column (columns df) in
  if negb (truthy col) then
    bind (say silent (NoSuitableColumn t)) (fun _ => ret None)
  else
    let col := default EmptyString col in
    bind (say silent (UsingColumn col)) (fun _ =>
    bind (lift (filter_rows df col keyword)) (fun matches =>
    if empty matches then
      bind (say silent (NoEntries keyword t)) (fun _ => ret None)
    else
      bind (say silent (FoundMatches (List.length (rows matches)) keyword t)) (fun _ =>
      bind (say silent (Preview matches)) (fun _ =>
      bind (makedirs (results_dir home)) (fun _ =>
      bind (to_csv_file matches (results_dir home) (results_name keyword t)) (fun _ =>
      bind (say silent (SavedTo (results_dir home) (results_name keyword t))) (fun _ =>
      ret (Some matches)))))))).

End WithEnv.

End Unfolded.

(* ====================================================================== *)
(** * Example worlds *)
(* ====================================================================== *)

Module Examples.
Import Py Codec Csv Pandas Frame Detect ChipAtlas.

Definition home0 : string := "/home/user".

(** A server that cannot be reached. *)
Definition offline (u : string) : response := Failed RequestException.

Definition bytes_of (s : string) : list byte := list_byte_of_string s.

(** Fields joined by a tab, lines ended by LF. *)
Fixpoint tsv_line (fields : list string) : string :=
  match fields with
  | [] => String LF EmptyString
  | [f] => f +:+ String LF EmptyString
  | f :: fs => f +:+ String TAB (tsv_line fs)
  end.

Fixpoint tsv (lines : list (list string)) : string :=
  match lines with
  | [] => EmptyString
  | l :: ls => tsv_line l +:+ tsv ls
  end.

Definition world_with (path : string) (contents : list byte) : World :=
  {| fs := {[ path := contents ]}; requests := []; console := [] |}.

Definition experiment_tsv : string :=
  home0 +:+ "/Chip_Atlasmcp/chip_atlas_experiment_list.tsv".


(** The table of the specification's examples. *)
Definition antigen_table : list (list string) :=
  [ ["Experimental ID"; "Antigen"; "Cell type"];
    ["EXP001"; "TP53"; "Blood"];
    ["EXP002"; "TP53BP1"; "Bone"];
    ["EXP003"; "BRCA1"; "Breast"] ].

Definition antigen_frame : DataFrame :=
  {| columns := ["Experimental ID"; "Antigen"; "Cell type"];
     rows := [ [Some "EXP001"; Some "TP53"; Some "Blood"];
               [Some "EXP002"; Some "TP53BP1"; Some "Bone"];
               [Some "EXP003"; Some "BRCA1"; Some "Breast"] ] |}.

Definition w_cached : World :=
  world_with experiment_tsv (bytes_of (tsv antigen_table)).

(** Nothing cached yet; the server has the archive. *)
Definition w_fresh : World := {| fs := ∅; requests := []; console := [] |}.

Definition archive (u : string) : response :=
  Extracts [("chip_atlas_experiment_list.tsv", bytes_of (tsv antigen_table))]
           None.

(** A Latin-1 file: the byte E9 is not valid UTF-8. *)
Definition latin1_bytes : list byte :=
  bytes_of (tsv [["Antigen"; "Cell type "]]) ++
  bytes_of "TP53" ++ [x09; xe9] ++ bytes_of (String LF EmptyString).

Definition latin1_frame : DataFrame :=
  {| columns := ["Antigen"; "Cell type "];
     rows := [[Some "TP53"; Some (String (ascii_of_nat 233) EmptyString)]] |}.

Definition w_latin1 : World := world_with experiment_tsv latin1_bytes.

(** A Latin-1 file whose second column name holds a closing tag. *)
Definition tagged_bytes : list byte :=
  bytes_of (tsv [["Antigen"; "x[/b]"]]) ++
  bytes_of "TP53" ++ [x09; xe9] ++ bytes_of (String LF EmptyString).

Definition tagged_frame : DataFrame :=
  {| columns := ["Antigen"; "x[/b]"];
     rows := [[Some "TP53"; Some (String (ascii_of_nat 233) EmptyString)]] |}.

Definition w_tagged : World := world_with experiment_tsv tagged_bytes.

(** Two header fields that differ in surrounding whitespace only. *)
Definition w_padded_header : World :=
  world_with experiment_tsv
    (bytes_of (tsv [[" Antigen"; "Antigen"]; ["TP53"; "BRCA1"]])).

(** A Latin-1 file whose third line has one field too many. *)
Definition ragged_bytes : list byte :=
  bytes_of (tsv [["Antigen"; "Title"]]) ++
  bytes_of "TP53" ++ [x09; xe9] ++ bytes_of (String LF EmptyString) ++
  bytes_of (tsv [["BRCA1"; "x"; "y"]]).

Definition w_ragged : World := world_with experiment_tsv ragged_bytes.

(** The same lines in ASCII. *)
Definition w_ragged_ascii : World :=
  world_with experiment_tsv
    (bytes_of (tsv [["Antigen"; "Title"]; ["TP53"; "e"]; ["BRCA1"; "x"; "y"]])).

(** A column of antigens, the last value missing. *)
Definition antigens : DataFrame :=
  {| columns := ["Antigen"];
     rows := [[Some "TP53"]; [Some "TP53BP1"]; [Some "BRCA1"]; [None]] |}.




End Examples.

(* ====================================================================== *)
(** * Effects of the pipeline *)
(* ====================================================================== *)

Module Effects.
Import Py Pandas ChipAtlas.

(** The same files and the same requests; the consoles may differ. *)
Definition same_state (w w' : World) : Prop :=
  fs w = fs w' /\ requests w = requests w'.

(** A computation that prints nothing. *)
Definition mute {A} (m : M A) : Prop :=
  forall w, console (snd (m w)) = console w.

(** The lines of a query that found rows were all printed. *)
Definition lines_printed (home : string) (silent : bool)
           (col keyword t : string) (m : DataFrame) : Prop :=
  print_outcome silent (UsingColumn col) = Ok tt /\
  print_outcome silent (FoundMatches (List.length (rows m)) keyword t)
  = Ok tt /\
  print_outcome silent (Preview m) = Ok tt /\
  print_outcome silent (SavedTo (results_dir home) (results_name keyword t))
  = Ok tt.

(** What follows the keyword in the name of a results file. *)
Definition results_suffix (t : string) : string := "_" +:+ t +:+ ".csv".

End Effects.

(* ====================================================================== *)
(** * More servers *)
(* ====================================================================== *)

Module Scenarios.
Import Py Codec Csv Pandas Frame Detect ChipAtlas Examples.

(** A server whose archive breaks off after the first member was
    written. *)
Definition broken_archive (u : string) : response :=
  Extracts [("chip_atlas_experiment_list.tsv", bytes_of "Experimental ID")]
           (Some BadZipFile).

(** A server whose archive holds no candidate file. *)
Definition other_archive (u : string) : response :=
  Extracts [("README.txt", bytes_of "ChIP-Atlas")] None.

(** The match set of the keyword TP53 in the table of the examples. *)
Definition tp53_matches : DataFrame :=
  {| columns := columns antigen_frame;
     rows := firstn 2 (rows antigen_frame) |}.

(** A cached table with a slash in a value, and the match set of the
    keyword H3/H4 in it. *)
Definition antigen_tsv : string :=
  home0 +:+ "/Chip_Atlasmcp/chip_atlas_antigen_list.tsv".

Definition w_slashed : World :=
  world_with antigen_tsv
    (bytes_of (tsv [["Antigen"; "Class"];
                    ["H3/H4 tetramer"; "Histone"];
                    ["TP53"; "TFs and others"]])).

Definition slashed_matches : DataFrame :=
  {| columns := ["Antigen"; "Class"];
     rows := [[Some "H3/H4 tetramer"; Some "Histone"]] |}.

End Scenarios.

(* ====================================================================== *)
(** * The command line ([cli.py]) *)
(* ====================================================================== *)

Module Cli.
Import Py Pandas ChipAtlas.

(** What can be raised inside [fetch]: an exception of the pipeline, or
    [typer.Exit].  The latter is click's [Exit], a subclass of
    [RuntimeError], so [except Exception] handles it as well. *)
Inductive cli_exn : Type :=
| Pipeline (e : exn)
| Exit (code : nat).

(** What the console of [cli.py] is asked to print, one constructor per
    [console.print] call of [fetch]. *)
Inductive cli_message : Type :=
| Retrieving (metadata_type gene : string)
| NoDataFound (gene metadata_type : string)
| SavedUnder (gene metadata_type : string)
| ErrorWhile (e : cli_exn).

(** [cli.py] has a [Console] of its own beside the one of the pipeline;
    the two logs are kept apart.  Both read their texts as markup. *)
Record Terminal : Type := {
  world : World;
  cli_console : list cli_message
}.

Inductive result (A : Type) : Type :=
| Done (a : A)
| Raised (e : cli_exn)
| NotModelled.

Arguments Done {A} a.
Arguments Raised {A} e.
Arguments NotModelled {A}.

Definition C (A : Type) : Type := Terminal -> result A * Terminal.

Definition pure {A} (a : A) : C A := fun t => (Done a, t).

Definition and_then {A B} (m : C A) (k : A -> C B) : C B :=
  fun t =>
    match m t with
    | (Done a, t') => k a t'
    | (Raised e, t') => (Raised e, t')
    | (NotModelled, t') => (NotModelled, t')
    end.

Definition raise {A} (e : cli_exn) : C A := fun t => (Raised e, t).

(** [try: body  except Exception as e: handler(e)] *)
Definition try_catch {A} (body : C A) (handler : cli_exn -> C A) : C A :=
  fun t =>
    match body t with
    | (Raised e, t') => handler e t'
    | r => r
    end.

(** The text of a line of [fetch] as rich reads it, up to the
    exception it ends with. *)
Definition cli_markup (msg : cli_message) : string :=
  match msg with
  | Retrieving t gene =>
      "[bold cyan]Retrieving ChipAtlas " +:+ t
      +:+ " data for:[/bold cyan] " +:+ gene
  | NoDataFound gene t =>
      "[yellow]No data found for gene: " +:+ gene +:+ " in " +:+ t
      +:+ "[/yellow]"
  | SavedUnder gene t =>
      String Csv.LF
        ("[green]Full dataset (including all records and metadata) saved under results/chip_atlas_"
         +:+ gene +:+ "_" +:+ t +:+ ".csv[/green]"
         +:+ String Csv.LF EmptyString)
  | ErrorWhile _ => "[red]Error while fetching or displaying data:[/red] "
  end.

(** What [console.print] of a line ends in.  The [str] of a
    [typer.Exit] is empty. *)
Definition cli_printed (msg : cli_message) : outcome unit :=
  obind (Rich.render (cli_markup msg)) (fun _ =>
  match msg with
  | ErrorWhile (Pipeline e) => exn_renders e
  | _ => Ok tt
  end).

(** [console.print(msg)] on the console of [cli.py] *)
Definition print (msg : cli_message) : C unit :=
  fun t =>
    match cli_printed msg with
    | Ok _ =>
        (Done tt,
         {| world := world t; cli_console := cli_console t ++ [msg] |})
    | Raise e => (Raised (Pipeline e), t)
    | Unmodelled => (NotModelled, t)
    end.

(** A call into [Chip_Atlasmcp.py]. *)
Definition call {A} (m : M A) : C A :=
  fun t =>
    match m (world t) with
    | (Ok a, w) => (Done a, {| world := w; cli_console := cli_console t |})
    | (Raise e, w) =>
        (Raised (Pipeline e), {| world := w; cli_console := cli_console t |})
    | (Unmodelled, w) =>
        (NotModelled, {| world := w; cli_console := cli_console t |})
    end.

Declare Scope cli_scope.
Delimit Scope cli_scope with cli.
Notation "x <- m ;; k" := (and_then m (fun x => k))
  (at level 100, m at next level, right associativity) : cli_scope.
Notation "m ;;; k" := (and_then m (fun _ => k))
  (at level 100, right associativity) : cli_scope.
Local Open Scope cli_scope.

(** [data is None or (hasattr(data, "empty") and data.empty)] *)
Definition no_data (data : option DataFrame) : bool :=
  match data with
  | None => true
  | Some d => empty d
  end.

Section Commands.

Variable home : string.
Variable remote : string -> response.

(** The [fetch] command, for the parsed arguments [gene] and
    [--metadata-type]. *)
Definition fetch (gene metadata_type : string) : C unit :=
  print (Retrieving metadata_type gene) ;;;
  try_catch
    ((* Fetch and display the data *)
     data <- call (fetch_and_display home remote metadata_type gene
                                     "Antigen" false) ;;
     (if no_data data then
        print (NoDataFound gene metadata_type) ;;;
        raise (Exit 1)
      else pure tt) ;;;
     (* Save the full dataset *)
     call (save_full_dataset home data gene metadata_type false) ;;;
     print (SavedUnder gene metadata_type))
    (fun e =>
       print (ErrorWhile e) ;;;
       raise (Exit 1)).

End Commands.

End Cli.

(* ====================================================================== *)
(** * The tool adapter ([mcp_server.py]) *)
(* ====================================================================== *)

Module McpServer.
Import Py Pandas ChipAtlas.
Local Open Scope pipe_scope.

(** A Python [dict] with string keys, as the list of its items in
    insertion order. *)
Definition pydict : Type := list (string * cell).

(** [d[k] = v]: a key already present keeps its place. *)
Fixpoint dict_set (k : string) (v : cell) (d : pydict) : pydict :=
  match d with
  | [] => [(k, v)]
  | (k', v') :: d' =>
      if String.eqb k' k then (k', v) :: d' else (k', v') :: dict_set k v d'
  end.

(** [dict(zip(columns, row))] *)
Definition dict_zip (cols : list string) (row : list cell) : pydict :=
  List.fold_left (fun d kv => dict_set (fst kv) (snd kv) d)
                 (List.combine cols row) [].

(** [df.head(n)] *)
Definition head (n : nat) (df : DataFrame) : DataFrame :=
  {| columns := columns df; rows := firstn n (rows df) |}.

(** [df.to_dict(orient="records")] *)
Definition to_dict_records (df : DataFrame) : list pydict :=
  List.map (dict_zip (columns df)) (rows df).

(** The dictionaries [fetch_chip_atlas] returns, by their ["status"]:
    ["no_data"], ["success"] and ["error"] (whose message is the [str]
    of the exception). *)
Inductive tool_result : Type :=
| NoData (gene metadata_type message : string)
| Success (gene metadata_type : string) (rows_found : nat)
          (cols : list string) (preview : list pydict)
| Error (e : exn).

Section Tools.

Variable home : string.
Variable remote : string -> response.

(** [fetch_chip_atlas]; [run_in_executor] followed by [await] runs the
    call to its end before the coroutine goes on. *)
Definition fetch_chip_atlas (gene metadata_type : string) : M tool_result :=
  try_except
    (df <- fetch_and_display home remote metadata_type gene "Antigen" true ;;
     match df with
     | None =>
         ret (NoData gene metadata_type
                ("No results found for " +:+ gene +:+ " in " +:+
                 metadata_type +:+ "."))
     | Some d =>
         if empty d then
           ret (NoData gene metadata_type
                  ("No results found for " +:+ gene +:+ " in " +:+
                   metadata_type +:+ "."))
         else
           (* Save dataset silently *)
           save_full_dataset home df gene metadata_type true ;;;
           let preview := to_dict_records (head 10 d) in
           ret (Success gene metadata_type (List.length (rows d))
                        (columns d) preview)
     end)
    (fun e => ret (Error e)).

End Tools.

End McpServer.

(* ====================================================================== *)
(** * Properties of the string operations *)
(* ====================================================================== *)

Module PyFacts.
Import Py.

Lemma rstrip_cons c s :
  rstrip (String c s) =
  match rstrip s with
  | EmptyString => if isspace c then EmptyString else String c EmptyString
  | String d r => String c (String d r)
  end.
Proof. reflexivity. Qed.

Lemma lstrip_head s c t : lstrip s = String c t -> isspace c = false.
Proof.
  induction s as [|d s IH]; simpl; [discriminate|].
  destruct (isspace d) eqn:E; [exact IH|].
  intros [= <- <-]. exact E.
Qed.

Lemma rstrip_head s c t :
  rstrip s = String c t -> exists t', s = String c t'.
Proof.
  destruct s as [|d s]; [discriminate|]. rewrite rstrip_cons.
  destruct (rstrip s); [destruct (isspace d)|]; intros [= <- <-]; eauto.
Qed.

Lemma rstrip_idem s : rstrip (rstrip s) = rstrip s.
Proof.
  induction s as [|c s IH]; [reflexivity|].
  rewrite rstrip_cons.
  destruct (rstrip s) as [|d r] eqn:E.
  - destruct (isspace c) eqn:Ec; [reflexivity|].
    rewrite rstrip_cons. simpl. now rewrite Ec.
  - rewrite rstrip_cons, IH. reflexivity.
Qed.

Lemma lstrip_fixed s :
  (forall c t, s = String c t -> isspace c = false) -> lstrip s = s.
Proof.
  destruct s as [|c t]; simpl; [reflexivity|]. intros H.
  now rewrite (H c t eq_refl).
Qed.

(** Stripping twice is stripping once. *)
Lemma strip_idem s : strip (strip s) = strip s.
Proof.
  unfold strip.
  rewrite (lstrip_fixed (rstrip (lstrip s))).
  - apply rstrip_idem.
  - intros c t H. apply rstrip_head in H as [t' H].
    eapply lstrip_head; eauto.
Qed.

Lemma str_in_list_In x l : str_in_list x l = true <-> In x l.
Proof.
  unfold str_in_list. rewrite existsb_exists. split.
  - intros (y & Hy & E). apply String.eqb_eq in E. now subst.
  - intros H. exists x. split; [exact H|apply String.eqb_refl].
Qed.

(** The head of the stable sort by length is the first minimum. *)
Lemma head_insert_by_len x l :
  List.head (insert_by_len x l) =
  match List.head l with
  | None => Some x
  | Some m => if len x <=? len m then Some x else Some m
  end.
Proof.
  destruct l as [|y l]; simpl; [reflexivity|].
  now destruct (len x <=? len y).
Qed.

Lemma append_cons c s t : String c s +:+ t = String c (s +:+ t).
Proof. reflexivity. Qed.

Lemma append_nil_l s : EmptyString +:+ s = s.
Proof. reflexivity. Qed.

Lemma append_nil_r s : s +:+ EmptyString = s.
Proof.
  induction s as [|c s IH]; [reflexivity|].
  now rewrite append_cons, IH.
Qed.

Lemma append_assoc a b c : (a +:+ b) +:+ c = a +:+ (b +:+ c).
Proof.
  induction a as [|x a IH]; [reflexivity|].
  now rewrite !append_cons, IH.
Qed.

Lemma length_append a b :
  String.length (a +:+ b) = String.length a + String.length b.
Proof.
  induction a as [|c a IH]; [reflexivity|].
  rewrite append_cons. cbn [String.length]. now rewrite IH.
Qed.


End PyFacts.

(* ====================================================================== *)
(** * Properties of column detection *)
(* ====================================================================== *)

Module DetectFacts.
Import Py Detect ColumnSpec PyFacts.

Lemma shortest_possible_cons x l :
  shortest_possible (x :: l) =
  if antigen_in x then
    match shortest_possible l with
    | None => Some x
    | Some m => if len x <=? len m then Some x else Some m
    end
  else shortest_possible l.
Proof.
  unfold shortest_possible, possible_cols. simpl.
  destruct (antigen_in x); [|reflexivity].
  simpl. apply head_insert_by_len.
Qed.

Lemma shortest_possible_None l :
  shortest_possible l = None -> forall d, In d l -> antigen_in d = false.
Proof.
  induction l as [|x l IH]; [intros _ d []|].
  rewrite shortest_possible_cons. destruct (antigen_in x) eqn:E.
  - destruct (shortest_possible l); [destruct (_ <=? _)|]; discriminate.
  - intros H d [<-|Hd]; auto.
Qed.

Lemma shortest_first_min cols c :
  shortest_first cols c ->
  forall d, In d cols -> antigen_like d -> len c <= len d.
Proof.
  intros (l1 & l2 & -> & Hc & H1 & H2) d Hd Hl.
  apply in_app_or in Hd as [Hd|[<-|Hd]].
  - specialize (H1 d Hd Hl). lia.
  - lia.
  - auto.
Qed.

Lemma shortest_possible_Some l c :
  shortest_possible l = Some c -> shortest_first l c.
Proof.
  revert c. induction l as [|x l IH]; intros c; [discriminate|].
  rewrite shortest_possible_cons. destruct (antigen_in x) eqn:E.
  - destruct (shortest_possible l) as [m|] eqn:Em.
    + specialize (IH m eq_refl).
      destruct (len x <=? len m) eqn:Hle; intros [= <-].
      * apply Nat.leb_le in Hle. exists [], l.
        split; [reflexivity|]. split; [exact E|]. split; [intros d []|].
        intros d Hd Hl. pose proof (shortest_first_min _ _ IH d Hd Hl). lia.
      * apply Nat.leb_gt in Hle.
        destruct IH as (l1 & l2 & -> & Hm & H1 & H2).
        exists (x :: l1), l2.
        split; [reflexivity|]. split; [exact Hm|]. split; [|exact H2].
        intros d [<-|Hd] Hl; auto.
    + intros [= <-]. exists [], l.
      split; [reflexivity|]. split; [exact E|]. split; [intros d []|].
      intros d Hd Hl. pose proof (shortest_possible_None _ Em d Hd) as Hf.
      unfold antigen_like in Hl. unfold antigen_in in Hf. congruence.
  - intros H. destruct (IH c H) as (l1 & l2 & -> & Hm & H1 & H2).
    exists (x :: l1), l2.
    split; [reflexivity|]. split; [exact Hm|]. split; [|exact H2].
    intros d [<-|Hd] Hl; auto.
    unfold antigen_like in Hl. unfold antigen_in in E. congruence.
Qed.

Lemma find_first_such (f : string -> bool) l c :
  List.find f l = Some c -> first_such (fun d => f d = true) l c.
Proof.
  revert c. induction l as [|x l IH]; intros c; simpl; [discriminate|].
  destruct (f x) eqn:E.
  - intros [= <-]. exists [], l. repeat split; auto.
  - intros H. destruct (IH c H) as (l1 & l2 & -> & Hc & H1).
    exists (x :: l1), l2. repeat split; auto.
    intros d [<-|Hd]; [congruence|auto].
Qed.

(** Two ways of splitting a list around an element. *)
Lemma split_compare {A} (l1 l2 l1' l2' : list A) c c' :
  l1 ++ c :: l2 = l1' ++ c' :: l2' ->
  (In c l1' /\ In c' l2) \/ (l1 = l1' /\ c = c' /\ l2 = l2') \/
  (In c' l1 /\ In c l2').
Proof.
  revert l1'. induction l1 as [|x l1 IH]; intros [|y l1']; simpl.
  - intros [= -> ->]. auto.
  - intros [= ? ?]; subst. left. rewrite in_app_iff. simpl. auto.
  - intros [= ? ?]; subst. right. right. rewrite in_app_iff. simpl. auto.
  - intros [= -> H]. destruct (IH _ H) as [[? ?]|[(-> & -> & ->)|[? ?]]]; auto.
Qed.

Lemma first_such_unique P l c c' :
  first_such P l c -> first_such P l c' -> c = c'.
Proof.
  intros (l1 & l2 & -> & Hc & H1) (l1' & l2' & E & Hc' & H1').
  destruct (split_compare _ _ _ _ _ _ E) as [[H _]|[(_ & H & _)|[H _]]].
  - now destruct (H1' _ H).
  - exact H.
  - now destruct (H1 _ H).
Qed.

Lemma shortest_first_unique l c c' :
  shortest_first l c -> shortest_first l c' -> c = c'.
Proof.
  intros (l1 & l2 & -> & Hc & H1 & H2) (l1' & l2' & E & Hc' & H1' & H2').
  destruct (split_compare _ _ _ _ _ _ E) as [[Ha Hb]|[(_ & H & _)|[Ha Hb]]].
  - specialize (H1' _ Ha Hc). specialize (H2 _ Hb Hc'). lia.
  - exact H.
  - specialize (H1 _ Ha Hc'). specialize (H2' _ Hb Hc). lia.
Qed.

Lemma is_antigen_like c : is_antigen c -> antigen_like c.
Proof. unfold is_antigen, antigen_like. intros ->. reflexivity. Qed.

Lemma antigen_like_truthy c : antigen_like c -> truthy (Some c) = true.
Proof. destruct c; [discriminate|reflexivity]. Qed.

Lemma exact_antigen_trimmed c :
  trimmed c -> exact_antigen c = true <-> is_antigen c.
Proof.
  unfold trimmed, exact_antigen, is_antigen. intros ->.
  apply String.eqb_eq.
Qed.

Lemma first_such_in P l c : first_such P l c -> In c l /\ P c.
Proof.
  intros (l1 & l2 & -> & Hc & _). split; [|exact Hc].
  apply in_or_app. right. now left.
Qed.

Lemma shortest_first_in l c : shortest_first l c -> In c l /\ antigen_like c.
Proof.
  intros (l1 & l2 & -> & Hc & _). split; [|exact Hc].
  apply in_or_app. right. now left.
Qed.

(** The priority order determines the result. *)
Lemma detects_functional cols r r' :
  detects cols r -> detects cols r' -> r = r'.
Proof.
  intros H H'.
  destruct H as [c Hc|c Hn Hc|Hn Hi|Hn Hi];
    destruct H' as [c' Hc'|c' Hn' Hc'|Hn' Hi'|Hn' Hi'];
    try reflexivity; try contradiction;
    repeat match goal with
      | H : first_such _ _ _ |- _ = _ =>
          f_equal; eapply first_such_unique; eassumption
      | H : shortest_first _ _ |- Some _ = Some _ =>
          f_equal; eapply shortest_first_unique; eassumption
      | H : first_such is_antigen _ _ |- _ =>
          apply first_such_in in H as [? ?]
      | H : shortest_first _ _ |- _ =>
          apply shortest_first_in in H as [? ?]
      end;
    exfalso;
    match goal with
    | Hno : forall d, In d cols -> ~ is_antigen d, Hin : In ?c cols |- _ =>
        solve [apply (Hno c Hin); assumption]
    | Hno : forall d, In d cols -> ~ antigen_like d, Hin : In ?c cols |- _ =>
        solve [apply (Hno c Hin); auto using is_antigen_like]
    end.
Qed.

(** On trimmed names, [detect_column] follows the priority order. *)
Lemma detect_column_detects cols :
  Forall trimmed cols -> detects cols (detect_column cols).
Proof.
  intros Ht. unfold detect_column. rewrite List.Forall_forall in Ht.
  destruct (List.find exact_antigen cols) as [c|] eqn:Ef.
  - (* priority 1 *)
    pose proof (find_some _ _ Ef) as [Hin Hex].
    assert (Hc : is_antigen c).
    { apply exact_antigen_trimmed; [|exact Hex]. now apply Ht. }
    assert (Hnz : truthy (Some c) = true)
      by apply (antigen_like_truthy c (is_antigen_like c Hc)).
    cbv zeta. rewrite Hnz. cbn [negb andb]. rewrite Hnz. cbn [negb andb].
    apply by_exact_match.
    destruct (find_first_such _ _ _ Ef) as (l1 & l2 & -> & _ & H1).
    exists l1, l2. repeat split; auto.
    intros d Hd Hda. apply (H1 d Hd).
    apply exact_antigen_trimmed; [|exact Hda].
    apply Ht. apply in_or_app. left. exact Hd.
  - assert (Hno : forall d, In d cols -> ~ is_antigen d).
    { intros d Hd Hda. pose proof (find_none _ _ Ef d Hd) as Hf.
      apply exact_antigen_trimmed in Hda; [congruence|].
      apply Ht. exact Hd. }
    cbv zeta. cbn [truthy negb].
    destruct (possible_cols cols) as [|p ps] eqn:Ep.
    + (* no antigen-like column *)
      assert (Hnl : forall d, In d cols -> ~ antigen_like d).
      { intros d Hd Hl.
        assert (In d (possible_cols cols)) by (apply filter_In; auto).
        rewrite Ep in H. destruct H. }
      cbn [truthy negb andb].
      destruct (str_in_list "Cell type" cols) eqn:Ec.
      * apply by_cell_type; auto. now apply str_in_list_In.
      * apply by_nothing; auto. rewrite <- str_in_list_In. congruence.
    + (* priority 2 *)
      destruct (shortest_possible cols) as [c|] eqn:Epick.
      * pose proof (shortest_possible_Some _ _ Epick) as Hs.
        assert (antigen_like c) by (destruct Hs as (? & ? & _ & ? & _); auto).
        rewrite (antigen_like_truthy c H). cbn [negb andb].
        now apply by_substring.
      * exfalso. pose proof (shortest_possible_None _ Epick p) as Hp.
        assert (In p (possible_cols cols)) by (rewrite Ep; now left).
        apply filter_In in H as [Hin Hl]. specialize (Hp Hin).
        congruence.
Qed.

Lemma detect_column_spec cols :
  Forall trimmed cols ->
  forall r, detects cols r <-> detect_column cols = r.
Proof.
  intros Ht r. split.
  - intros H. eapply detects_functional; [|exact H].
    now apply detect_column_detects.
  - intros <-. now apply detect_column_detects.
Qed.

Lemma detects_truthy cols c : detects cols (Some c) -> truthy (Some c) = true.
Proof.
  intros H. inversion H as [c' Hc|c' Hn Hc|Hn Hi|]; subst.
  - apply first_such_in in Hc as [_ Hc].
    now apply antigen_like_truthy, is_antigen_like.
  - apply shortest_first_in in Hc as [_ Hc]. now apply antigen_like_truthy.
  - reflexivity.
Qed.

End DetectFacts.

(* ====================================================================== *)
(** * Properties of the keyword filter *)
(* ====================================================================== *)

Module FilterFacts.
Import Py Csv Pandas Frame Re ChipAtlas FilterSpec.

Lemma atoms_plain kw : plain_keyword kw -> atoms kw = Some (lits kw).
Proof.
  induction kw as [|c kw IH]; intros H; simpl; [reflexivity|].
  assert (Hc : is_meta c = false).
  { apply H. simpl. now rewrite Ascii.eqb_refl. }
  assert (Hd : Ascii.eqb c "."%char = false).
  { destruct (Ascii.eqb c "."%char) eqn:E; [|reflexivity].
    apply Ascii.eqb_eq in E. subst. discriminate. }
  rewrite Hd, Hc, IH; [reflexivity|].
  intros d Hdin. apply H. simpl. rewrite Hdin. apply orb_true_r.
Qed.

Lemma match_here_lits kw s :
  match_here (lits kw) s = startswith (lower kw) (lower s).
Proof.
  revert s. induction kw as [|c kw IH]; intros s; simpl; [reflexivity|].
  destruct s as [|d s]; simpl; [reflexivity|]. now rewrite IH.
Qed.

Lemma search_lits kw s : search (lits kw) s = contains_ci kw s.
Proof.
  unfold contains_ci.
  induction s as [|d s IH].
  - simpl. rewrite match_here_lits. reflexivity.
  - cbn [search lower str_in]. rewrite match_here_lits, IH. reflexivity.
Qed.

Lemma select_rows_map {A} (f : A -> bool) (rs : list A) :
  select_rows rs (List.map f rs) = List.filter f rs.
Proof.
  induction rs as [|r rs IH]; simpl; [reflexivity|].
  destruct (f r); now rewrite IH.
Qed.

Lemma select_rows_map2 {A B} (f : B -> bool) (g : A -> B) (rs : list A) :
  select_rows rs (List.map f (List.map g rs)) = List.filter (fun r => f (g r)) rs.
Proof. rewrite map_map. apply select_rows_map. Qed.

End FilterFacts.

(* ====================================================================== *)
(** * Properties of the codecs and of the CSV reader and writer *)
(* ====================================================================== *)

Module CodecFacts.
Import Codec.



End CodecFacts.

Module CsvFacts.
Import Py Csv Pandas RoundTripSpec PyFacts.

Lemma has_char_append c a b :
  has_char c (a +:+ b) = has_char c a || has_char c b.
Proof.
  induction a as [|x a IH]; [reflexivity|].
  rewrite append_cons. cbn [has_char]. now rewrite IH, orb_assoc.
Qed.



Lemma all_chars_weaken (p q : ascii -> bool) s :
  (forall c, p c = true -> q c = true) ->
  all_chars p s = true -> all_chars q s = true.
Proof.
  intros Hpq. induction s as [|d s IH]; simpl; [reflexivity|].
  intros H. apply andb_prop in H as [Hd Hs]. now rewrite (Hpq d Hd), IH.
Qed.






(** ** Fields that are written bare *)






(** ** Fields that are written in quotes *)



(** ** Any field, as the writer writes it *)









End CsvFacts.

(* ====================================================================== *)
(** * Texts that print *)
(* ====================================================================== *)

Module RichFacts.
Import Py Csv Pandas Repr Rich Unfolded PyFacts CsvFacts.

Lemma plain_cons c s :
  plain (String c s) <-> Ascii.eqb c LBRACKET = false /\ plain s.
Proof.
  unfold plain. cbn [has_char]. rewrite Ascii.eqb_sym.
  destruct (Ascii.eqb c LBRACKET); cbn [orb]; intuition congruence.
Qed.

Lemma plain_append a b : plain (a +:+ b) <-> plain a /\ plain b.
Proof.
  unfold plain. rewrite has_char_append.
  destruct (has_char LBRACKET a), (has_char LBRACKET b); cbn [orb];
    intuition congruence.
Qed.

(** The scanner goes through a text piece by piece. *)
Lemma scan_append p stack a b :
  scan p stack (a +:+ b) =
  obind (scan p stack a) (fun r => scan (fst r) (snd r) b).
Proof.
  revert p stack. induction a as [|c a IH]; intros p stack; [reflexivity|].
  rewrite append_cons. cbn [scan].
  destruct p as [e|e|e r].
  - destruct (Ascii.eqb c LBRACKET); [apply IH|].
    destruct (Ascii.eqb c BACKSLASH); apply IH.
  - destruct (tag_start c); [apply IH|].
    destruct (Ascii.eqb c LBRACKET); [apply IH|].
    destruct (Ascii.eqb c BACKSLASH); apply IH.
  - destruct (Ascii.eqb c RBRACKET).
    + destruct e; [apply IH|].
      destruct (apply_tag (rev_onto r EmptyString) stack) as [st| |];
        cbn [obind]; [apply IH|reflexivity..].
    + destruct (Ascii.eqb c LBRACKET); apply IH.
Qed.

(** In a plain text the scanner stays in the text and leaves the open
    tags alone. *)
Lemma scan_plain e stack s :
  plain s -> exists e', scan (InText e) stack s = Ok (InText e', stack).
Proof.
  revert e. induction s as [|c s IH]; intros e H; [eexists; reflexivity|].
  apply plain_cons in H as [Hc Hs]. cbn [scan]. rewrite Hc.
  destruct (Ascii.eqb c BACKSLASH); now apply IH.
Qed.

(** A plain text after an opening bracket is no tag when it does not
    start like one. *)
Lemma scan_plain_after_bracket e stack c s :
  tag_start c = false -> plain (String c s) ->
  exists e', scan (AfterBracket e) stack (String c s)
             = Ok (InText e', stack).
Proof.
  intros Ht H. apply plain_cons in H as [Hc Hs]. cbn [scan].
  rewrite Ht, Hc. destruct (Ascii.eqb c BACKSLASH); now apply scan_plain.
Qed.

Lemma render_plain s : plain s -> render s = Ok tt.
Proof.
  intros H. unfold render.
  destruct (scan_plain false [] s H) as [e ->]. reflexivity.
Qed.

Lemma render_all_plain texts : Forall plain texts -> render_all texts = Ok tt.
Proof.
  induction 1 as [|t texts Ht _ IH]; [reflexivity|].
  cbn [render_all]. now rewrite (render_plain _ Ht).
Qed.

(** ** The repr of plain strings *)

Lemma escape_plain q c :
  Ascii.eqb c LBRACKET = false -> Ascii.eqb q LBRACKET = false ->
  plain (escape q c).
Proof.
  intros Hc Hq. unfold escape.
  destruct (Ascii.eqb c q || Ascii.eqb c BACKSLASH).
  { apply plain_cons. split; [reflexivity|]. apply plain_cons. now split. }
  destruct (Ascii.eqb c TAB); [reflexivity|].
  destruct (Ascii.eqb c LF); [reflexivity|].
  destruct (Ascii.eqb c CR); [reflexivity|].
  destruct (isprintable c); [apply plain_cons; now split|].
  apply plain_cons. split; [reflexivity|].
  apply plain_cons. split; [reflexivity|].
  assert (Hhex : forall n, Ascii.eqb (hex_digit n) LBRACKET = false).
  { intros n. unfold hex_digit. generalize (N.to_nat n) as k. intros k.
    do 16 (destruct k as [|k]; [reflexivity|]). reflexivity. }
  apply plain_cons. split; [apply Hhex|].
  apply plain_cons. split; [apply Hhex|reflexivity].
Qed.

Lemma quote_of_cases s : quote_of s = SQUOTE \/ quote_of s = DQUOTE.
Proof. unfold quote_of. destruct (_ && _); auto. Qed.

Lemma escape_all_plain q s :
  Ascii.eqb q LBRACKET = false -> plain s -> plain (escape_all q s).
Proof.
  intros Hq. induction s as [|c s IH]; intros H; [reflexivity|].
  apply plain_cons in H as [Hc Hs]. cbn [escape_all].
  apply plain_append. split; [now apply escape_plain|now apply IH].
Qed.

Lemma repr_str_plain s : plain s -> plain (repr_str s).
Proof.
  intros H. unfold repr_str.
  assert (Hq : Ascii.eqb (quote_of s) LBRACKET = false)
    by (destruct (quote_of_cases s) as [-> | ->]; reflexivity).
  apply plain_cons. split; [exact Hq|].
  apply plain_append. split; [now apply escape_all_plain|].
  apply plain_cons. now split.
Qed.

Lemma join_reprs_plain l : Forall plain l -> plain (join_reprs l).
Proof.
  induction 1 as [|s l Hs Hl IH]; [reflexivity|].
  cbn [join_reprs]. destruct l as [|s' l']; [now apply repr_str_plain|].
  apply plain_append. split; [now apply repr_str_plain|].
  apply plain_append. split; [reflexivity|exact IH].
Qed.

(** The brackets of a list of plain strings are no tag. *)
Lemma scan_repr_list e stack l :
  Forall plain l ->
  exists e', scan (InText e) stack (repr_list l) = Ok (InText e', stack).
Proof.
  intros H. unfold repr_list.
  change ("[" +:+ join_reprs l +:+ "]")
    with (String LBRACKET (join_reprs l +:+ "]")).
  cbn [scan]. rewrite Ascii.eqb_refl.
  destruct l as [|s l]; [eexists; reflexivity|].
  assert (Hp : plain (join_reprs (s :: l) +:+ "]")).
  { apply plain_append. split; [now apply join_reprs_plain|reflexivity]. }
  assert (Hstart : exists rest,
             join_reprs (s :: l) +:+ "]" = String (quote_of s) rest).
  { cbn [join_reprs]. unfold repr_str.
    destruct l; rewrite ?append_cons; eexists; reflexivity. }
  destruct Hstart as [rest Hrest]. rewrite Hrest in *.
  apply scan_plain_after_bracket; [|exact Hp].
  destruct (quote_of_cases s) as [-> | ->]; reflexivity.
Qed.

(** ** Numbers *)

Lemma string_of_uint_plain d : plain (NilEmpty.string_of_uint d).
Proof. induction d; cbn [NilEmpty.string_of_uint]; try reflexivity;
         apply plain_cons; (split; [reflexivity|assumption]). Qed.

Lemma decimal_plain n : plain (decimal n).
Proof.
  unfold decimal, NilZero.string_of_uint.
  destruct (Nat.to_uint n); try reflexivity; apply string_of_uint_plain.
Qed.

(** ** The messages *)

(** Scan the literal text in front. *)
Ltac scan_literal :=
  rewrite scan_append;
  match goal with
  | |- context [obind (scan ?p ?st ?s) _] =>
      let v := eval vm_compute in (scan p st s) in
      change (scan p st s) with v
  end;
  cbn [obind fst snd].

(** Scan a plain text of the caller or of the file. *)
Ltac scan_text H :=
  rewrite scan_append;
  let e := fresh "e" in
  match goal with
  | |- context [obind (scan (InText ?b) ?st ?s) _] =>
      destruct (scan_plain b st s H) as [e ->]
  end;
  cbn [obind fst snd].

(** Scan the literal text at the end. *)
Ltac scan_end :=
  repeat match goal with
         | e : bool |- _ => destruct e
         end;
  reflexivity.

Lemma printed_unknown t : plain t -> printed (UnknownMetadataType t) = Ok tt.
Proof.
  intros H. unfold printed, markup, carried, render.
  scan_literal. scan_text H. scan_end.
Qed.

Lemma printed_no_suitable t : plain t -> printed (NoSuitableColumn t) = Ok tt.
Proof.
  intros H. unfold printed, markup, carried, render.
  scan_literal. scan_text H. scan_end.
Qed.

Lemma printed_found_local t p : plain t -> printed (FoundLocalFile t p) = Ok tt.
Proof.
  intros H. unfold printed, markup, carried, render.
  scan_literal. scan_text H. scan_end.
Qed.

Lemma printed_downloading t u :
  plain t -> plain u -> printed (Downloading t u) = Ok tt.
Proof.
  intros H Hu. unfold printed, markup, carried, render.
  scan_literal. scan_text H. scan_literal. scan_text Hu. scan_end.
Qed.

Lemma printed_extracted t d : plain t -> printed (Extracted t d) = Ok tt.
Proof.
  intros H. unfold printed, markup, carried, render.
  scan_literal. scan_text H. scan_end.
Qed.

Lemma printed_not_located t : plain t -> printed (NotLocated t) = Ok tt.
Proof.
  intros H. unfold printed, markup, carried, render.
  scan_literal. scan_text H. scan_end.
Qed.


Lemma printed_load_error t e :
  plain t -> printed (LoadError t e) = exn_renders e.
Proof.
  intros H. unfold printed, markup, carried, render.
  scan_literal. scan_text H.
  repeat match goal with b : bool |- _ => destruct b end;
    cbn; now destruct (exn_renders e) as [[]| |].
Qed.

Lemma printed_save_error e : printed (SaveError e) = exn_renders e.
Proof.
  unfold printed, markup, carried, render. cbn.
  now destruct (exn_renders e) as [[]| |].
Qed.

Lemma printed_loaded_columns cols :
  Forall plain cols -> printed (LoadedColumns cols) = Ok tt.
Proof.
  intros H. unfold printed, markup, carried, render.
  scan_literal.
  now destruct (scan_repr_list false [] cols H) as [e ->].
Qed.

Lemma printed_using_column col : plain col -> printed (UsingColumn col) = Ok tt.
Proof.
  intros H. unfold printed, markup, carried, render.
  scan_literal.
  now destruct (scan_plain false [] col H) as [e ->].
Qed.

Lemma printed_no_entries keyword t :
  plain keyword -> plain t -> printed (NoEntries keyword t) = Ok tt.
Proof.
  intros Hk Ht. unfold printed, markup, carried, render.
  scan_literal. scan_text Hk. scan_literal. scan_text Ht. scan_end.
Qed.

Lemma printed_found_matches n keyword t :
  plain keyword -> plain t -> printed (FoundMatches n keyword t) = Ok tt.
Proof.
  intros Hk Ht. pose proof (decimal_plain n) as Hn.
  unfold printed, markup, carried, render.
  scan_literal. scan_text Hn. scan_literal. scan_text Hk.
  scan_literal. scan_text Ht. scan_end.
Qed.

Lemma printed_no_data gene t :
  plain gene -> plain t -> printed (NoDataToSave gene t) = Ok tt.
Proof.
  intros Hg Ht. unfold printed, markup, carried, render.
  scan_literal. scan_text Hg. scan_literal. scan_text Ht. scan_end.
Qed.

Lemma printed_saved_to d fname : plain fname -> printed (SavedTo d fname) = Ok tt.
Proof.
  intros H. unfold printed, markup, carried, render.
  scan_literal. scan_text H. scan_end.
Qed.

Lemma printed_saved_successfully d fname :
  plain fname -> printed (SavedSuccessfully d fname) = Ok tt.
Proof.
  intros H. unfold printed, markup, carried, render.
  scan_literal.
  now destruct (scan_plain false [] fname H) as [e ->].
Qed.

End RichFacts.

(* ====================================================================== *)
(** * Properties of the pipeline steps *)
(* ====================================================================== *)

Module WorldFacts.
Import Py Codec Csv Pandas Frame Detect ChipAtlas ColumnSpec PyFacts
       DetectFacts Unfolded RichFacts.

Lemma quiet_ret {A} (a : A) : quiet (ret a).
Proof. intros w. split; reflexivity. Qed.

Lemma quiet_say silent msg : quiet (say silent msg).
Proof.
  intros w. unfold say, print_to.
  destruct (print_outcome silent msg); destruct silent; split; reflexivity.
Qed.

Lemma quiet_path_exists p : quiet (path_exists p).
Proof. intros w. split; reflexivity. Qed.

Lemma quiet_bind {A B} (m : M A) (k : A -> M B) :
  quiet m -> (forall a, quiet (k a)) -> quiet (bind m k).
Proof.
  intros Hm Hk w. unfold bind. specialize (Hm w).
  destruct (m w) as [[a|e|] w1]; simpl in *.
  - destruct (Hk a w1) as [H1 H2]. destruct Hm as [H3 H4]. split; congruence.
  - exact Hm.
  - exact Hm.
Qed.

Lemma fs_print_to silent msg w : fs (print_to silent msg w) = fs w.
Proof. now destruct silent. Qed.

Lemma requests_print_to silent msg w :
  requests (print_to silent msg w) = requests w.
Proof. now destruct silent. Qed.

Lemma console_print_to silent msg w :
  console (print_to silent msg w) =
  if silent then console w else console w ++ [msg].
Proof. now destruct silent. Qed.

Ltac world_step :=
  match goal with
  | |- context [fs (print_to ?s ?m ?w)] => rewrite (fs_print_to s m w)
  | |- context [requests (print_to ?s ?m ?w)] =>
      rewrite (requests_print_to s m w)
  end.

Ltac world_simpl :=
  repeat first
    [ world_step
    | progress cbn [fs requests requested unpacked written] ].

(** ** Prints *)

Lemma print_outcome_silent msg : print_outcome true msg = Ok tt.
Proof. reflexivity. Qed.

Lemma print_outcome_ok silent msg :
  silent = true \/ printed msg = Ok tt -> print_outcome silent msg = Ok tt.
Proof. intros [->|H]; [reflexivity|]. now destruct silent. Qed.

Lemma after_print_ok {A} silent msg w (k : World -> outcome A * World) :
  print_outcome silent msg = Ok tt ->
  after_print silent msg w k = k (print_to silent msg w).
Proof. intros H. unfold after_print. now rewrite H. Qed.

Lemma after_print_ext {A} silent msg w (k k' : World -> outcome A * World) :
  (forall w', k w' = k' w') ->
  after_print silent msg w k = after_print silent msg w k'.
Proof.
  intros H. unfold after_print. destruct (print_outcome silent msg); auto.
Qed.

(** A print changes neither files nor requests, however it ends. *)
Lemma after_print_frame {A} silent msg w (k : World -> outcome A * World) m r :
  (forall w', fs w' = fs w -> requests w' = requests w ->
              fs (snd (k w')) = m /\ requests (snd (k w')) = r) ->
  fs w = m -> requests w = r ->
  fs (snd (after_print silent msg w k)) = m /\
  requests (snd (after_print silent msg w k)) = r.
Proof.
  intros Hk Hm Hr. unfold after_print.
  destruct (print_outcome silent msg); cbn [snd]; [|now split..].
  apply Hk; [apply fs_print_to|apply requests_print_to].
Qed.

Lemma shown_cons silent t texts :
  shown silent (t :: texts) <-> (silent = true \/ plain t) /\ shown silent texts.
Proof.
  unfold shown. split.
  - intros [->|H]; [auto|]. apply List.Forall_cons_iff in H as [H1 H2]. auto.
  - intros [[H|H1] [H'|H2]]; auto.
Qed.

Lemma shown_silent texts : shown true texts.
Proof. now left. Qed.

Lemma shown_plain texts : Forall plain texts -> shown false texts.
Proof. now right. Qed.

Lemma print_unknown silent t :
  shown silent [t] -> print_outcome silent (UnknownMetadataType t) = Ok tt.
Proof.
  intros [->|H]; [reflexivity|]. apply print_outcome_ok. right.
  apply List.Forall_cons_iff in H as [H _]. now apply printed_unknown.
Qed.

Lemma print_loaded_columns silent cols :
  shown silent cols -> print_outcome silent (LoadedColumns cols) = Ok tt.
Proof.
  intros [->|H]; [reflexivity|]. apply print_outcome_ok. right.
  now apply printed_loaded_columns.
Qed.

Lemma print_using_column silent col :
  shown silent [col] -> print_outcome silent (UsingColumn col) = Ok tt.
Proof.
  intros [->|H]; [reflexivity|]. apply print_outcome_ok. right.
  apply List.Forall_cons_iff in H as [H _]. now apply printed_using_column.
Qed.

Lemma print_no_entries silent keyword t :
  shown silent [keyword; t] ->
  print_outcome silent (NoEntries keyword t) = Ok tt.
Proof.
  intros [->|H]; [reflexivity|]. apply print_outcome_ok. right.
  apply List.Forall_cons_iff in H as [H1 H]. apply List.Forall_cons_iff in H as [H2 _].
  now apply printed_no_entries.
Qed.

Lemma print_no_data silent gene t :
  shown silent [gene; t] ->
  print_outcome silent (NoDataToSave gene t) = Ok tt.
Proof.
  intros [->|H]; [reflexivity|]. apply print_outcome_ok. right.
  apply List.Forall_cons_iff in H as [H1 H]. apply List.Forall_cons_iff in H as [H2 _].
  now apply printed_no_data.
Qed.

Lemma results_name_plain keyword t :
  plain keyword -> plain t -> plain (results_name keyword t).
Proof.
  intros Hk Ht. unfold results_name.
  apply plain_append. split; [reflexivity|].
  apply plain_append. split; [assumption|].
  apply plain_append. split; [reflexivity|].
  apply plain_append. split; [assumption|reflexivity].
Qed.

Lemma print_saved_successfully silent d gene t :
  shown silent [gene; t] ->
  print_outcome silent (SavedSuccessfully d (results_name gene t)) = Ok tt.
Proof.
  intros [->|H]; [reflexivity|]. apply print_outcome_ok. right.
  apply List.Forall_cons_iff in H as [H1 H]. apply List.Forall_cons_iff in H as [H2 _].
  apply printed_saved_successfully. now apply results_name_plain.
Qed.

Lemma print_saved_to silent d keyword t :
  shown silent [keyword; t] ->
  print_outcome silent (SavedTo d (results_name keyword t)) = Ok tt.
Proof.
  intros [->|H]; [reflexivity|]. apply print_outcome_ok. right.
  apply List.Forall_cons_iff in H as [H1 H]. apply List.Forall_cons_iff in H as [H2 _].
  apply printed_saved_to. now apply results_name_plain.
Qed.

(** ** The catalog *)

Lemma catalog_lookup t spec :
  METADATA_SPECS !! t = Some spec ->
  In t known_types /\ spec = spec_of ("chip_atlas_" +:+ t).
Proof.
  unfold METADATA_SPECS. cbn [list_to_map foldr].
  rewrite !lookup_insert_Some, lookup_empty.
  unfold known_types. cbn [In].
  intros H.
  repeat match type of H with
         | _ \/ _ => destruct H as [[<- <-]|[_ H]]; [split; [tauto|reflexivity]|]
         end.
  discriminate.
Qed.

Lemma catalog_known t :
  In t known_types -> METADATA_SPECS !! t = Some (spec_of ("chip_atlas_" +:+ t)).
Proof.
  unfold known_types. cbn [In].
  intros H.
  repeat match type of H with
         | _ \/ _ => destruct H as [<-|H]; [vm_compute; reflexivity|]
         end.
  destruct H.
Qed.

(** The keys of the catalog and its addresses are plain. *)
Lemma known_type_plain t spec :
  METADATA_SPECS !! t = Some spec -> plain t /\ plain (url spec).
Proof.
  intros H. apply catalog_lookup in H as [Hin ->].
  unfold known_types in Hin. cbn [In] in Hin.
  repeat match type of Hin with
         | _ \/ _ => destruct Hin as [<-|Hin]; [split; reflexivity|]
         end.
  destruct Hin.
Qed.

(** ** Steps of the monad *)

Lemma bind_ret {A B} (a : A) (k : A -> M B) w : bind (ret a) k w = k a w.
Proof. reflexivity. Qed.

Lemma bind_say {B} silent msg (k : unit -> M B) w :
  bind (say silent msg) k w = after_print silent msg w (k tt).
Proof.
  unfold bind, say, after_print. now destruct (print_outcome silent msg).
Qed.

Lemma bind_makedirs {B} p (k : unit -> M B) w :
  bind (makedirs p) k w = k tt w.
Proof. reflexivity. Qed.

Lemma bind_lift {A B} (o : outcome A) (k : A -> M B) w :
  bind (lift o) k w =
  match o with
  | Ok a => k a w
  | Raise e => (Raise e, w)
  | Unmodelled => (Unmodelled, w)
  end.
Proof. unfold bind, lift. now destruct o. Qed.

Lemma bind_bind {A B C} (m : M A) (k : A -> M B) (h : B -> M C) w :
  bind (bind m k) h w = bind m (fun a => bind (k a) h) w.
Proof.
  unfold bind. destruct (m w) as [[a|e|] w1]; reflexivity.
Qed.

Lemma bind_to_csv_file {B} df d fname (k : unit -> M B) w :
  bind (to_csv_file df d fname) k w =
  match creatable fname with
  | Ok _ =>
      match to_csv df with
      | Ok contents => k tt (written (path_join d fname) contents w)
      | Raise e => (Raise e, w)
      | Unmodelled => (Unmodelled, w)
      end
  | Raise e => (Raise e, w)
  | Unmodelled => (Unmodelled, w)
  end.
Proof.
  unfold bind, to_csv_file.
  destruct (creatable fname) as [[]| |]; [|reflexivity..].
  destruct (to_csv df); reflexivity.
Qed.

Lemma truthy_path_join d f : truthy (Some (path_join d f)) = true.
Proof. unfold path_join. destruct d; reflexivity. Qed.

Lemma trimmed_strip_columns df : Forall trimmed (columns (strip_columns df)).
Proof.
  unfold strip_columns. simpl. apply List.Forall_forall.
  intros c Hc. apply in_map_iff in Hc as (r & <- & _). apply strip_idem.
Qed.

Lemma parse_twice_decode_error contents sep :
  utf8_decode contents = DecError ->
  parse_twice contents sep Utf8 = Raise UnicodeDecodeError.
Proof.
  intros H. unfold parse_twice, parse_csv, decode. now rewrite H.
Qed.

Section WithEnv.
Variable home : string.
Variable remote : string -> response.

Lemma quiet_find_local names : quiet (find_local home names).
Proof.
  induction names as [|f names IH]; simpl.
  - apply quiet_ret.
  - apply quiet_bind; [apply quiet_path_exists|].
    intros [|]; [apply quiet_ret|exact IH].
Qed.

(** The loops over the candidates compute [first_existing]. *)
Lemma find_local_run names w :
  find_local home names w = (Ok (first_existing home (fs w) names), w).
Proof.
  unfold first_existing.
  induction names as [|f names IH]; simpl; [reflexivity|].
  unfold bind, path_exists.
  destruct (bool_decide _); [reflexivity|exact IH].
Qed.

Lemma first_existing_exists m names p :
  first_existing home m names = Some p ->
  is_Some (m !! p) /\
  exists f, In f names /\ p = path_join (base_dir home) f.
Proof.
  unfold first_existing.
  destruct (List.find _ names) as [f|] eqn:E; [|discriminate].
  intros [= <-]. apply find_some in E as [Hin Hb].
  apply bool_decide_eq_true in Hb. eauto.
Qed.

Lemma first_existing_found m names f :
  In f names -> is_Some (m !! path_join (base_dir home) f) ->
  is_Some (first_existing home m names).
Proof.
  intros Hin Hs. unfold first_existing.
  destruct (List.find _ names) as [g|] eqn:E; [eexists; reflexivity|].
  pose proof (find_none _ _ E f Hin) as Hn. simpl in Hn.
  apply bool_decide_eq_false in Hn. contradiction.
Qed.

Lemma first_existing_none m names :
  (forall f, In f names -> m !! path_join (base_dir home) f = None) ->
  first_existing home m names = None.
Proof.
  intros H. unfold first_existing.
  destruct (List.find _ names) as [f|] eqn:E; [|reflexivity].
  apply find_some in E as [Hin Hb]. apply bool_decide_eq_true in Hb.
  rewrite (H f Hin) in Hb. now destruct Hb.
Qed.

Lemma bind_find_local {B} names (k : option string -> M B) w :
  bind (find_local home names) k w =
  k (first_existing home (fs w) names) w.
Proof. unfold bind. now rewrite find_local_run. Qed.

(** The [try] statement of the download, for a plain metadata type:
    it goes on after a complete extraction and returns [None] after an
    exception, whose message it prints. *)
Lemma download_block_run t silent spec w :
  plain t ->
  download_block home remote t silent spec w =
  match remote (url spec) with
  | Failed e =>
      after_print silent (DownloadError t e) (requested (url spec) w)
        (fun w' => (Ok (Return None), w'))
  | Extracts ms (Some e) =>
      after_print silent (DownloadError t e)
        (unpacked home ms (requested (url spec) w))
        (fun w' => (Ok (Return None), w'))
  | Extracts ms None =>
      (Ok (Next tt),
       print_to silent (Extracted t (base_dir home))
                (unpacked home ms (requested (url spec) w)))
  end.
Proof.
  intros Ht. unfold download_block, try_except, download.
  rewrite bind_bind. unfold bind at 1. cbv beta iota.
  destruct (remote (url spec)) as [e|ms [e|]].
  - rewrite bind_lift, bind_say. reflexivity.
  - rewrite bind_bind. unfold bind at 1, extract_members at 1. cbv beta iota.
    rewrite bind_lift, bind_say. reflexivity.
  - rewrite bind_bind. unfold bind at 1, extract_members at 1. cbv beta iota.
    rewrite bind_ret, bind_say.
    rewrite after_print_ok; [reflexivity|].
    apply print_outcome_ok. right. now apply printed_extracted.
Qed.

(** [ensure_metadata_file], case by case. *)
Lemma ensure_unfold t silent w :
  ensure_metadata_file home remote t silent w =
  match METADATA_SPECS !! t with
  | None =>
      after_print silent (UnknownMetadataType t) w (fun w' => (Ok None, w'))
  | Some spec =>
      match first_existing home (fs w) (unzipped_files spec) with
      | Some p => (Ok (Some p), print_to silent (FoundLocalFile t p) w)
      | None =>
          let w1 := requested (url spec)
                      (print_to silent (Downloading t (url spec)) w) in
          match remote (url spec) with
          | Failed e =>
              after_print silent (DownloadError t e) w1
                (fun w' => (Ok None, w'))
          | Extracts ms (Some e) =>
              after_print silent (DownloadError t e) (unpacked home ms w1)
                (fun w' => (Ok None, w'))
          | Extracts ms None =>
              let w2 := print_to silent (Extracted t (base_dir home))
                                 (unpacked home ms w1) in
              match first_existing home (fs w2) (unzipped_files spec) with
              | Some p => (Ok (Some p), w2)
              | None => (Ok None, print_to silent (NotLocated t) w2)
              end
          end
      end
  end.
Proof.
  unfold ensure_metadata_file.
  destruct (METADATA_SPECS !! t) as [spec|] eqn:Hs;
    [|now rewrite bind_say].
  destruct (known_type_plain _ _ Hs) as [Ht Hu].
  rewrite bind_makedirs, bind_find_local.
  destruct (first_existing home (fs w) (unzipped_files spec)) as [p|].
  { rewrite bind_say, after_print_ok; [reflexivity|].
    apply print_outcome_ok. right. now apply printed_found_local. }
  rewrite bind_say, after_print_ok
    by (apply print_outcome_ok; right; now apply printed_downloading).
  fold (download_block home remote t silent spec).
  cbv zeta. unfold bind at 1. rewrite (download_block_run _ _ _ _ Ht).
  destruct (remote (url spec)) as [e|ms [e|]].
  - unfold after_print.
    destruct (print_outcome silent (DownloadError t e)); reflexivity.
  - unfold after_print.
    destruct (print_outcome silent (DownloadError t e)); reflexivity.
  - rewrite bind_find_local.
    destruct (first_existing home _ (unzipped_files spec)); [reflexivity|].
    rewrite bind_say, after_print_ok; [reflexivity|].
    apply print_outcome_ok. right. now apply printed_not_located.
Qed.

(** What [ensure_metadata_file] does when a candidate is present. *)
Lemma ensure_cached t silent w spec p :
  METADATA_SPECS !! t = Some spec ->
  first_existing home (fs w) (unzipped_files spec) = Some p ->
  ensure_metadata_file home remote t silent w =
  (Ok (Some p), print_to silent (FoundLocalFile t p) w).
Proof. intros Hs Hp. now rewrite ensure_unfold, Hs, Hp. Qed.

(** A path that [ensure_metadata_file] returns is the first candidate
    that exists afterwards. *)
Lemma ensure_returns_first_existing t silent w p w1 :
  ensure_metadata_file home remote t silent w = (Ok (Some p), w1) ->
  exists spec, METADATA_SPECS !! t = Some spec /\
               first_existing home (fs w1) (unzipped_files spec) = Some p.
Proof.
  rewrite ensure_unfold. unfold after_print.
  destruct (METADATA_SPECS !! t) as [spec|];
    [|destruct (print_outcome _ _); discriminate].
  intros H. exists spec. split; [reflexivity|]. revert H.
  destruct (first_existing home (fs w) (unzipped_files spec)) as [q|] eqn:Hq.
  - intros [= <- <-]. now rewrite fs_print_to.
  - cbv zeta.
    destruct (remote (url spec)) as [e|ms [e|]];
      try (destruct (print_outcome _ _); discriminate).
    match goal with
    | |- match ?x with _ => _ end = _ -> _ =>
        destruct x as [q|] eqn:Hq'; [|discriminate]
    end.
    now intros [= <- <-].
Qed.

Lemma ensure_returns_truthy t silent w p w1 :
  ensure_metadata_file home remote t silent w = (Ok (Some p), w1) ->
  truthy (Some p) = true.
Proof.
  intros H. apply ensure_returns_first_existing in H as (spec & _ & H).
  apply first_existing_exists in H as (_ & f & _ & ->).
  apply truthy_path_join.
Qed.

Lemma read_with_run fpath sep enc w :
  read_with fpath sep enc w =
  match fs w !! fpath with
  | None => (Raise FileNotFoundError, w)
  | Some contents => (parse_twice contents sep enc, w)
  end.
Proof.
  unfold read_with, read_csv, bind, parse_twice.
  destruct (fs w !! fpath) as [c|] eqn:E; [|reflexivity].
  destruct (parse_csv c sep enc) as [df| |]; simpl; try reflexivity.
  destruct (shape1 df =? 1); [|reflexivity]. now rewrite E.
Qed.

(** [load_path], case by case: an exception of the Latin-1 reads is
    not handled. *)
Lemma load_path_unfold t silent fpath w :
  load_path t silent fpath w =
  match fs w !! fpath with
  | None =>
      after_print silent (LoadError t FileNotFoundError) w
        (fun w' => (Ok None, w'))
  | Some contents =>
      match parse_twice contents (sep_for fpath) Utf8 with
      | Ok df => loaded silent df w
      | Raise e =>
          if is_UnicodeDecodeError e then
            match parse_twice contents (sep_for fpath) Latin1 with
            | Ok df => loaded silent df w
            | Raise e' => (Raise e', w)
            | Unmodelled => (Unmodelled, w)
            end
          else after_print silent (LoadError t e) w (fun w' => (Ok None, w'))
      | Unmodelled => (Unmodelled, w)
      end
  end.
Proof.
  unfold load_path, loaded, after_print. cbv zeta.
  unfold bind, try_except, say, ret.
  rewrite read_with_run.
  destruct (fs w !! fpath) as [c|] eqn:E.
  - destruct (parse_twice c (sep_for fpath) Utf8) as [df|e|];
      [destruct (print_outcome _ _); reflexivity| |reflexivity].
    destruct (is_UnicodeDecodeError e);
      [|destruct (print_outcome _ _); reflexivity].
    rewrite read_with_run, E.
    destruct (parse_twice c (sep_for fpath) Latin1);
      [destruct (print_outcome _ _); reflexivity|reflexivity..].
  - cbn [is_UnicodeDecodeError].
    destruct (print_outcome _ _); reflexivity.
Qed.

Lemma load_path_trimmed t silent fpath w df w1 :
  load_path t silent fpath w = (Ok (Some df), w1) ->
  Forall trimmed (columns df).
Proof.
  rewrite load_path_unfold. unfold loaded, after_print.
  destruct (fs w !! fpath) as [c|];
    [|destruct (print_outcome _ _); discriminate].
  destruct (parse_twice c _ Utf8) as [d|e|]; [| |discriminate].
  - destruct (print_outcome _ _); [|discriminate..].
    intros [= <- <-]. apply trimmed_strip_columns.
  - destruct (is_UnicodeDecodeError e);
      [|destruct (print_outcome _ _); discriminate].
    destruct (parse_twice c _ Latin1) as [d| |]; [|discriminate..].
    destruct (print_outcome _ _); [|discriminate..].
    intros [= <- <-]. apply trimmed_strip_columns.
Qed.

Lemma load_metadata_unfold t silent w :
  load_metadata home remote t silent w =
  match ensure_metadata_file home remote t silent w with
  | (Ok (Some fpath), w1) =>
      if truthy (Some fpath) then load_path t silent fpath w1
      else (Ok None, w1)
  | (Ok None, w1) => (Ok None, w1)
  | (Raise e, w1) => (Raise e, w1)
  | (Unmodelled, w1) => (Unmodelled, w1)
  end.
Proof.
  unfold load_metadata, bind.
  destruct (ensure_metadata_file home remote t silent w) as [[[p|]|e|] w1];
    try reflexivity.
  destruct (truthy (Some p)); reflexivity.
Qed.

(** Every table [load_metadata] returns has trimmed column names. *)
Lemma load_metadata_trimmed t silent w df w1 :
  load_metadata home remote t silent w = (Ok (Some df), w1) ->
  Forall trimmed (columns df).
Proof.
  rewrite load_metadata_unfold.
  destruct (ensure_metadata_file home remote t silent w) as [[[p|]|e|] w0];
    try discriminate.
  destruct (truthy (Some p)); [|discriminate].
  apply load_path_trimmed.
Qed.

(** A table is loaded for the keys of the catalog only. *)
Lemma load_metadata_known t silent w df w1 :
  load_metadata home remote t silent w = (Ok (Some df), w1) ->
  exists spec, METADATA_SPECS !! t = Some spec.
Proof.
  rewrite load_metadata_unfold.
  destruct (ensure_metadata_file home remote t silent w)
    as [[[p|]|e|] w0] eqn:He; try discriminate.
  intros _. apply ensure_returns_first_existing in He as (spec & Hs & _).
  eauto.
Qed.

Lemma fetch_and_display_unfold t keyword hint silent w :
  fetch_and_display home remote t keyword hint silent w =
  match load_metadata home remote t silent w with
  | (Ok (Some df), w1) => after_load home t keyword silent df w1
  | (Ok None, w1) => (Ok None, w1)
  | (Raise e, w1) => (Raise e, w1)
  | (Unmodelled, w1) => (Unmodelled, w1)
  end.
Proof.
  unfold fetch_and_display, bind at 1.
  destruct (load_metadata home remote t silent w) as [[[df|]|e|] w1];
    reflexivity.
Qed.


(** ** After the load *)

(** [fetch_and_display] after a successful load, case by case. *)
Lemma after_load_run t keyword silent df w :
  after_load home t keyword silent df w =
  let col := detect_column (columns df) in
  if negb (truthy col) then
    after_print silent (NoSuitableColumn t) w (fun w' => (Ok None, w'))
  else
    after_print silent (UsingColumn (default EmptyString col)) w (fun w1 =>
    match filter_rows df (default EmptyString col) keyword with
    | Ok matches =>
        if empty matches then
          after_print silent (NoEntries keyword t) w1
            (fun w' => (Ok None, w'))
        else
          after_print silent
            (FoundMatches (List.length (rows matches)) keyword t) w1
            (fun w2 =>
          after_print silent (Preview matches) w2 (fun w3 =>
          match creatable (results_name keyword t) with
          | Ok _ =>
              match to_csv matches with
              | Ok contents =>
                  after_print silent
                    (SavedTo (results_dir home) (results_name keyword t))
                    (written (results_path home keyword t) contents w3)
                    (fun w' => (Ok (Some matches), w'))
              | Raise e => (Raise e, w3)
              | Unmodelled => (Unmodelled, w3)
              end
          | Raise e => (Raise e, w3)
          | Unmodelled => (Unmodelled, w3)
          end))
    | Raise e => (Raise e, w1)
    | Unmodelled => (Unmodelled, w1)
    end).
Proof.
  unfold after_load. cbv zeta.
  destruct (negb (truthy (detect_column (columns df))));
    [now rewrite bind_say|].
  rewrite bind_say. apply after_print_ext. intros w1.
  rewrite bind_lift.
  destruct (filter_rows df _ keyword) as [matches| |]; [|reflexivity..].
  destruct (empty matches); [now rewrite bind_say|].
  rewrite bind_say. apply after_print_ext. intros w2.
  rewrite bind_say. apply after_print_ext. intros w3.
  rewrite bind_makedirs, bind_to_csv_file.
  destruct (creatable (results_name keyword t)) as [[]| |]; [|reflexivity..].
  destruct (to_csv matches) as [contents| |]; [|reflexivity..].
  now rewrite bind_say.
Qed.

(** ** Saving *)

Lemma say_run silent msg w :
  say silent msg w = after_print silent msg w (fun w' => (Ok tt, w')).
Proof. unfold say, after_print. now destruct (print_outcome silent msg). Qed.

(** [save_full_dataset] on an absent or empty match set: the notice,
    and the line of the handler when the notice raises. *)
Lemma save_nothing df gene t silent w :
  df = None \/ (exists d, df = Some d /\ empty d = true) ->
  save_full_dataset home df gene t silent w =
  match print_outcome silent (NoDataToSave gene t) with
  | Ok _ => (Ok tt, print_to silent (NoDataToSave gene t) w)
  | Raise e => say silent (SaveError e) w
  | Unmodelled => (Unmodelled, w)
  end.
Proof.
  intros H. unfold save_full_dataset, try_except.
  assert (E : match df with
              | None => say silent (NoDataToSave gene t)
              | Some d =>
                  if empty d then say silent (NoDataToSave gene t)
                  else bind (makedirs (results_dir home)) (fun _ =>
                       bind (to_csv_file d (results_dir home)
                                         (results_name gene t)) (fun _ =>
                       say silent (SavedSuccessfully (results_dir home)
                                     (results_name gene t))))
              end = say silent (NoDataToSave gene t)).
  { destruct H as [->|(d & -> & Hd)]; [reflexivity|now rewrite Hd]. }
  rewrite E. unfold say at 1.
  destruct (print_outcome silent (NoDataToSave gene t)); reflexivity.
Qed.

(** [save_full_dataset] on a match set with rows. *)
Lemma save_something d gene t silent w :
  empty d = false ->
  save_full_dataset home (Some d) gene t silent w =
  match creatable (results_name gene t) with
  | Ok _ =>
      match to_csv d with
      | Ok contents =>
          let w1 := written (results_path home gene t) contents w in
          match print_outcome silent
                  (SavedSuccessfully (results_dir home) (results_name gene t))
          with
          | Ok _ =>
              (Ok tt,
               print_to silent
                 (SavedSuccessfully (results_dir home) (results_name gene t))
                 w1)
          | Raise e => say silent (SaveError e) w1
          | Unmodelled => (Unmodelled, w1)
          end
      | Raise e => say silent (SaveError e) w
      | Unmodelled => (Unmodelled, w)
      end
  | Raise e => say silent (SaveError e) w
  | Unmodelled => (Unmodelled, w)
  end.
Proof.
  intros He. unfold save_full_dataset, try_except. rewrite He.
  rewrite bind_makedirs, bind_to_csv_file.
  destruct (creatable (results_name gene t)) as [[]| |]; [|reflexivity..].
  destruct (to_csv d) as [contents| |]; [|reflexivity..].
  cbv zeta. unfold say at 1. unfold results_path.
  destruct (print_outcome silent _); reflexivity.
Qed.

(** [save_full_dataset] removes no file, makes no request, and writes
    at most the results file. *)
Lemma save_frame df gene t silent w path :
  let w' := snd (save_full_dataset home df gene t silent w) in
  requests w' = requests w /\
  (path <> results_path home gene t -> fs w' !! path = fs w !! path) /\
  (is_Some (fs w !! path) -> is_Some (fs w' !! path)).
Proof.
  cbv zeta.
  assert (Hsay : forall msg w0,
             requests (snd (say silent msg w0)) = requests w0 /\
             fs (snd (say silent msg w0)) = fs w0).
  { intros msg w0. destruct (quiet_say silent msg w0). auto. }
  assert (Hsame : forall w0 : World,
             requests w0 = requests w -> fs w0 = fs w ->
             requests w0 = requests w /\
             (path <> results_path home gene t ->
              fs w0 !! path = fs w !! path) /\
             (is_Some (fs w !! path) -> is_Some (fs w0 !! path))).
  { intros w0 Hr Hf. rewrite Hf. auto. }
  assert (Hwritten : forall contents (w0 : World),
             requests w0 = requests w ->
             fs w0 = <[results_path home gene t := contents]> (fs w) ->
             requests w0 = requests w /\
             (path <> results_path home gene t ->
              fs w0 !! path = fs w !! path) /\
             (is_Some (fs w !! path) -> is_Some (fs w0 !! path))).
  { intros contents w0 Hr Hf. rewrite Hf. split; [assumption|]. split.
    - intros Hne. now apply lookup_insert_ne.
    - intros Hs.
      destruct (decide (results_path home gene t = path)) as [<-|Hne].
      + rewrite lookup_insert_eq. eauto.
      + now rewrite lookup_insert_ne. }
  assert (Hnothing :
            df = None \/ (exists d, df = Some d /\ empty d = true) \/
            (exists d, df = Some d /\ empty d = false)).
  { destruct df as [d|]; [|now left]. right.
    destruct (empty d) eqn:E; [left|right]; eauto. }
  destruct Hnothing as [H|[H|(d & -> & He)]].
  - rewrite save_nothing by auto.
    destruct (print_outcome silent (NoDataToSave gene t)); cbn [snd].
    + apply Hsame; [apply requests_print_to|apply fs_print_to].
    + apply Hsame; apply Hsay.
    + now apply Hsame.
  - rewrite save_nothing by auto.
    destruct (print_outcome silent (NoDataToSave gene t)); cbn [snd].
    + apply Hsame; [apply requests_print_to|apply fs_print_to].
    + apply Hsame; apply Hsay.
    + now apply Hsame.
  - rewrite (save_something _ _ _ _ _ He).
    destruct (creatable (results_name gene t)) as [[]| |]; cbn [snd];
      [|apply Hsame; apply Hsay|now apply Hsame].
    destruct (to_csv d) as [contents| |]; cbn [snd];
      [|apply Hsame; apply Hsay|now apply Hsame].
    cbv zeta.
    destruct (print_outcome silent _); cbn [snd].
    + apply (Hwritten contents);
        [now rewrite requests_print_to|now rewrite fs_print_to].
    + apply (Hwritten contents);
        [now rewrite (proj1 (Hsay _ _))|now rewrite (proj2 (Hsay _ _))].
    + now apply (Hwritten contents).
Qed.

End WithEnv.

End WorldFacts.

(* ====================================================================== *)
(** * What is raised where *)
(* ====================================================================== *)

Module RaiseFacts.
Import Py Codec Csv Pandas ChipAtlas Unfolded RichFacts.

Lemma obind_raises {A B} (o : outcome A) (k : A -> outcome B) e :
  obind o k = Raise e ->
  o = Raise e \/ exists a, o = Ok a /\ k a = Raise e.
Proof.
  destruct o as [a| |]; cbn [obind]; [eauto| |discriminate].
  intros [= ->]. now left.
Qed.

Lemma omap_raises {A B} (f : A -> B) (o : outcome A) e :
  omap f o = Raise e -> o = Raise e.
Proof. destruct o; cbn [omap obind]; congruence. Qed.

(** ** The markup of rich raises [MarkupError] only *)

Lemma close_tag_raises name stack e :
  Rich.close_tag name stack = Raise e -> e = MarkupError.
Proof.
  unfold Rich.close_tag. destruct stack as [|top below]; [congruence|].
  destruct name; [discriminate|].
  destruct (String.eqb _ _); discriminate.
Qed.

Lemma apply_tag_raises text stack e :
  Rich.apply_tag text stack = Raise e -> e = MarkupError.
Proof.
  unfold Rich.apply_tag. destruct (Rich.before_equals text) as [|c name];
    [discriminate|].
  destruct (Ascii.eqb c Rich.SLASH); [apply close_tag_raises|].
  destruct (Ascii.eqb c Rich.AT); discriminate.
Qed.

Lemma markup_scan_raises s p stack e :
  Rich.scan p stack s = Raise e -> e = MarkupError.
Proof.
  revert p stack. induction s as [|c s IH]; intros p stack; [discriminate|].
  cbn [Rich.scan]. destruct p as [escaped|escaped|escaped reversed].
  - destruct (Ascii.eqb c Rich.LBRACKET); [apply IH|].
    destruct (Ascii.eqb c Repr.BACKSLASH); apply IH.
  - destruct (Rich.tag_start c); [apply IH|].
    destruct (Ascii.eqb c Rich.LBRACKET); [apply IH|].
    destruct (Ascii.eqb c Repr.BACKSLASH); apply IH.
  - destruct (Ascii.eqb c Rich.RBRACKET).
    + destruct escaped; [apply IH|].
      intros H. apply obind_raises in H as [H|(stack' & _ & H)].
      * now apply apply_tag_raises in H.
      * now apply IH in H.
    + destruct (Ascii.eqb c Rich.LBRACKET); apply IH.
Qed.

Lemma render_raises s e : Rich.render s = Raise e -> e = MarkupError.
Proof.
  unfold Rich.render. intros H. apply omap_raises in H.
  now apply markup_scan_raises in H.
Qed.

Lemma render_all_raises texts e :
  Rich.render_all texts = Raise e -> e = MarkupError.
Proof.
  induction texts as [|t texts IH]; [discriminate|]. cbn [Rich.render_all].
  intros H. apply obind_raises in H as [H|(a & _ & H)];
    [now apply render_raises in H|auto].
Qed.

Lemma exn_renders_raises e0 e : exn_renders e0 = Raise e -> e = MarkupError.
Proof. destruct e0; cbn [exn_renders]; congruence. Qed.

Lemma table_columns_raises df cols e :
  table_columns df cols = Raise e -> e = MarkupError.
Proof.
  induction cols as [|c cols IH]; [discriminate|]. cbn [table_columns].
  destruct (Frame.label_positions c 0 (columns df)) as [|i [|j l]];
    try discriminate.
  intros H. apply obind_raises in H as [H|(a & _ & H)];
    [now apply render_all_raises in H|auto].
Qed.

(** A print raises [MarkupError] or nothing. *)
Lemma printed_raises msg e : printed msg = Raise e -> e = MarkupError.
Proof.
  assert (H : forall s o,
             obind (Rich.render s)
                   (fun _ => match o with
                             | Some e0 => exn_renders e0
                             | None => Ok tt
                             end) = Raise e -> e = MarkupError).
  { intros s o H. apply obind_raises in H as [H|(a & _ & H)];
      [now apply render_raises in H|].
    destruct o as [e0|]; [now apply exn_renders_raises in H|discriminate]. }
  destruct msg; cbn [printed]; try apply H.
  apply table_columns_raises.
Qed.

Lemma print_outcome_raises silent msg e :
  print_outcome silent msg = Raise e ->
  silent = false /\ e = MarkupError /\ printed msg = Raise MarkupError.
Proof.
  unfold print_outcome. destruct silent; [discriminate|]. intros H.
  pose proof (printed_raises _ _ H) as ->. auto.
Qed.

(** ** What [read_csv] raises *)

Lemma csv_scan_raises delim text st e :
  Csv.scan delim st text = Raise e -> e = CsvError.
Proof.
  revert st. induction text as [|c text IH]; intros st.
  - destruct st; cbn [Csv.scan]; congruence.
  - cbn [Csv.scan].
    destruct st;
      repeat match goal with
             | |- context [if ?b then _ else _] => destruct b
             end;
      intros H; try (apply omap_raises in H); try (now apply IH in H);
      congruence.
Qed.

Lemma reader_raises delim text e : reader delim text = Raise e -> e = CsvError.
Proof. apply csv_scan_raises. Qed.

Lemma parser_error_raises {A} (o : outcome A) e :
  parser_error o = Raise e ->
  (forall e', o = Raise e' -> e' = CsvError) -> e = ParserError.
Proof.
  destruct o as [a|e'|]; cbn [parser_error]; [discriminate| |discriminate].
  intros H Hc. specialize (Hc e' eq_refl). subst e'. congruence.
Qed.

Lemma build_frame_raises header data e :
  build_frame header data = Raise e -> e = ParserError.
Proof.
  unfold build_frame. destruct data as [|line rest]; [discriminate|].
  cbv zeta.
  repeat match goal with
         | |- context [if ?b then _ else _] => destruct b
         end; congruence.
Qed.

Lemma sniff_raises line e : sniff line = Raise e -> e = CsvError.
Proof.
  unfold sniff. destruct (_ || _); [discriminate|].
  destruct (guess_delimiter line); [|congruence].
  destruct (_ || _); discriminate.
Qed.

(** The exceptions of a read: of the decoder, of the csv module and of
    pandas. *)
Lemma parse_csv_raises contents sep enc e :
  parse_csv contents sep enc = Raise e -> read_error e = true.
Proof.
  unfold parse_csv. intros H.
  apply obind_raises in H as [H|(text & _ & H)].
  { unfold decode in H. destruct enc; [|discriminate].
    destruct (utf8_decode contents); try discriminate.
    now injection H as <-. }
  destruct (has_char NUL text); [discriminate|].
  destruct sep as [delim|].
  - unfold parse_with_sep in H.
    apply obind_raises in H as [H|(recs & _ & H)].
    + apply parser_error_raises in H as ->; [reflexivity|].
      apply reader_raises.
    + destruct (remove_empty_lines recs) as [|header data].
      * now injection H as <-.
      * now apply build_frame_raises in H as ->.
  - unfold parse_sniffing in H. destruct (readline text) as [line rest].
    apply obind_raises in H as [H|(delim & _ & H)];
      [now apply sniff_raises in H as ->|].
    apply obind_raises in H as [H|(first & _ & H)];
      [now apply reader_raises in H as ->|].
    apply obind_raises in H as [H|(recs & _ & H)].
    + apply parser_error_raises in H as ->; [reflexivity|].
      apply reader_raises.
    + destruct first as [|header first']; [discriminate|].
      now apply build_frame_raises in H as ->.
Qed.

Lemma parse_twice_raises contents sep enc e :
  parse_twice contents sep enc = Raise e -> read_error e = true.
Proof.
  unfold parse_twice. intros H.
  apply obind_raises in H as [H|(df & _ & H)];
    [now apply parse_csv_raises in H|].
  destruct (shape1 df =? 1); [now apply parse_csv_raises in H|discriminate].
Qed.

(** The message of a read error holds no tag. *)
Lemma read_error_renders e : read_error e = true -> exn_renders e = Ok tt.
Proof. destruct e; cbn [read_error exn_renders]; congruence. Qed.

End RaiseFacts.

(* ====================================================================== *)
(** * Saving a frame and loading the saved file *)
(* ====================================================================== *)

Module RoundTripFacts.
Import Py Codec Csv Pandas ChipAtlas RoundTripSpec Unfolded PyFacts
       CodecFacts CsvFacts RichFacts WorldFacts.

(** ** Writer *)





(** ** Characters of the written text *)






(** ** Header line *)











(** ** Frame *)












(** ** The written file, parsed *)





(** ** The names of a reloaded table are plain when the header is *)











(** ** The results path ends in [.csv] *)


(** ** Saving, then loading the saved file *)



End RoundTripFacts.

(* ====================================================================== *)
(** * Computations that print nothing *)
(* ====================================================================== *)

Module EffectFacts.
Import Py Codec Csv Pandas Frame Detect ChipAtlas ColumnSpec Unfolded Effects.
Import PyFacts DetectFacts WorldFacts.

Lemma same_state_refl w : same_state w w.
Proof. split; reflexivity. Qed.

Lemma mute_ret {A} (a : A) : mute (ret a).
Proof. intros w. reflexivity. Qed.

Lemma mute_lift {A} (o : outcome A) : mute (lift o).
Proof. intros w. reflexivity. Qed.

Lemma mute_say msg : mute (say true msg).
Proof. intros w. reflexivity. Qed.

Lemma mute_makedirs p : mute (makedirs p).
Proof. intros w. reflexivity. Qed.

Lemma mute_path_exists p : mute (path_exists p).
Proof. intros w. reflexivity. Qed.

Lemma mute_to_csv_file df d fname : mute (to_csv_file df d fname).
Proof.
  intros w. unfold to_csv_file.
  destruct (creatable fname); [|reflexivity..].
  destruct (to_csv df); reflexivity.
Qed.

Lemma mute_bind {A B} (m : M A) (k : A -> M B) :
  mute m -> (forall a, mute (k a)) -> mute (bind m k).
Proof.
  intros Hm Hk w. unfold bind. specialize (Hm w).
  destruct (m w) as [[a|e|] v]; cbn [snd] in *; try assumption.
  now rewrite Hk.
Qed.

Lemma mute_try_except {A} (m : M A) (h : exn -> M A) :
  mute m -> (forall e, mute (h e)) -> mute (try_except m h).
Proof.
  intros Hm Hh w. unfold try_except. specialize (Hm w).
  destruct (m w) as [[a|e|] v]; cbn [snd] in *; try assumption.
  now rewrite Hh.
Qed.

Ltac mute_step :=
  match goal with
  | |- mute (bind _ _) => apply mute_bind; [|intros ?]
  | |- mute (try_except _ _) => apply mute_try_except; [|intros ?]
  | |- mute (say true _) => apply mute_say
  | |- mute (ret _) => apply mute_ret
  | |- mute (lift _) => apply mute_lift
  | |- mute (makedirs _) => apply mute_makedirs
  | |- mute (path_exists _) => apply mute_path_exists
  | |- mute (to_csv_file _ _ _) => apply mute_to_csv_file
  | |- mute (match ?x with _ => _ end) => destruct x
  end.

Section WithEnv.
Variable home : string.
Variable remote : string -> response.

Lemma mute_find_local names : mute (find_local home names).
Proof.
  induction names as [|f names IH]; cbn [find_local]; repeat mute_step.
  exact IH.
Qed.

Lemma mute_download u : mute (download home remote u).
Proof.
  intros w. unfold download, bind, extract_members, lift, ret.
  destruct (remote u) as [e|ms [e|]]; reflexivity.
Qed.

Lemma mute_ensure t : mute (ensure_metadata_file home remote t true).
Proof.
  unfold ensure_metadata_file.
  destruct (METADATA_SPECS !! t) as [spec|]; repeat mute_step;
    try apply mute_find_local; try apply mute_download.
Qed.

Lemma mute_read_csv fpath sep enc : mute (read_csv fpath sep enc).
Proof. intros w. unfold read_csv. now destruct (fs w !! fpath). Qed.

Lemma mute_read_with fpath sep enc : mute (read_with fpath sep enc).
Proof. unfold read_with. repeat mute_step; apply mute_read_csv. Qed.

Lemma mute_load_path t fpath : mute (load_path t true fpath).
Proof.
  unfold load_path. cbv zeta. repeat mute_step; apply mute_read_with.
Qed.

Lemma mute_load_metadata t : mute (load_metadata home remote t true).
Proof.
  unfold load_metadata. repeat mute_step;
    try apply mute_ensure; apply mute_load_path.
Qed.

Lemma mute_fetch_and_display t keyword hint :
  mute (fetch_and_display home remote t keyword hint true).
Proof.
  unfold fetch_and_display. cbv zeta.
  repeat mute_step; apply mute_load_metadata.
Qed.

Lemma mute_save_full_dataset df gene t :
  mute (save_full_dataset home df gene t true).
Proof. unfold save_full_dataset. cbv zeta. repeat mute_step. Qed.

End WithEnv.

End EffectFacts.

(* ====================================================================== *)
(** * Facts about paths and about the stages of the pipeline *)
(* ====================================================================== *)

Module PipelineFacts.
Import Py Codec Csv Pandas Frame Detect ChipAtlas ColumnSpec Unfolded Effects.
Import PyFacts DetectFacts RichFacts WorldFacts RaiseFacts EffectFacts.

(** ** Paths *)

Lemma append_cancel_l a b c : a +:+ b = a +:+ c -> b = c.
Proof.
  induction a as [|x a IH]; [exact (fun H => H)|].
  rewrite !append_cons. intros [= H]. now apply IH.
Qed.

Lemma path_join_inj d f g : path_join d f = path_join d g -> f = g.
Proof.
  unfold path_join. intros H. apply append_cancel_l in H.
  now apply append_cancel_l in H.
Qed.

(** The results directory lies in the base directory. *)
Lemma results_path_under_base home keyword t :
  results_path home keyword t =
  path_join (base_dir home)
            ("results/chip_atlas_" +:+ keyword +:+ "_" +:+ t +:+ ".csv").
Proof.
  unfold results_path, results_dir, base_dir, path_join.
  rewrite !append_assoc. reflexivity.
Qed.

(** Every candidate file name of the catalog starts with "chip_atlas_". *)
Lemma candidate_prefix t spec f :
  METADATA_SPECS !! t = Some spec -> In f (unzipped_files spec) ->
  startswith "chip_atlas_" f = true.
Proof.
  intros Hs Hf. apply catalog_lookup in Hs as [_ ->].
  destruct Hf as [<-|[<-|[]]]; reflexivity.
Qed.

(** No candidate file of the catalog is a results file. *)
Lemma candidate_not_results home t spec f keyword t' :
  METADATA_SPECS !! t = Some spec -> In f (unzipped_files spec) ->
  path_join (base_dir home) f <> results_path home keyword t'.
Proof.
  intros Hs Hf E. rewrite results_path_under_base in E.
  apply path_join_inj in E. apply (candidate_prefix _ _ _ Hs) in Hf.
  subst f. discriminate.
Qed.

Lemma append_suffixes a a' s s' :
  a +:+ s = a' +:+ s' -> String.length s <= String.length s' ->
  exists x, s' = x +:+ s /\ a = a' +:+ x.
Proof.
  revert a. induction a' as [|c a' IH]; intros a E L.
  - exists a. split; [now rewrite append_nil_l in E|reflexivity].
  - destruct a as [|d a].
    + rewrite append_nil_l in E. subst s. rewrite append_cons in L.
      cbn [String.length] in L. rewrite length_append in L. lia.
    + rewrite !append_cons in E. injection E as -> E.
      destruct (IH a E L) as (x & -> & ->). exists x.
      split; reflexivity.
Qed.

Lemma endswith_append x s : endswith (x +:+ s) s = true.
Proof.
  induction x as [|c x IH].
  - rewrite append_nil_l. destruct s; cbn [endswith];
      now rewrite String.eqb_refl.
  - rewrite append_cons. cbn [endswith]. rewrite IH. apply orb_true_r.
Qed.

Lemma append_fixed x s : s = x +:+ s -> x = EmptyString.
Proof.
  intros E. apply (f_equal String.length) in E.
  rewrite length_append in E. destruct x; [reflexivity|].
  cbn [String.length] in E. lia.
Qed.

Lemma results_suffix_inj k k' t t' :
  In t known_types -> In t' known_types ->
  k +:+ results_suffix t = k' +:+ results_suffix t' -> k = k' /\ t = t'.
Proof.
  intros Ht Ht' E.
  assert (Hsuf : forall a a' u u',
             a +:+ results_suffix u = a' +:+ results_suffix u' ->
             String.length (results_suffix u) <= String.length (results_suffix u') ->
             endswith (results_suffix u') (results_suffix u) = true /\
             (results_suffix u' = results_suffix u -> a = a')).
  { intros a a' u u' Ea L. destruct (append_suffixes _ _ _ _ Ea L) as (x & Hx & ->).
    split.
    - rewrite Hx. apply endswith_append.
    - intros Eq. rewrite Eq in Hx. apply append_fixed in Hx. subst x.
      now rewrite append_nil_r. }
  unfold known_types in Ht, Ht'. cbn [In] in Ht, Ht'.
  destruct (le_ge_dec (String.length (results_suffix t))
                      (String.length (results_suffix t'))) as [L|L].
  - destruct (Hsuf _ _ _ _ E L) as [Hend Heq].
    repeat (destruct Ht as [<-|Ht]; [|try contradiction]);
      repeat (destruct Ht' as [<-|Ht']; [|try contradiction]);
      first [ discriminate Hend | split; [now apply Heq|reflexivity] ].
  - symmetry in E. destruct (Hsuf _ _ _ _ E L) as [Hend Heq].
    repeat (destruct Ht as [<-|Ht]; [|try contradiction]);
      repeat (destruct Ht' as [<-|Ht']; [|try contradiction]);
      first [ discriminate Hend
            | split; [symmetry; now apply Heq|reflexivity] ].
Qed.

Lemma results_path_suffix home keyword t :
  results_path home keyword t =
  path_join (results_dir home)
            ("chip_atlas_" +:+ (keyword +:+ results_suffix t)).
Proof. reflexivity. Qed.

Section WithEnv.
Variable home : string.
Variable remote : string -> response.

(** ** The download *)

Lemma extracted_cons name contents ms m :
  extracted home ((name, contents) :: ms) m =
  extracted home ms (<[path_join (base_dir home) name := contents]> m).
Proof. reflexivity. Qed.

(** A path is left as it was, or holds a member of the archive. *)
Lemma extracted_lookup ms m path :
  extracted home ms m !! path = m !! path \/
  exists name contents,
    In (name, contents) ms /\ path = path_join (base_dir home) name /\
    extracted home ms m !! path = Some contents.
Proof.
  revert m. induction ms as [|[name contents] ms IH]; intros m.
  - left. reflexivity.
  - rewrite extracted_cons.
    destruct (IH (<[path_join (base_dir home) name := contents]> m))
      as [E|(n & c & Hin & Hp & E)].
    + destruct (decide (path_join (base_dir home) name = path)) as [<-|Hne].
      * right. exists name, contents. rewrite E, lookup_insert_eq.
        split; [now left|]. split; reflexivity.
      * left. rewrite E. now apply lookup_insert_ne.
    + right. exists n, c. split; [now right|]. split; assumption.
Qed.

Lemma extracted_keeps ms m path :
  is_Some (m !! path) -> is_Some (extracted home ms m !! path).
Proof.
  intros H. destruct (extracted_lookup ms m path) as [->|(n & c & _ & _ & ->)];
    [assumption|eexists; reflexivity].
Qed.

(** With two candidates, the second is returned only when the first is
    missing. *)
Lemma first_existing_pair m a b p :
  first_existing home m [a; b] = Some p ->
  is_Some (m !! p) /\
  (p = path_join (base_dir home) a \/
   p = path_join (base_dir home) b /\ m !! path_join (base_dir home) a = None).
Proof.
  unfold first_existing. cbn [List.find].
  destruct (bool_decide (is_Some (m !! path_join (base_dir home) a))) eqn:Ea.
  - intros [= <-]. apply bool_decide_eq_true in Ea. auto.
  - destruct (bool_decide (is_Some (m !! path_join (base_dir home) b))) eqn:Eb;
      [|discriminate].
    intros [= <-]. apply bool_decide_eq_true in Eb.
    apply bool_decide_eq_false in Ea. split; [assumption|]. right.
    split; [reflexivity|].
    destruct (m !! path_join (base_dir home) a) eqn:E; [|reflexivity].
    exfalso. apply Ea. eexists; reflexivity.
Qed.

(** ** Inversions *)

Lemma first_existing_insert k v m names :
  (forall f, In f names -> path_join (base_dir home) f <> k) ->
  first_existing home (<[k := v]> m) names = first_existing home m names.
Proof.
  intros H. unfold first_existing. f_equal.
  induction names as [|f names IH]; [reflexivity|].
  cbn [List.find]. rewrite lookup_insert_ne by (apply not_eq_sym, H; now left).
  rewrite IH; [reflexivity|]. intros g Hg. apply H. now right.
Qed.

(** [load_path] touches neither files nor requests. *)
Lemma load_path_frame t silent fpath w :
  same_state (snd (load_path t silent fpath w)) w.
Proof.
  assert (Hp : forall A msg (k : World -> outcome A * World),
             (forall w', same_state w' w -> same_state (snd (k w')) w) ->
             same_state (snd (after_print silent msg w k)) w).
  { intros A msg k Hk. unfold after_print.
    destruct (print_outcome silent msg); cbn [snd];
      [|apply same_state_refl..].
    apply Hk. split; [apply fs_print_to|apply requests_print_to]. }
  rewrite load_path_unfold. unfold loaded.
  destruct (fs w !! fpath) as [c|]; [|apply Hp; auto].
  destruct (parse_twice c (sep_for fpath) Utf8) as [d|e|];
    [apply Hp; auto| |apply same_state_refl].
  destruct (is_UnicodeDecodeError e); [|apply Hp; auto].
  destruct (parse_twice c (sep_for fpath) Latin1) as [d|e'|];
    [apply Hp; auto|apply same_state_refl..].
Qed.

(** A table that was loaded is loaded again from the same contents, by
    a call that is as silent or silent. *)
Lemma load_again t t' silent silent' fpath w w' df w1 :
  load_path t silent fpath w = (Ok (Some df), w1) ->
  fs w' !! fpath = fs w !! fpath ->
  silent' = silent \/ silent' = true ->
  load_path t' silent' fpath w' =
  (Ok (Some df), print_to silent' (LoadedColumns (columns df)) w').
Proof.
  intros H Hfile Hq. revert H. rewrite !load_path_unfold, Hfile.
  assert (Hl : forall d,
             loaded silent d w = (Ok (Some df), w1) ->
             loaded silent' d w' =
             (Ok (Some df), print_to silent' (LoadedColumns (columns df)) w')).
  { intros d. unfold loaded, after_print.
    destruct (print_outcome silent _) as [[]| |] eqn:Ep; [|discriminate..].
    intros [= <- <-].
    assert (Ep' : print_outcome silent'
                    (LoadedColumns (columns (strip_columns d))) = Ok tt)
      by (destruct Hq as [->| ->]; [exact Ep|reflexivity]).
    now rewrite Ep'. }
  unfold after_print.
  destruct (fs w !! fpath) as [c|];
    [|destruct (print_outcome silent _); discriminate].
  destruct (parse_twice c (sep_for fpath) Utf8) as [d|e|];
    [apply Hl| |discriminate].
  destruct (is_UnicodeDecodeError e);
    [|destruct (print_outcome silent _); discriminate].
  destruct (parse_twice c (sep_for fpath) Latin1) as [d|e'|];
    [apply Hl|discriminate..].
Qed.

Lemma load_metadata_inv t silent w df w1 :
  load_metadata home remote t silent w = (Ok (Some df), w1) ->
  exists p we,
    ensure_metadata_file home remote t silent w = (Ok (Some p), we) /\
    load_path t silent p we = (Ok (Some df), w1) /\
    same_state w1 we.
Proof.
  rewrite load_metadata_unfold.
  destruct (ensure_metadata_file home remote t silent w)
    as [[[p|]|e|] we] eqn:He; try discriminate.
  destruct (truthy (Some p)); [|discriminate].
  intros H. exists p, we. split; [reflexivity|]. split; [exact H|].
  pose proof (load_path_frame t silent p we) as F. now rewrite H in F.
Qed.

Lemma lines_printed_quieter silent silent' col keyword t m :
  lines_printed home silent col keyword t m ->
  silent' = silent \/ silent' = true ->
  lines_printed home silent' col keyword t m.
Proof.
  intros H [->| ->]; [exact H|]. repeat split.
Qed.

Lemma after_load_inv t keyword silent df w m w2 :
  after_load home t keyword silent df w = (Ok (Some m), w2) ->
  exists col contents,
    detect_column (columns df) = Some col /\
    truthy (Some col) = true /\
    filter_rows df col keyword = Ok m /\
    empty m = false /\
    creatable (results_name keyword t) = Ok tt /\
    to_csv m = Ok contents /\
    lines_printed home silent col keyword t m /\
    fs w2 = <[results_path home keyword t := contents]> (fs w) /\
    requests w2 = requests w.
Proof.
  rewrite after_load_run. cbv zeta. unfold after_print.
  destruct (detect_column (columns df)) as [col|];
    [|cbn [truthy negb]; destruct (print_outcome _ _); discriminate].
  destruct (truthy (Some col)) eqn:Ht;
    [|cbn [negb]; destruct (print_outcome _ _); discriminate].
  cbn [negb]. change (default EmptyString (Some col)) with col.
  destruct (print_outcome silent (UsingColumn col)) as [[]| |] eqn:P1;
    [|discriminate..].
  destruct (filter_rows df col keyword) as [m'|e|] eqn:Hf; [|discriminate..].
  destruct (empty m') eqn:He;
    [destruct (print_outcome silent (NoEntries keyword t)); discriminate|].
  destruct (print_outcome silent (FoundMatches _ _ _)) as [[]| |] eqn:P2;
    [|discriminate..].
  destruct (print_outcome silent (Preview m')) as [[]| |] eqn:P3;
    [|discriminate..].
  destruct (creatable (results_name keyword t)) as [[]| |] eqn:Hn;
    [|discriminate..].
  destruct (to_csv m') as [c|e|] eqn:Hc; [|discriminate..].
  destruct (print_outcome silent (SavedTo _ _)) as [[]| |] eqn:P4;
    [|discriminate..].
  intros [= <- <-]. exists col, c.
  repeat (split; [first [reflexivity|assumption]|]).
  split; [repeat split; assumption|].
  rewrite fs_print_to, requests_print_to. cbn [fs requests written].
  now rewrite !fs_print_to, !requests_print_to.
Qed.

Lemma after_load_success t keyword silent df w col m contents :
  detect_column (columns df) = Some col ->
  truthy (Some col) = true ->
  filter_rows df col keyword = Ok m ->
  empty m = false ->
  creatable (results_name keyword t) = Ok tt ->
  to_csv m = Ok contents ->
  lines_printed home silent col keyword t m ->
  exists w2,
    after_load home t keyword silent df w = (Ok (Some m), w2) /\
    fs w2 = <[results_path home keyword t := contents]> (fs w) /\
    requests w2 = requests w.
Proof.
  intros Hc Ht Hf He Hn Hcsv (P1 & P2 & P3 & P4).
  eexists. rewrite after_load_run. cbv zeta.
  rewrite Hc, Ht. cbn [negb]. change (default EmptyString (Some col)) with col.
  rewrite (after_print_ok _ _ _ _ P1), Hf, He.
  rewrite (after_print_ok _ _ _ _ P2), (after_print_ok _ _ _ _ P3).
  rewrite Hn, Hcsv, (after_print_ok _ _ _ _ P4).
  split; [reflexivity|].
  rewrite fs_print_to, requests_print_to. cbn [fs requests written].
  now rewrite !fs_print_to, !requests_print_to.
Qed.

Lemma fetch_success_inv t keyword hint silent w m w2 :
  fetch_and_display home remote t keyword hint silent w = (Ok (Some m), w2) ->
  exists df w1,
    load_metadata home remote t silent w = (Ok (Some df), w1) /\
    after_load home t keyword silent df w1 = (Ok (Some m), w2).
Proof.
  rewrite fetch_and_display_unfold.
  destruct (load_metadata home remote t silent w) as [[[df|]|e|] w1];
    try discriminate.
  intros H. exists df, w1. split; [reflexivity|exact H].
Qed.

(** Saving what a query returned writes the same file again. *)
Lemma save_after_fetch_facts
        t keyword hint silent silent' w m w1 :
  fetch_and_display home remote t keyword hint silent w = (Ok (Some m), w1) ->
  silent' = true \/ plain keyword ->
  exists w2,
    save_full_dataset home (Some m) keyword t silent' w1 = (Ok tt, w2) /\
    fs w2 = fs w1 /\ requests w2 = requests w1 /\
    console w2 =
    if silent' then console w1
    else console w1 ++ [SavedSuccessfully (results_dir home)
                                          (results_name keyword t)].
Proof.
  intros H Hq. apply fetch_success_inv in H as (df & wl & Hload & Hafter).
  destruct (load_metadata_known _ _ _ _ _ _ _ Hload) as [spec Hs].
  destruct (known_type_plain _ _ Hs) as [Ht _].
  apply after_load_inv in Hafter
    as (col & c & _ & _ & _ & He & Hn & Hc & _ & Hfs & _).
  assert (Hshown : shown silent' [keyword; t]).
  { destruct Hq as [->|Hk]; [apply shown_silent|].
    right. repeat constructor; assumption. }
  eexists. rewrite (save_something _ _ _ _ _ _ He), Hn, Hc. cbv zeta.
  rewrite (print_saved_successfully _ _ _ _ Hshown).
  split; [reflexivity|].
  rewrite console_print_to, fs_print_to, requests_print_to.
  cbn [fs requests console written].
  split; [|split; reflexivity].
  rewrite Hfs. apply insert_insert_eq.
Qed.

End WithEnv.

End PipelineFacts.

(* ====================================================================== *)
(** * Facts about the selection of rows *)
(* ====================================================================== *)

Module SelectionFacts.
Import Py Codec Csv Pandas Frame Detect ChipAtlas ColumnSpec FilterSpec.
Import PyFacts DetectFacts FilterFacts.

Lemma detects_in cols c : detects cols (Some c) -> In c cols.
Proof.
  inversion 1 as [c' H'|c' _ H'| |]; subst.
  - now apply first_such_in in H'.
  - now apply shortest_first_in in H'.
  - assumption.
Qed.

Lemma label_positions_in col cols i :
  In col cols -> label_positions col i cols <> [].
Proof.
  revert i. induction cols as [|c cols IH]; intros i; [intros []|].
  intros [->|H]; cbn [label_positions].
  - now rewrite String.eqb_refl.
  - destruct (String.eqb c col); [discriminate|]. now apply IH.
Qed.

Lemma select_rows_sublist {A} (rs : list A) mask :
  sublist (select_rows rs mask) rs.
Proof.
  revert mask. induction rs as [|r rs IH]; intros [|b mask];
    cbn [select_rows]; try apply sublist_nil_l.
  destruct b; [apply sublist_skip|apply sublist_cons]; apply IH.
Qed.

Lemma select_rows_all {A B} (rs : list A) (l : list B) :
  List.length l = List.length rs ->
  select_rows rs (List.map (fun _ => true) l) = rs.
Proof.
  revert l. induction rs as [|r rs IH]; intros [|x l]; cbn; try discriminate;
    try reflexivity.
  intros [= H]. now rewrite IH.
Qed.

(** The filter, by the number of columns that carry the label. *)
Lemma filter_rows_run df col keyword :
  filter_rows df col keyword =
  match label_positions col 0 (columns df) with
  | [] => Raise KeyError
  | [i] =>
      omap (fun r =>
              getitem_mask df
                (List.map (fun c => Re.search r (str_of_cell c))
                          (column_values df i)))
           (Re.compile keyword)
  | _ :: _ :: _ => Raise AttributeError
  end.
Proof.
  unfold filter_rows, getitem.
  destruct (label_positions col 0 (columns df)) as [|i [|j ps]];
    [reflexivity| |reflexivity].
  cbn [obind astype_str str_accessor]. unfold str_contains.
  destruct (Re.compile keyword) as [r| |]; cbn [omap obind]; try reflexivity.
  now rewrite List.map_map.
Qed.

Lemma filter_rows_ok df col keyword m :
  filter_rows df col keyword = Ok m ->
  columns m = columns df /\ sublist (rows m) (rows df).
Proof.
  rewrite filter_rows_run.
  destruct (label_positions col 0 (columns df)) as [|i [|j ps]];
    try discriminate.
  destruct (Re.compile keyword) as [r| |]; cbn [omap]; try discriminate.
  intros [= <-]. split; [reflexivity|]. apply select_rows_sublist.
Qed.

End SelectionFacts.

(* ====================================================================== *)
(** * Facts about the command line and the tool adapter *)
(* ====================================================================== *)

Module AdapterFacts.
Import Py Codec Csv Pandas Frame Detect ChipAtlas ColumnSpec Unfolded Effects.
Import Repr Rich.
Import PyFacts DetectFacts RichFacts WorldFacts EffectFacts PipelineFacts.
Import Cli McpServer.

(** ** [dict(zip(columns, row))] *)

Lemma dict_set_fresh k v d :
  ~ In k (List.map fst d) -> dict_set k v d = d ++ [(k, v)].
Proof.
  induction d as [|[k' v'] d IH]; intros H; [reflexivity|].
  cbn [dict_set]. cbn [List.map fst In] in H.
  destruct (String.eqb_spec k' k) as [->|_]; [tauto|].
  cbn [app]. rewrite IH; [reflexivity|tauto].
Qed.

Lemma dict_zip_from cols row d :
  List.NoDup (List.map fst d ++ cols) ->
  List.fold_left (fun d kv => dict_set (fst kv) (snd kv) d)
                 (List.combine cols row) d
  = d ++ List.combine cols row.
Proof.
  revert row d. induction cols as [|c cols IH]; intros row d H.
  - cbn. now rewrite List.app_nil_r.
  - destruct row as [|x row]; [cbn; now rewrite List.app_nil_r|].
    cbn [List.combine List.fold_left fst snd].
    assert (Hc : ~ In c (List.map fst d)).
    { apply List.NoDup_remove_2 in H. intros Hin. apply H.
      apply List.in_or_app. now left. }
    rewrite (dict_set_fresh _ _ _ Hc), IH.
    + now rewrite <- List.app_assoc.
    + rewrite List.map_app, <- List.app_assoc. exact H.
Qed.

(** With distinct column labels a record pairs every label with the
    cell of the row. *)
Lemma dict_zip_distinct cols row :
  List.NoDup cols -> dict_zip cols row = List.combine cols row.
Proof. intros H. unfold dict_zip. now rewrite dict_zip_from. Qed.

(** ** The lines of [cli.fetch] *)

Lemma cli_printed_retrieving t gene :
  plain t -> plain gene -> cli_printed (Retrieving t gene) = Ok tt.
Proof.
  intros Ht Hg. unfold cli_printed, cli_markup, render.
  scan_literal. scan_text Ht. scan_literal.
  now destruct (scan_plain false [] gene Hg) as [e' ->].
Qed.

Lemma cli_printed_no_data gene t :
  plain gene -> plain t -> cli_printed (NoDataFound gene t) = Ok tt.
Proof.
  intros Hg Ht. unfold cli_printed, cli_markup, render.
  scan_literal. scan_text Hg. scan_literal. scan_text Ht. scan_end.
Qed.

Lemma cli_printed_saved gene t :
  plain gene -> plain t -> cli_printed (SavedUnder gene t) = Ok tt.
Proof.
  intros Hg Ht. unfold cli_printed, cli_markup, render.
  change (String Csv.LF ?s) with (String Csv.LF EmptyString +:+ s).
  scan_literal. scan_literal. scan_text Hg. scan_literal. scan_text Ht.
  scan_end.
Qed.

Lemma cli_printed_exit code : cli_printed (ErrorWhile (Exit code)) = Ok tt.
Proof. reflexivity. Qed.

Lemma cli_printed_error e :
  cli_printed (ErrorWhile (Pipeline e)) = exn_renders e.
Proof.
  unfold cli_printed, cli_markup, render. cbn.
  now destruct (exn_renders e) as [[]| |].
Qed.

(** A gene that is the tag [[/]] closes nothing in the first line. *)
Lemma cli_printed_closing_tag t :
  plain t -> cli_printed (Retrieving t "[/]") = Raise MarkupError.
Proof.
  intros Ht. unfold cli_printed, cli_markup, render.
  scan_literal. scan_text Ht. scan_end.
Qed.

Section WithEnv.
Variable home : string.
Variable remote : string -> response.

(** ** [cli.fetch] *)

Lemma cli_fetch_run gene t term :
  plain gene -> plain t ->
  Cli.fetch home remote gene t term =
  let out := cli_console term ++ [Retrieving t gene] in
  let failed := fun e w =>
    match exn_renders e with
    | Ok _ =>
        (Raised (Exit 1),
         {| world := w; cli_console := out ++ [ErrorWhile (Pipeline e)] |})
    | Raise e' => (Raised (Pipeline e'), {| world := w; cli_console := out |})
    | Unmodelled => (NotModelled, {| world := w; cli_console := out |})
    end in
  match fetch_and_display home remote t gene "Antigen" false (world term) with
  | (Ok data, w1) =>
      if no_data data then
        (Raised (Exit 1),
         {| world := w1;
            cli_console := out ++ [NoDataFound gene t; ErrorWhile (Exit 1)] |})
      else
        match save_full_dataset home data gene t false w1 with
        | (Ok _, w2) =>
            (Done tt,
             {| world := w2; cli_console := out ++ [SavedUnder gene t] |})
        | (Raise e, w2) => failed e w2
        | (Unmodelled, w2) =>
            (NotModelled, {| world := w2; cli_console := out |})
        end
  | (Raise e, w1) => failed e w1
  | (Unmodelled, w1) => (NotModelled, {| world := w1; cli_console := out |})
  end.
Proof.
  intros Hg Ht.
  unfold Cli.fetch, and_then, try_catch, print, call, raise, pure.
  rewrite (cli_printed_retrieving _ _ Ht Hg), (cli_printed_no_data _ _ Hg Ht),
    (cli_printed_saved _ _ Hg Ht).
  cbn [world cli_console]. cbv zeta.
  destruct (fetch_and_display home remote t gene "Antigen" false (world term))
    as [[data|e|] w1]; cbn [world cli_console].
  - destruct (no_data data); cbn [world cli_console].
    + rewrite cli_printed_exit. cbn [world cli_console].
      now rewrite <- List.app_assoc.
    + destruct (save_full_dataset home data gene t false w1) as [[[]|e|] w2];
        cbn [world cli_console]; [reflexivity| |reflexivity].
      rewrite cli_printed_error.
      destruct (exn_renders e) as [[]| |]; reflexivity.
  - rewrite cli_printed_error.
    destruct (exn_renders e) as [[]| |]; reflexivity.
  - reflexivity.
Qed.

(** ** [fetch_chip_atlas] *)

Lemma fetch_chip_atlas_run gene t w :
  fetch_chip_atlas home remote gene t w =
  match fetch_and_display home remote t gene "Antigen" true w with
  | (Ok None, w1) =>
      (Ok (NoData gene t
             ("No results found for " +:+ gene +:+ " in " +:+ t +:+ ".")),
       w1)
  | (Ok (Some d), w1) =>
      if empty d then
        (Ok (NoData gene t
               ("No results found for " +:+ gene +:+ " in " +:+ t +:+ ".")),
         w1)
      else
        match save_full_dataset home (Some d) gene t true w1 with
        | (Ok _, w2) =>
            (Ok (Success gene t (List.length (rows d)) (columns d)
                         (to_dict_records (head 10 d))), w2)
        | (Raise e, w2) => (Ok (Error e), w2)
        | (Unmodelled, w2) => (Unmodelled, w2)
        end
  | (Raise e, w1) => (Ok (Error e), w1)
  | (Unmodelled, w1) => (Unmodelled, w1)
  end.
Proof.
  unfold fetch_chip_atlas, try_except, bind at 1.
  destruct (fetch_and_display home remote t gene "Antigen" true w)
    as [[[d|]|e|] w1]; try reflexivity.
  destruct (empty d); [reflexivity|].
  unfold bind.
  destruct (save_full_dataset home (Some d) gene t true w1) as [[[]|e|] w2];
    reflexivity.
Qed.

Lemma mute_fetch_chip_atlas gene t : mute (fetch_chip_atlas home remote gene t).
Proof.
  unfold fetch_chip_atlas. cbv zeta.
  repeat mute_step;
    try apply mute_fetch_and_display; apply mute_save_full_dataset.
Qed.

End WithEnv.

End AdapterFacts.

(* ====================================================================== *)
(** * The claims *)
(* ====================================================================== *)

Import Py Codec Csv Pandas Frame Detect ChipAtlas.
Import ColumnSpec FilterSpec RoundTripSpec Unfolded Examples.
Import PyFacts DetectFacts RichFacts WorldFacts RaiseFacts FilterFacts
       CodecFacts CsvFacts RoundTripFacts.

(** C1.  Column detection in [fetch_and_display] follows the priority
    order.  For every table that [load_metadata] returns, the detected
    column is the one the order [detects] determines: the first column
    whose name equals "antigen" case-insensitively; otherwise the
    shortest-named column containing "antigen", the earliest one among
    equals; otherwise "Cell type"; otherwise none, and then
    [fetch_and_display] returns [None].  With the columns "Antigen_x" and
    "Antigen", the detected column is "Antigen". *)
Theorem column_detection_priority :
  (forall home remote t silent w df w1,
      load_metadata home remote t silent w = (Ok (Some df), w1) ->
      (forall r, detects (columns df) r <-> detect_column (columns df) = r) /\
      (detect_column (columns df) = None ->
       forall keyword hint,
         fetch_and_display home remote t keyword hint silent w =
         (Ok None, print_to silent (NoSuitableColumn t) w1))) /\
  detect_column ["Antigen_x"; "Antigen"] = Some "Antigen".
Proof.
  split; [|reflexivity].
  intros home remote t silent w df w1 Hload. split.
  - apply detect_column_spec. eapply load_metadata_trimmed; eauto.
  - intros Hnone keyword hint.
    destruct (load_metadata_known _ _ _ _ _ _ _ Hload) as [spec Hs].
    destruct (known_type_plain _ _ Hs) as [Ht _].
    rewrite fetch_and_display_unfold, Hload, after_load_run. cbv zeta.
    rewrite Hnone. cbn [truthy negb].
    rewrite after_print_ok; [reflexivity|].
    apply print_outcome_ok. right. now apply printed_no_suitable.
Qed.

Lemma column_detection_priority_witness :
  detects (columns antigen_frame) (Some "Antigen").
Proof.
  destruct column_detection_priority as [H _].
  destruct (H home0 offline "experiment_list" true w_cached antigen_frame
              w_cached) as [Hd _].
  - vm_compute. reflexivity.
  - apply Hd. reflexivity.
Defined.

(** C2.  The keyword is not searched as a substring: it is compiled as
    a regular expression, and a NaN is searched as the text "nan".  On
    a column of antigens, the keyword TP53 selects what the substring
    test selects, but a dot selects every row although no value contains
    a dot, an opening parenthesis or a plus sign raises [re.error], also
    out of [fetch_and_display], and the keyword "nan" selects the row
    whose value is missing. *)
Theorem keyword_is_a_pattern :
  filter_rows antigens "Antigen" "TP53"
  = Ok {| columns := ["Antigen"];
          rows := substring_matches antigens 0 "TP53" |} /\
  substring_matches antigens 0 "." = [] /\
  filter_rows antigens "Antigen" "." = Ok antigens /\
  filter_rows antigens "Antigen" "(" = Raise ReError /\
  filter_rows antigens "Antigen" "+" = Raise ReError /\
  fst (fetch_and_display home0 offline "experiment_list" "(" "Antigen" true
         w_cached) = Raise ReError /\
  substring_matches antigens 0 "nan" = [] /\
  filter_rows antigens "Antigen" "nan"
  = Ok {| columns := ["Antigen"]; rows := [[None]] |}.
Proof. repeat split; vm_compute; reflexivity. Qed.

(** C3.  An error of the Latin-1 retry is not turned into an absent
    result: on a file that is not valid UTF-8 and whose third line has a
    field too many, [load_metadata] raises [ParserError], while the same
    lines in ASCII give [None]. *)
Theorem latin1_retry_error_escapes :
  load_metadata home0 offline "experiment_list" true w_ragged
  = (Raise ParserError, w_ragged) /\
  load_metadata home0 offline "experiment_list" true w_ragged_ascii
  = (Ok None, w_ragged_ascii).
Proof. split; vm_compute; reflexivity. Qed.

(** C4.  A local file whose bytes are not valid UTF-8 and which parses
    under Latin-1 (with the same separator, and with the comma retry
    when the first parse gives one column) gives a table whose column
    names are all trimmed, and [load_metadata] returns it when the line
    that lists the columns is printed: when [silent] is set, or when no
    column name holds an opening bracket.  When that line is printed and
    rich finds a closing tag without an opening one in it,
    [load_metadata] raises [MarkupError] instead: so it does on a file
    with the columns "Antigen" and "x[/b]", which the silent call
    loads. *)
Theorem latin1_fallback_loads :
  (forall home remote t silent w fpath w1 contents df1 df2,
      ensure_metadata_file home remote t silent w = (Ok (Some fpath), w1) ->
      fs w1 !! fpath = Some contents ->
      utf8_decode contents = DecError ->
      parse_csv contents (sep_for fpath) Latin1 = Ok df1 ->
      (shape1 df1 = 1 -> parse_csv contents (Some COMMA) Latin1 = Ok df2) ->
      let df := strip_columns (if shape1 df1 =? 1 then df2 else df1) in
      Forall (fun c => strip c = c) (columns df) /\
      (shown silent (columns df) ->
       load_metadata home remote t silent w =
       (Ok (Some df), print_to silent (LoadedColumns (columns df)) w1)) /\
      (silent = false ->
       printed (LoadedColumns (columns df)) = Raise MarkupError ->
       load_metadata home remote t silent w = (Raise MarkupError, w1))) /\
  utf8_decode tagged_bytes = DecError /\
  load_metadata home0 offline "experiment_list" false w_tagged
  = (Raise MarkupError,
     print_to false (FoundLocalFile "experiment_list" experiment_tsv)
              w_tagged) /\
  load_metadata home0 offline "experiment_list" true w_tagged
  = (Ok (Some tagged_frame), w_tagged).
Proof.
  split; [|repeat split; vm_compute; reflexivity].
  intros home remote t silent w fpath w1 contents df1 df2
         Hens Hfile Hutf8 Hparse Hretry df.
  assert (E : load_metadata home remote t silent w =
              loaded silent (if shape1 df1 =? 1 then df2 else df1) w1).
  { rewrite load_metadata_unfold, Hens.
    rewrite (ensure_returns_truthy _ _ _ _ _ _ _ Hens).
    rewrite load_path_unfold, Hfile.
    rewrite (parse_twice_decode_error _ _ Hutf8). cbn [is_UnicodeDecodeError].
    unfold parse_twice. rewrite Hparse. cbn [obind].
    destruct (shape1 df1 =? 1) eqn:E; [|reflexivity].
    apply Nat.eqb_eq in E. now rewrite (Hretry E). }
  split; [apply trimmed_strip_columns|]. split.
  - intros Hs. rewrite E. unfold loaded.
    now rewrite after_print_ok by (now apply print_loaded_columns).
  - intros -> Hp. rewrite E. unfold loaded, after_print, print_outcome.
    fold df. now rewrite Hp.
Qed.

Lemma latin1_fallback_loads_witness :
  load_metadata home0 offline "experiment_list" false w_latin1 =
  (Ok (Some (strip_columns latin1_frame)),
   print_to false (LoadedColumns ["Antigen"; "Cell type"])
     (print_to false (FoundLocalFile "experiment_list" experiment_tsv)
        w_latin1)).
Proof.
  destruct latin1_fallback_loads as [H _].
  destruct (H home0 offline "experiment_list" false w_latin1 experiment_tsv
              (print_to false (FoundLocalFile "experiment_list" experiment_tsv)
                 w_latin1)
              latin1_bytes latin1_frame {| columns := []; rows := [] |})
    as (_ & Hshown & _).
  - vm_compute. reflexivity.
  - vm_compute. reflexivity.
  - vm_compute. reflexivity.
  - vm_compute. reflexivity.
  - vm_compute. discriminate.
  - apply Hshown. right. repeat constructor.
Defined.

(** C5.  For a string that is not a key of [METADATA_SPECS],
    [ensure_metadata_file] requests nothing from the network, writes no
    file and returns no path.  It returns [None] when its one line is
    printed: when [silent] is set, or when the string holds no opening
    bracket.  When the line is printed and rich finds a closing tag
    without an opening one in it, the call raises [MarkupError]: so it
    does for the string "[/]", for which the silent call returns
    [None]. *)
Theorem unknown_type_no_network :
  (forall home remote t silent w,
      METADATA_SPECS !! t = None ->
      let r := ensure_metadata_file home remote t silent w in
      fs (snd r) = fs w /\ requests (snd r) = requests w /\
      (forall p, fst r <> Ok (Some p)) /\
      (shown silent [t] ->
       r = (Ok None, print_to silent (UnknownMetadataType t) w)) /\
      (silent = false ->
       printed (UnknownMetadataType t) = Raise MarkupError ->
       r = (Raise MarkupError, w))) /\
  METADATA_SPECS !! "[/]" = None /\
  ensure_metadata_file home0 archive "[/]" false w_fresh
  = (Raise MarkupError, w_fresh) /\
  ensure_metadata_file home0 archive "[/]" true w_fresh = (Ok None, w_fresh).
Proof.
  split; [|repeat split; vm_compute; reflexivity].
  intros home remote t silent w H. cbv zeta.
  rewrite ensure_unfold, H. unfold after_print.
  repeat split.
  - destruct (print_outcome _ _); cbn [snd]; [apply fs_print_to|reflexivity..].
  - destruct (print_outcome _ _); cbn [snd];
      [apply requests_print_to|reflexivity..].
  - intros p. destruct (print_outcome _ _); cbn [fst]; discriminate.
  - intros Hs. now rewrite (print_unknown _ _ Hs).
  - intros -> Hp. unfold print_outcome. now rewrite Hp.
Qed.

Lemma unknown_type_no_network_witness :
  ensure_metadata_file home0 archive "invalid_type" false w_fresh
  = (Ok None, print_to false (UnknownMetadataType "invalid_type") w_fresh).
Proof.
  destruct unknown_type_no_network as [H _].
  destruct (H home0 archive "invalid_type" false w_fresh)
    as (_ & _ & _ & Hshown & _).
  - vm_compute. reflexivity.
  - apply Hshown. right. repeat constructor.
Defined.

(** C6.  [ensure_metadata_file] is idempotent.  For a known metadata
    type with a candidate file under the base directory, it returns the
    path of the first candidate present and leaves files and network
    alone; and after a call that returned a path, a second call returns
    the same path without a request, whatever the server would answer. *)
Theorem ensure_is_idempotent :
  (forall home remote t silent w spec fname,
      METADATA_SPECS !! t = Some spec ->
      In fname (unzipped_files spec) ->
      is_Some (fs w !! path_join (base_dir home) fname) ->
      exists p w',
        ensure_metadata_file home remote t silent w = (Ok (Some p), w') /\
        first_existing home (fs w) (unzipped_files spec) = Some p /\
        fs w' = fs w /\ requests w' = requests w) /\
  (forall home remote remote' t silent silent' w p w1,
      ensure_metadata_file home remote t silent w = (Ok (Some p), w1) ->
      exists w2,
        ensure_metadata_file home remote' t silent' w1 = (Ok (Some p), w2) /\
        fs w2 = fs w1 /\ requests w2 = requests w1).
Proof.
  split.
  - intros home remote t silent w spec fname Hs Hin Hex.
    destruct (first_existing_found home _ _ _ Hin Hex) as [p Hp].
    exists p, (print_to silent (FoundLocalFile t p) w).
    rewrite (ensure_cached home remote t silent w spec p Hs Hp).
    rewrite fs_print_to, requests_print_to. auto.
  - intros home remote remote' t silent silent' w p w1 H.
    destruct (ensure_returns_first_existing _ _ _ _ _ _ _ H) as (spec & Hs & Hp).
    exists (print_to silent' (FoundLocalFile t p) w1).
    rewrite (ensure_cached home remote' t silent' w1 spec p Hs Hp).
    rewrite fs_print_to, requests_print_to. auto.
Qed.

Lemma ensure_is_idempotent_witness :
  (exists p w',
      ensure_metadata_file home0 archive "experiment_list" true w_cached
      = (Ok (Some p), w') /\
      first_existing home0 (fs w_cached)
        (unzipped_files (spec_of "chip_atlas_experiment_list")) = Some p /\
      fs w' = fs w_cached /\ requests w' = requests w_cached) /\
  (exists w2,
      ensure_metadata_file home0 offline "experiment_list" false
        (snd (ensure_metadata_file home0 archive "experiment_list" true w_fresh))
      = (Ok (Some experiment_tsv), w2) /\
      fs w2 = fs (snd (ensure_metadata_file home0 archive "experiment_list"
                         true w_fresh)) /\
      requests w2 = [url (spec_of "chip_atlas_experiment_list")]).
Proof.
  destruct ensure_is_idempotent as [H1 H2]. split.
  - apply (H1 home0 archive "experiment_list" true w_cached
             (spec_of "chip_atlas_experiment_list")
             "chip_atlas_experiment_list.tsv").
    + vm_compute. reflexivity.
    + simpl. left. reflexivity.
    + vm_compute. eexists. reflexivity.
  - apply (H2 home0 archive offline "experiment_list" true false w_fresh
             experiment_tsv).
    vm_compute. reflexivity.
Defined.

(** C7.  With an empty or absent match set nothing is saved:
    [save_full_dataset] leaves files and network as they were, and it
    returns after its notice when the notice is printed (when [silent]
    is set, or when neither the gene nor the metadata type holds an
    opening bracket).  When the filter of [fetch_and_display] finds no
    row, files and network stay as [load_metadata] left them, and the
    call returns [None] when its lines are printed.  When the notice is
    printed and rich finds a closing tag without an opening one in it,
    [save_full_dataset] raises [MarkupError], the line of its handler
    failing too: so it does for the gene "[/]". *)
Theorem empty_match_set_is_not_saved :
  (forall home df gene t silent w,
      df = None \/ (exists d, df = Some d /\ empty d = true) ->
      let r := save_full_dataset home df gene t silent w in
      fs (snd r) = fs w /\ requests (snd r) = requests w /\
      (shown silent [gene; t] ->
       r = (Ok tt, print_to silent (NoDataToSave gene t) w)) /\
      (silent = false ->
       printed (NoDataToSave gene t) = Raise MarkupError ->
       r = (Raise MarkupError, w))) /\
  (forall home remote t keyword hint silent w df w1 col matches,
      load_metadata home remote t silent w = (Ok (Some df), w1) ->
      detect_column (columns df) = Some col ->
      filter_rows df col keyword = Ok matches ->
      empty matches = true ->
      let r := fetch_and_display home remote t keyword hint silent w in
      fs (snd r) = fs w1 /\ requests (snd r) = requests w1 /\
      (forall found, fst r <> Ok (Some found)) /\
      (shown silent [col; keyword] ->
       r = (Ok None,
            print_to silent (NoEntries keyword t)
                     (print_to silent (UsingColumn col) w1)))) /\
  save_full_dataset home0 None "[/]" "experiment_list" false w_cached
  = (Raise MarkupError, w_cached) /\
  save_full_dataset home0 None "[/]" "experiment_list" true w_cached
  = (Ok tt, w_cached).
Proof.
  split; [|split; [|split; vm_compute; reflexivity]].
  - intros home df gene t silent w H. cbv zeta.
    rewrite (save_nothing _ _ _ _ _ _ H).
    destruct (save_frame home df gene t silent w EmptyString)
      as [Hr _].
    rewrite (save_nothing _ _ _ _ _ _ H) in Hr.
    repeat split.
    + destruct (print_outcome silent (NoDataToSave gene t)); cbn [snd];
        [apply fs_print_to|apply quiet_say|reflexivity].
    + exact Hr.
    + intros Hs. now rewrite (print_no_data _ _ _ Hs).
    + intros -> Hp. unfold print_outcome. rewrite Hp.
      rewrite say_run. unfold after_print, print_outcome.
      now rewrite printed_save_error.
  - intros home remote t keyword hint silent w df w1 col matches
           Hload Hcol Hfilter Hempty. cbv zeta.
    assert (Htr : truthy (Some col) = true).
    { apply (detects_truthy (columns df)). rewrite <- Hcol.
      apply detect_column_detects. eapply load_metadata_trimmed; eauto. }
    destruct (load_metadata_known _ _ _ _ _ _ _ Hload) as [spec Hspec].
    destruct (known_type_plain _ _ Hspec) as [Ht _].
    rewrite fetch_and_display_unfold, Hload, after_load_run. cbv zeta.
    rewrite Hcol, Htr. cbn [negb].
    change (default EmptyString (Some col)) with col.
    rewrite Hfilter, Hempty. unfold after_print.
    repeat split.
    + destruct (print_outcome silent (UsingColumn col)); cbn [snd];
        [|reflexivity..].
      destruct (print_outcome silent (NoEntries keyword t)); cbn [snd];
        now rewrite ?fs_print_to.
    + destruct (print_outcome silent (UsingColumn col)); cbn [snd];
        [|reflexivity..].
      destruct (print_outcome silent (NoEntries keyword t)); cbn [snd];
        now rewrite ?requests_print_to.
    + intros found.
      destruct (print_outcome silent (UsingColumn col)); cbn [fst];
        [|discriminate..].
      destruct (print_outcome silent (NoEntries keyword t)); cbn [fst];
        discriminate.
    + intros Hs. apply shown_cons in Hs as [Hc Hs].
      apply shown_cons in Hs as [Hk _].
      assert (H1 : print_outcome silent (UsingColumn col) = Ok tt).
      { apply print_using_column. destruct Hc as [->|Hc];
          [apply shown_silent|right; now constructor]. }
      assert (H2 : print_outcome silent (NoEntries keyword t) = Ok tt).
      { destruct Hk as [->|Hk]; [reflexivity|].
        apply print_outcome_ok. right. now apply printed_no_entries. }
      now rewrite H1, H2.
Qed.

Lemma empty_match_set_is_not_saved_witness :
  save_full_dataset home0 None "XYZGENE" "experiment_list" false w_cached
  = (Ok tt,
     print_to false (NoDataToSave "XYZGENE" "experiment_list") w_cached) /\
  fetch_and_display home0 offline "experiment_list" "XYZGENE" "Antigen"
                    false w_cached
  = (Ok None,
     print_to false (NoEntries "XYZGENE" "experiment_list")
       (print_to false (UsingColumn "Antigen")
          (print_to false
             (LoadedColumns ["Experimental ID"; "Antigen"; "Cell type"])
             (print_to false
                (FoundLocalFile "experiment_list" experiment_tsv)
                w_cached)))).
Proof.
  destruct empty_match_set_is_not_saved as (H1 & H2 & _). split.
  - destruct (H1 home0 None "XYZGENE" "experiment_list" false w_cached)
      as (_ & _ & Hshown & _).
    + left. reflexivity.
    + apply Hshown. right. repeat constructor.
  - destruct (H2 home0 offline "experiment_list" "XYZGENE" "Antigen" false
                w_cached antigen_frame
                (print_to false
                   (LoadedColumns ["Experimental ID"; "Antigen"; "Cell type"])
                   (print_to false
                      (FoundLocalFile "experiment_list" experiment_tsv)
                      w_cached))
                "Antigen"
                {| columns := columns antigen_frame; rows := [] |})
      as (_ & _ & _ & Hshown).
    + vm_compute. reflexivity.
    + vm_compute. reflexivity.
    + vm_compute. reflexivity.
    + reflexivity.
    + apply Hshown. right. repeat constructor.
Defined.




(** C9 (as amended).  Every column name of a table that [load_metadata]
    returns is whitespace-trimmed: it is equal to its own strip. *)
Theorem loaded_columns_are_trimmed home remote t silent w df w1 :
  load_metadata home remote t silent w = (Ok (Some df), w1) ->
  Forall (fun c => strip c = c) (columns df).
Proof. apply load_metadata_trimmed. Qed.

Lemma loaded_columns_are_trimmed_witness :
  Forall (fun c => strip c = c) (columns antigen_frame).
Proof.
  apply (loaded_columns_are_trimmed home0 offline "experiment_list" true
           w_cached antigen_frame w_cached).
  vm_compute. reflexivity.
Defined.

(** C9, counterexample.  A header with the fields " Antigen" and
    "Antigen" is loaded as a table whose two columns are both named
    "Antigen". *)
Lemma loaded_columns_not_unique :
  exists df w1,
    load_metadata home0 offline "experiment_list" true w_padded_header
    = (Ok (Some df), w1) /\
    columns df = ["Antigen"; "Antigen"] /\
    ~ NoDup (columns df).
Proof.
  eexists. eexists. split; [vm_compute; reflexivity|]. split; [reflexivity|].
  simpl. intros H. apply NoDup_cons_1_1 in H. apply H. now left.
Qed.

(** C10.  The result of [fetch_and_display], returned value and world,
    is the same for any two values of [column_hint]. *)
Theorem fetch_ignores_column_hint
        home remote t keyword hint1 hint2 silent w :
  fetch_and_display home remote t keyword hint1 silent w =
  fetch_and_display home remote t keyword hint2 silent w.
Proof. reflexivity. Qed.

(* ====================================================================== *)
(** * Further properties *)
(* ====================================================================== *)

(** X1.  For a keyword without regular-expression metacharacters, on a
    column whose label is unique, the filter keeps exactly the rows
    whose value, read as text (NaN as "nan"), contains the keyword as a
    case-insensitive substring, in their order. *)
Theorem plain_keyword_filter df col i keyword :
  label_positions col 0 (columns df) = [i] ->
  plain_keyword keyword ->
  filter_rows df col keyword =
  Ok {| columns := columns df;
        rows := List.filter
                  (fun r => contains_ci keyword (str_of_cell (List.nth i r None)))
                  (rows df) |}.
Proof.
  intros Hpos Hplain. unfold filter_rows, getitem. rewrite Hpos.
  cbn [obind astype_str str_accessor]. unfold str_contains, Re.compile.
  rewrite (atoms_plain _ Hplain). cbn [omap obind]. unfold getitem_mask.
  f_equal. f_equal. unfold column_values.
  rewrite !map_map. rewrite select_rows_map.
  apply filter_ext. intros r. apply search_lits.
Qed.

Lemma plain_keyword_filter_witness :
  filter_rows antigens "Antigen" "TP53" =
  Ok {| columns := ["Antigen"];
        rows := [[Some "TP53"]; [Some "TP53BP1"]] |}.
Proof.
  apply (plain_keyword_filter antigens "Antigen" 0 "TP53").
  - reflexivity.
  - intros c H. simpl in H.
    repeat match type of H with
           | (Ascii.eqb ?a ?b || _) = true =>
               apply orb_prop in H; destruct H as [H|H];
               [apply Ascii.eqb_eq in H; subst; reflexivity|]
           end.
    discriminate.
Defined.

(** X2.  [load_path] raises only out of the Latin-1 retry, or out of a
    print: when it raises [e], the world is unchanged and either the
    file exists, its UTF-8 read raised [UnicodeDecodeError] and [e] is
    what the Latin-1 read raised, or the call is not silent and [e] is
    the [MarkupError] of a printed line.  Every other exception of the
    UTF-8 read gives [None] after the line that reports it, when that
    line is printed: when the call is silent, or when the metadata type
    holds no opening bracket. *)
Theorem load_path_raises_only_from_retry t silent fpath w :
  (forall e w',
      load_path t silent fpath w = (Raise e, w') ->
      w' = w /\
      ((exists contents,
           fs w !! fpath = Some contents /\
           parse_twice contents (sep_for fpath) Utf8
           = Raise UnicodeDecodeError /\
           parse_twice contents (sep_for fpath) Latin1 = Raise e) \/
       (silent = false /\ e = MarkupError))) /\
  (forall contents e,
      fs w !! fpath = Some contents ->
      parse_twice contents (sep_for fpath) Utf8 = Raise e ->
      e <> UnicodeDecodeError ->
      shown silent [t] ->
      load_path t silent fpath w =
      (Ok None, print_to silent (LoadError t e) w)).
Proof.
  split.
  - intros e w'. rewrite load_path_unfold. unfold loaded, after_print.
    destruct (fs w !! fpath) as [c|].
    2:{ destruct (print_outcome silent _) as [[]|e0|] eqn:Ep;
          [discriminate| |discriminate].
        intros [= -> <-]. apply print_outcome_raises in Ep as (-> & -> & _).
        auto. }
    destruct (parse_twice c (sep_for fpath) Utf8) as [d|e0|] eqn:E8.
    + destruct (print_outcome silent _) as [[]|e1|] eqn:Ep;
        [discriminate| |discriminate].
      intros [= -> <-]. apply print_outcome_raises in Ep as (-> & -> & _).
      auto.
    + destruct (is_UnicodeDecodeError e0) eqn:Eu.
      * destruct e0; try discriminate Eu.
        destruct (parse_twice c (sep_for fpath) Latin1) as [d|e1|] eqn:E1.
        -- destruct (print_outcome silent _) as [[]|e2|] eqn:Ep;
             [discriminate| |discriminate].
           intros [= -> <-].
           apply print_outcome_raises in Ep as (-> & -> & _). auto.
        -- intros [= -> <-]. split; [reflexivity|]. left. eauto.
        -- discriminate.
      * destruct (print_outcome silent _) as [[]|e1|] eqn:Ep;
          [discriminate| |discriminate].
        intros [= -> <-]. apply print_outcome_raises in Ep as (-> & -> & _).
        auto.
    + discriminate.
  - intros contents e Hfile Hparse Hne Hs.
    rewrite load_path_unfold, Hfile, Hparse.
    assert (Hu : is_UnicodeDecodeError e = false)
      by (destruct e; try reflexivity; contradiction).
    rewrite Hu. rewrite after_print_ok; [reflexivity|].
    destruct Hs as [->|Hp]; [reflexivity|].
    apply print_outcome_ok. right.
    apply List.Forall_cons_iff in Hp as [Hp _].
    rewrite (printed_load_error _ _ Hp).
    apply read_error_renders. now apply parse_twice_raises in Hparse.
Qed.

Lemma load_path_raises_only_from_retry_witness :
  (exists contents,
      fs w_ragged !! experiment_tsv = Some contents /\
      parse_twice contents (sep_for experiment_tsv) Utf8
      = Raise UnicodeDecodeError /\
      parse_twice contents (sep_for experiment_tsv) Latin1
      = Raise ParserError) /\
  load_path "experiment_list" false experiment_tsv w_ragged_ascii =
  (Ok None,
   print_to false (LoadError "experiment_list" ParserError) w_ragged_ascii).
Proof.
  split.
  - destruct (load_path_raises_only_from_retry "experiment_list" true
                experiment_tsv w_ragged) as [H _].
    destruct (H ParserError w_ragged) as [_ [H1|[H1 _]]].
    + vm_compute. reflexivity.
    + exact H1.
    + discriminate H1.
  - destruct (load_path_raises_only_from_retry "experiment_list" false
                experiment_tsv w_ragged_ascii) as [_ H].
    apply (H (bytes_of (tsv [["Antigen"; "Title"]; ["TP53"; "e"];
                             ["BRCA1"; "x"; "y"]]))).
    + vm_compute. reflexivity.
    + vm_compute. reflexivity.
    + discriminate.
    + right. repeat constructor.
Defined.

(* ====================================================================== *)
(** * The download, the query, the command line and the tool *)
(* ====================================================================== *)

Import Effects Scenarios Cli McpServer.
Import EffectFacts PipelineFacts SelectionFacts AdapterFacts.



(** X4.  When no candidate file is present and the archive is
    extracted to its end, [ensure_metadata_file] returns the first
    candidate that exists afterwards; the files are those before the
    call with the members of the archive written over them, and one
    request was made. *)
Theorem download_returns_extracted_candidate
        home remote t silent w spec ms f :
  METADATA_SPECS !! t = Some spec ->
  (forall g, In g (unzipped_files spec) ->
             fs w !! path_join (base_dir home) g = None) ->
  remote (url spec) = Extracts ms None ->
  In f (unzipped_files spec) ->
  is_Some (extracted home ms (fs w) !! path_join (base_dir home) f) ->
  exists p w',
    ensure_metadata_file home remote t silent w = (Ok (Some p), w') /\
    first_existing home (extracted home ms (fs w)) (unzipped_files spec)
    = Some p /\
    fs w' = extracted home ms (fs w) /\
    requests w' = requests w ++ [url spec].
Proof.
  intros Hs Hnone Hr Hf Hex.
  destruct (first_existing_found home _ _ _ Hf Hex) as [p Hp].
  exists p. eexists. rewrite ensure_unfold, Hs.
  rewrite (first_existing_none home _ _ Hnone). cbv zeta. rewrite Hr.
  world_simpl. rewrite Hp.
  split; [reflexivity|]. split; [reflexivity|]. world_simpl.
  split; reflexivity.
Qed.

Lemma download_returns_extracted_candidate_witness :
  exists p w',
    ensure_metadata_file home0 archive "experiment_list" false w_fresh
    = (Ok (Some p), w') /\
    first_existing home0
      (extracted home0
         [("chip_atlas_experiment_list.tsv", bytes_of (tsv antigen_table))]
         (fs w_fresh))
      (unzipped_files (spec_of "chip_atlas_experiment_list")) = Some p /\
    fs w' = extracted home0
              [("chip_atlas_experiment_list.tsv", bytes_of (tsv antigen_table))]
              (fs w_fresh) /\
    requests w' = requests w_fresh
                  ++ [url (spec_of "chip_atlas_experiment_list")].
Proof.
  apply (download_returns_extracted_candidate home0 archive "experiment_list"
           false w_fresh (spec_of "chip_atlas_experiment_list")
           [("chip_atlas_experiment_list.tsv", bytes_of (tsv antigen_table))]
           "chip_atlas_experiment_list.tsv").
  - vm_compute. reflexivity.
  - intros f [<-|[<-|[]]]; vm_compute; reflexivity.
  - reflexivity.
  - left. reflexivity.
  - vm_compute. eexists. reflexivity.
Defined.

(** X5.  An extraction that fails after members were written is not
    undone: [ensure_metadata_file] returns no path, the members written
    stay, and if a candidate file is among them, the next call returns
    it as the cached file without a request. *)
Theorem failed_extraction_keeps_members home remote t silent w spec ms e :
  METADATA_SPECS !! t = Some spec ->
  (forall g, In g (unzipped_files spec) ->
             fs w !! path_join (base_dir home) g = None) ->
  remote (url spec) = Extracts ms (Some e) ->
  let r := ensure_metadata_file home remote t silent w in
  (forall p, fst r <> Ok (Some p)) /\
  (silent = true -> fst r = Ok None) /\
  fs (snd r) = extracted home ms (fs w) /\
  requests (snd r) = requests w ++ [url spec] /\
  forall remote' silent' f,
    In f (unzipped_files spec) ->
    is_Some (fs (snd r) !! path_join (base_dir home) f) ->
    exists p w'',
      ensure_metadata_file home remote' t silent' (snd r)
      = (Ok (Some p), w'') /\
      fs w'' = fs (snd r) /\ requests w'' = requests (snd r).
Proof.
  intros Hs Hnone Hr. cbv zeta.
  assert (Hnext : forall w' : World,
             forall remote' silent' f,
               In f (unzipped_files spec) ->
               is_Some (fs w' !! path_join (base_dir home) f) ->
               exists p w'',
                 ensure_metadata_file home remote' t silent' w'
                 = (Ok (Some p), w'') /\
                 fs w'' = fs w' /\ requests w'' = requests w').
  { intros w' remote' silent' f Hf Hex.
    destruct (first_existing_found home _ _ _ Hf Hex) as [p Hp].
    exists p. eexists.
    rewrite (ensure_cached home remote' t silent' w' spec p Hs Hp).
    split; [reflexivity|]. world_simpl. split; reflexivity. }
  rewrite ensure_unfold, Hs.
  rewrite (first_existing_none home _ _ Hnone). cbv zeta. rewrite Hr.
  unfold after_print.
  destruct (print_outcome silent (DownloadError t e)) as [[]|e'|] eqn:Ep;
    cbn [fst snd].
  - split; [discriminate|]. split; [reflexivity|].
    split; [now world_simpl|]. split; [now world_simpl|]. apply Hnext.
  - split; [discriminate|].
    split; [intros ->; discriminate Ep|].
    split; [now world_simpl|]. split; [now world_simpl|]. apply Hnext.
  - split; [discriminate|].
    split; [intros ->; discriminate Ep|].
    split; [now world_simpl|]. split; [now world_simpl|]. apply Hnext.
Qed.

Lemma failed_extraction_keeps_members_witness :
  exists p w'',
    ensure_metadata_file home0 offline "experiment_list" false
      (snd (ensure_metadata_file home0 broken_archive "experiment_list" true
              w_fresh))
    = (Ok (Some p), w'') /\
    fs w'' = fs (snd (ensure_metadata_file home0 broken_archive
                        "experiment_list" true w_fresh)) /\
    requests w'' = requests (snd (ensure_metadata_file home0 broken_archive
                                    "experiment_list" true w_fresh)).
Proof.
  destruct (failed_extraction_keeps_members home0 broken_archive
              "experiment_list" true w_fresh
              (spec_of "chip_atlas_experiment_list")
              [("chip_atlas_experiment_list.tsv", bytes_of "Experimental ID")]
              BadZipFile) as (_ & _ & _ & _ & H).
  - vm_compute. reflexivity.
  - intros f [<-|[<-|[]]]; vm_compute; reflexivity.
  - reflexivity.
  - apply (H offline false "chip_atlas_experiment_list.tsv").
    + left. reflexivity.
    + vm_compute. eexists. reflexivity.
Defined.

(** X6.  When the archive is extracted to its end and holds no
    candidate file, [ensure_metadata_file] returns [None]; the members
    stay written, and a further call requests the archive again. *)
Theorem archive_without_candidate home remote t silent w spec ms :
  METADATA_SPECS !! t = Some spec ->
  remote (url spec) = Extracts ms None ->
  (forall g, In g (unzipped_files spec) ->
             extracted home ms (fs w) !! path_join (base_dir home) g = None) ->
  exists w' w'',
    ensure_metadata_file home remote t silent w = (Ok None, w') /\
    fs w' = extracted home ms (fs w) /\
    requests w' = requests w ++ [url spec] /\
    ensure_metadata_file home remote t silent w' = (Ok None, w'') /\
    requests w'' = requests w ++ [url spec; url spec].
Proof.
  intros Hs Hr Hnone.
  assert (Hbefore : forall g, In g (unzipped_files spec) ->
                              fs w !! path_join (base_dir home) g = None).
  { intros g Hg. specialize (Hnone g Hg).
    destruct (fs w !! path_join (base_dir home) g) eqn:E; [|reflexivity].
    destruct (extracted_keeps home ms (fs w) _ (mk_is_Some _ _ E)) as [x Hx].
    congruence. }
  assert (Hagain : forall g, In g (unzipped_files spec) ->
            extracted home ms (extracted home ms (fs w))
            !! path_join (base_dir home) g = None).
  { intros g Hg.
    destruct (extracted_lookup home ms (extracted home ms (fs w))
                (path_join (base_dir home) g)) as [->|(n & c & Hin & Hp & _)];
      [now apply Hnone|].
    destruct (extracted_lookup home ms (fs w) (path_join (base_dir home) g))
      as [E|(n' & c' & _ & _ & E)]; [|rewrite Hnone in E; [discriminate|exact Hg]].
    exfalso. clear E.
    assert (Hin' : is_Some (extracted home ms (fs w)
                              !! path_join (base_dir home) n)).
    { clear -Hin. revert Hin. generalize (fs w).
      induction ms as [|[n0 c0] ms IH]; intros m; [intros []|].
      rewrite extracted_cons. intros [[= -> ->]|Hin]; [|now apply IH].
      apply extracted_keeps. rewrite lookup_insert_eq. eexists; reflexivity. }
    rewrite <- Hp, (Hnone g Hg) in Hin'. now destruct Hin'. }
  eexists. eexists. rewrite !ensure_unfold, Hs.
  rewrite (first_existing_none home _ _ Hbefore). cbv zeta. rewrite Hr.
  world_simpl.
  rewrite (first_existing_none home _ _ Hnone).
  split; [reflexivity|]. world_simpl.
  split; [reflexivity|]. split; [reflexivity|].
  rewrite (first_existing_none home _ _ Hnone).
  rewrite (first_existing_none home _ _ Hagain).
  split; [reflexivity|]. world_simpl. now rewrite <- List.app_assoc.
Qed.

Lemma archive_without_candidate_witness :
  exists w' w'',
    ensure_metadata_file home0 other_archive "experiment_list" false w_fresh
    = (Ok None, w') /\
    fs w' = extracted home0 [("README.txt", bytes_of "ChIP-Atlas")]
                      (fs w_fresh) /\
    requests w' = requests w_fresh
                  ++ [url (spec_of "chip_atlas_experiment_list")] /\
    ensure_metadata_file home0 other_archive "experiment_list" false w'
    = (Ok None, w'') /\
    requests w'' = requests w_fresh
                   ++ [url (spec_of "chip_atlas_experiment_list");
                       url (spec_of "chip_atlas_experiment_list")].
Proof.
  apply (archive_without_candidate home0 other_archive "experiment_list" false
           w_fresh (spec_of "chip_atlas_experiment_list")
           [("README.txt", bytes_of "ChIP-Atlas")]).
  - vm_compute. reflexivity.
  - reflexivity.
  - intros f [<-|[<-|[]]]; vm_compute; reflexivity.
Defined.

(** X7.  A path that [ensure_metadata_file] returns is a file that
    exists afterwards; the metadata type is a key of the catalog, and
    the path is the type's [.tsv] candidate, or its [.csv] candidate
    when the [.tsv] one is missing.  The call made no request or one
    request, to the URL of the type. *)
Theorem ensure_returns_existing_candidate home remote t silent w p w' :
  ensure_metadata_file home remote t silent w = (Ok (Some p), w') ->
  is_Some (fs w' !! p) /\ In t known_types /\
  (p = path_join (base_dir home) ("chip_atlas_" +:+ t +:+ ".tsv") \/
   p = path_join (base_dir home) ("chip_atlas_" +:+ t +:+ ".csv") /\
   fs w' !! path_join (base_dir home) ("chip_atlas_" +:+ t +:+ ".tsv")
   = None) /\
  (requests w' = requests w \/
   exists spec, METADATA_SPECS !! t = Some spec /\
                requests w' = requests w ++ [url spec]).
Proof.
  intros H.
  destruct (ensure_returns_first_existing _ _ _ _ _ _ _ H)
    as (spec & Hs & Hp).
  destruct (catalog_lookup _ _ Hs) as [Hk Hspec].
  assert (Hfiles : unzipped_files spec =
                   ["chip_atlas_" +:+ t +:+ ".tsv";
                    "chip_atlas_" +:+ t +:+ ".csv"]).
  { subst spec. cbn [unzipped_files spec_of]. now rewrite !append_assoc. }
  rewrite Hfiles in Hp. apply first_existing_pair in Hp as [Hex Hor].
  split; [assumption|]. split; [assumption|]. split; [assumption|].
  revert H. rewrite ensure_unfold, Hs. unfold after_print.
  destruct (first_existing home (fs w) (unzipped_files spec)) as [q|].
  - intros [= _ <-]. left. now rewrite requests_print_to.
  - cbv zeta. right. exists spec. split; [reflexivity|]. revert H.
    destruct (remote (url spec)) as [e|ms [e|]];
      try (destruct (print_outcome _ _); discriminate).
    match goal with
    | |- match ?x with _ => _ end = _ -> _ => destruct x; [|discriminate]
    end.
    intros [= _ <-]. now world_simpl.
Qed.

Lemma ensure_returns_existing_candidate_witness :
  is_Some (fs (snd (ensure_metadata_file home0 archive "experiment_list" false
                      w_fresh)) !! experiment_tsv) /\
  In "experiment_list" known_types /\
  (experiment_tsv
   = path_join (base_dir home0) ("chip_atlas_" +:+ "experiment_list" +:+ ".tsv")
   \/
   experiment_tsv
   = path_join (base_dir home0) ("chip_atlas_" +:+ "experiment_list" +:+ ".csv")
   /\
   fs (snd (ensure_metadata_file home0 archive "experiment_list" false
              w_fresh))
   !! path_join (base_dir home0) ("chip_atlas_" +:+ "experiment_list" +:+ ".tsv")
   = None) /\
  (requests (snd (ensure_metadata_file home0 archive "experiment_list" false
                    w_fresh)) = requests w_fresh \/
   exists spec, METADATA_SPECS !! "experiment_list" = Some spec /\
                requests (snd (ensure_metadata_file home0 archive
                                 "experiment_list" false w_fresh))
                = requests w_fresh ++ [url spec]).
Proof.
  apply (ensure_returns_existing_candidate home0 archive "experiment_list"
           false w_fresh experiment_tsv
           (snd (ensure_metadata_file home0 archive "experiment_list" false
                   w_fresh))).
  vm_compute. reflexivity.
Defined.

(** X8.  [ensure_metadata_file] removes no file, however it ends, and
    a path whose contents it changes holds a member of the archive of
    the metadata type, written under the base directory. *)
Theorem ensure_writes_only_members home remote t silent w path :
  let w' := snd (ensure_metadata_file home remote t silent w) in
  (is_Some (fs w !! path) -> is_Some (fs w' !! path)) /\
  (fs w' !! path <> fs w !! path ->
   exists spec ms r name contents,
     METADATA_SPECS !! t = Some spec /\
     remote (url spec) = Extracts ms r /\
     In (name, contents) ms /\
     path = path_join (base_dir home) name /\
     fs w' !! path = Some contents).
Proof.
  cbv zeta. rewrite ensure_unfold. unfold after_print.
  destruct (METADATA_SPECS !! t) as [spec|] eqn:Hs.
  2:{ destruct (print_outcome _ _); cbn [snd]; world_simpl;
        (split; [auto|congruence]). }
  destruct (first_existing home (fs w) _) as [p|];
    [cbn [snd]; world_simpl; split; [auto|congruence]|].
  cbv zeta.
  assert (Hmembers : forall ms r,
             remote (url spec) = Extracts ms r ->
             (is_Some (fs w !! path) ->
              is_Some (extracted home ms (fs w) !! path)) /\
             (extracted home ms (fs w) !! path <> fs w !! path ->
              exists spec0 ms0 r0 name contents,
                Some spec = Some spec0 /\
                remote (url spec0) = Extracts ms0 r0 /\
                In (name, contents) ms0 /\
                path = path_join (base_dir home) name /\
                extracted home ms (fs w) !! path = Some contents)).
  { intros ms r Hr. split; [apply extracted_keeps|].
    intros Hne.
    destruct (extracted_lookup home ms (fs w) path)
      as [E|(n & c & Hin & Hp & E)]; [contradiction|].
    exists spec, ms, r, n, c. auto. }
  destruct (remote (url spec)) as [e|ms [e|]] eqn:Hr.
  - destruct (print_outcome _ _); cbn [snd]; world_simpl;
      (split; [auto|congruence]).
  - destruct (print_outcome _ _); cbn [snd]; world_simpl;
      exact (Hmembers ms (Some e) eq_refl).
  - world_simpl.
    destruct (first_existing home (extracted home ms (fs w)) _);
      cbn [snd]; world_simpl; exact (Hmembers ms None eq_refl).
Qed.

(** X9.  On a loaded table the selection of the detected column never
    raises [KeyError]; the filter raises [AttributeError] exactly when
    several columns carry the detected label, and then
    [fetch_and_display] raises it, whatever the keyword, once the line
    that names the column is printed. *)
Theorem duplicate_label_raises home remote t silent w df w1 col keyword :
  load_metadata home remote t silent w = (Ok (Some df), w1) ->
  detect_column (columns df) = Some col ->
  filter_rows df col keyword <> Raise KeyError /\
  (filter_rows df col keyword = Raise AttributeError <->
   1 < List.length (label_positions col 0 (columns df))) /\
  (1 < List.length (label_positions col 0 (columns df)) ->
   shown silent [col] ->
   forall hint,
     fetch_and_display home remote t keyword hint silent w =
     (Raise AttributeError, print_to silent (UsingColumn col) w1)).
Proof.
  intros Hload Hcol.
  assert (Htrim : Forall trimmed (columns df))
    by (eapply load_metadata_trimmed; eauto).
  assert (Hdet : detects (columns df) (Some col))
    by (rewrite <- Hcol; now apply detect_column_detects).
  pose proof (label_positions_in col (columns df) 0 (detects_in _ _ Hdet))
    as Hpos.
  assert (Hcompile : forall (f : list Re.atom -> DataFrame) e,
             omap f (Re.compile keyword) = Raise e -> e = ReError).
  { intros f e. unfold Re.compile. destruct (Re.atoms keyword); [discriminate|].
    destruct (_ || _); cbn [omap]; [|discriminate]. now intros [= <-]. }
  assert (Hiff : filter_rows df col keyword = Raise AttributeError <->
                 1 < List.length (label_positions col 0 (columns df))).
  { rewrite filter_rows_run.
    destruct (label_positions col 0 (columns df)) as [|i [|j ps]];
      [contradiction| |].
    - split; [|cbn [List.length]; lia].
      intros H. apply Hcompile in H. discriminate.
    - split; [cbn [List.length]; lia|reflexivity]. }
  split; [|split; [exact Hiff|]].
  - rewrite filter_rows_run.
    destruct (label_positions col 0 (columns df)) as [|i [|j ps]];
      [contradiction| |discriminate].
    intros H. apply Hcompile in H. discriminate.
  - intros Hdup Hshown hint. apply Hiff in Hdup.
    rewrite fetch_and_display_unfold, Hload, after_load_run. cbv zeta.
    rewrite Hcol, (detects_truthy _ _ Hdet). cbn [negb].
    change (default EmptyString (Some col)) with col.
    rewrite after_print_ok by (now apply print_using_column).
    now rewrite Hdup.
Qed.

Lemma duplicate_label_raises_witness :
  filter_rows {| columns := ["Antigen"; "Antigen"];
                 rows := [[Some "TP53"; Some "BRCA1"]] |} "Antigen" "TP53"
  <> Raise KeyError /\
  (filter_rows {| columns := ["Antigen"; "Antigen"];
                  rows := [[Some "TP53"; Some "BRCA1"]] |} "Antigen" "TP53"
   = Raise AttributeError <->
   1 < List.length (label_positions "Antigen" 0 ["Antigen"; "Antigen"])) /\
  (1 < List.length (label_positions "Antigen" 0 ["Antigen"; "Antigen"]) ->
   shown true ["Antigen"] ->
   forall hint,
     fetch_and_display home0 offline "experiment_list" "TP53" hint true
                       w_padded_header =
     (Raise AttributeError, w_padded_header)).
Proof.
  apply (duplicate_label_raises home0 offline "experiment_list" true
           w_padded_header
           {| columns := ["Antigen"; "Antigen"];
              rows := [[Some "TP53"; Some "BRCA1"]] |}
           w_padded_header "Antigen" "TP53").
  - vm_compute. reflexivity.
  - vm_compute. reflexivity.
Defined.

(** X10.  The empty keyword selects every row, rows with a missing
    value included: on a column whose label is unique the filter
    returns the table itself. *)
Theorem empty_keyword_selects_everything df col i :
  label_positions col 0 (columns df) = [i] ->
  filter_rows df col EmptyString = Ok df.
Proof.
  intros Hpos. rewrite filter_rows_run, Hpos.
  change (Re.compile EmptyString) with (Ok (@nil Re.atom)).
  cbn [omap obind].
  unfold getitem_mask, column_values.
  destruct df as [cols rs]. cbn [columns rows]. f_equal. f_equal.
  rewrite (List.map_ext _ (fun _ => true))
    by (intros c; now destruct (str_of_cell c)).
  apply select_rows_all. apply List.length_map.
Qed.

Lemma empty_keyword_selects_everything_witness :
  filter_rows antigens "Antigen" EmptyString = Ok antigens.
Proof.
  apply (empty_keyword_selects_everything antigens "Antigen" 0).
  reflexivity.
Defined.

(** X11.  When [fetch_and_display] returns a match set, the set is not
    empty, it has the columns of the loaded table and a sub-sequence of
    its rows in their order, and the results file of the keyword and
    the metadata type holds the CSV text of the set; nothing else
    changed in the files since the load, and no request was made. *)
Theorem fetch_result_is_saved home remote t keyword hint silent w m w2 :
  fetch_and_display home remote t keyword hint silent w = (Ok (Some m), w2) ->
  exists df w1 col contents,
    load_metadata home remote t silent w = (Ok (Some df), w1) /\
    detect_column (columns df) = Some col /\
    filter_rows df col keyword = Ok m /\
    empty m = false /\
    columns m = columns df /\
    sublist (rows m) (rows df) /\
    to_csv m = Ok contents /\
    fs w2 = <[results_path home keyword t := contents]> (fs w1) /\
    requests w2 = requests w1.
Proof.
  intros H. apply fetch_success_inv in H as (df & w1 & Hload & Hafter).
  apply after_load_inv in Hafter
    as (col & c & Hcol & _ & Hf & He & _ & Hc & _ & Hfs & Hrq).
  destruct (filter_rows_ok _ _ _ _ Hf) as [Hcols Hrows].
  exists df, w1, col, c. auto 10.
Qed.

Lemma fetch_result_is_saved_witness :
  exists df w1 col contents,
    load_metadata home0 offline "experiment_list" true w_cached
    = (Ok (Some df), w1) /\
    detect_column (columns df) = Some col /\
    filter_rows df col "TP53"
    = Ok tp53_matches /\
    empty tp53_matches = false /\
    columns tp53_matches = columns df /\
    sublist (rows tp53_matches) (rows df) /\
    to_csv tp53_matches = Ok contents /\
    fs (snd (fetch_and_display home0 offline "experiment_list" "TP53"
               "Antigen" true w_cached))
    = <[results_path home0 "TP53" "experiment_list" := contents]> (fs w1) /\
    requests (snd (fetch_and_display home0 offline "experiment_list" "TP53"
                     "Antigen" true w_cached))
    = requests w1.
Proof.
  apply (fetch_result_is_saved home0 offline "experiment_list" "TP53"
           "Antigen" true w_cached
           tp53_matches
           (snd (fetch_and_display home0 offline "experiment_list" "TP53"
                   "Antigen" true w_cached))).
  vm_compute. reflexivity.
Defined.

(** X12.  A query that returned a match set can be repeated: the same
    call on the world it left, as silent as the first or silent,
    returns the same set, makes no request (whatever the server would
    answer) and leaves the files as they are. *)
Theorem fetch_is_repeatable
        home remote remote' t keyword hint hint' silent silent' w m w1 :
  fetch_and_display home remote t keyword hint silent w = (Ok (Some m), w1) ->
  silent' = silent \/ silent' = true ->
  exists w2,
    fetch_and_display home remote' t keyword hint' silent' w1
    = (Ok (Some m), w2) /\
    fs w2 = fs w1 /\ requests w2 = requests w1.
Proof.
  intros H Hq. apply fetch_success_inv in H as (df & wl & Hload & Hafter).
  apply after_load_inv in Hafter
    as (col & c & Hcol & Htr & Hf & He & Hn & Hc & Hlines & Hfs & Hrq).
  apply load_metadata_inv in Hload as (p & we & Hens & Hpath & [Hfl Hrl]).
  destruct (ensure_returns_first_existing _ _ _ _ _ _ _ Hens)
    as (spec & Hs & Hp).
  pose proof (ensure_returns_truthy _ _ _ _ _ _ _ Hens) as Hpt.
  destruct (first_existing_exists _ _ _ _ Hp) as (_ & f & Hin & ->).
  assert (Hne : forall g, In g (unzipped_files spec) ->
                          path_join (base_dir home) g
                          <> results_path home keyword t)
    by (intros g Hg; now apply (candidate_not_results home t spec)).
  assert (Hp1 : first_existing home (fs w1) (unzipped_files spec)
                = Some (path_join (base_dir home) f)).
  { rewrite Hfs, Hfl. now rewrite first_existing_insert. }
  rewrite fetch_and_display_unfold, load_metadata_unfold.
  rewrite (ensure_cached home remote' t silent' w1 spec _ Hs Hp1), Hpt.
  set (w1' := print_to silent'
                (FoundLocalFile t (path_join (base_dir home) f)) w1).
  assert (Hsame : fs w1' !! path_join (base_dir home) f
                  = fs we !! path_join (base_dir home) f).
  { unfold w1'. rewrite fs_print_to, Hfs, Hfl.
    apply lookup_insert_ne, not_eq_sym, Hne, Hin. }
  rewrite (load_again t t silent silent' _ we w1' df wl Hpath Hsame Hq).
  destruct (after_load_success home t keyword silent' df
              (print_to silent' (LoadedColumns (columns df)) w1') col m c
              Hcol Htr Hf He Hn Hc
              (lines_printed_quieter _ _ _ _ _ _ _ Hlines Hq))
    as (w2 & -> & Hfs2 & Hrq2).
  exists w2. split; [reflexivity|].
  rewrite Hfs2, Hrq2. unfold w1'.
  rewrite !fs_print_to, !requests_print_to. split; [|reflexivity].
  rewrite Hfs. apply insert_insert_eq.
Qed.

Lemma fetch_is_repeatable_witness :
  exists w2,
    fetch_and_display home0 offline "experiment_list" "TP53" "Cell type"
      false
      (snd (fetch_and_display home0 archive "experiment_list" "TP53"
              "Antigen" false w_fresh))
    = (Ok (Some tp53_matches), w2) /\
    fs w2 = fs (snd (fetch_and_display home0 archive "experiment_list" "TP53"
                       "Antigen" false w_fresh)) /\
    requests w2
    = requests (snd (fetch_and_display home0 archive "experiment_list" "TP53"
                       "Antigen" false w_fresh)).
Proof.
  apply (fetch_is_repeatable home0 archive offline "experiment_list" "TP53"
           "Antigen" "Cell type" false false w_fresh tp53_matches
           (snd (fetch_and_display home0 archive "experiment_list" "TP53"
                   "Antigen" false w_fresh))).
  - vm_compute. reflexivity.
  - left. reflexivity.
Defined.

(** X13.  Saving the match set that [fetch_and_display] returned, under
    the same keyword and metadata type, by a call that is silent or
    whose keyword holds no opening bracket, returns and changes no
    file: the results file is written again with the same contents. *)
Theorem save_after_fetch_changes_no_file
        home remote t keyword hint silent silent' w m w1 :
  fetch_and_display home remote t keyword hint silent w = (Ok (Some m), w1) ->
  silent' = true \/ plain keyword ->
  exists w2,
    save_full_dataset home (Some m) keyword t silent' w1 = (Ok tt, w2) /\
    fs w2 = fs w1 /\ requests w2 = requests w1 /\
    console w2 =
    if silent' then console w1
    else console w1 ++ [SavedSuccessfully (results_dir home)
                                          (results_name keyword t)].
Proof. apply save_after_fetch_facts. Qed.

Lemma save_after_fetch_changes_no_file_witness :
  exists w2,
    save_full_dataset home0 (Some tp53_matches) "TP53" "experiment_list" false
      (snd (fetch_and_display home0 offline "experiment_list" "TP53"
              "Antigen" true w_cached)) = (Ok tt, w2) /\
    fs w2 = fs (snd (fetch_and_display home0 offline "experiment_list" "TP53"
                       "Antigen" true w_cached)) /\
    requests w2
    = requests (snd (fetch_and_display home0 offline "experiment_list" "TP53"
                       "Antigen" true w_cached)) /\
    console w2 =
    console (snd (fetch_and_display home0 offline "experiment_list" "TP53"
                    "Antigen" true w_cached))
    ++ [SavedSuccessfully (results_dir home0)
                          (results_name "TP53" "experiment_list")].
Proof.
  apply (save_after_fetch_changes_no_file home0 offline "experiment_list"
           "TP53" "Antigen" true false w_cached tp53_matches
           (snd (fetch_and_display home0 offline "experiment_list" "TP53"
                   "Antigen" true w_cached))).
  - vm_compute. reflexivity.
  - right. reflexivity.
Defined.

(** X14.  With [silent=True] none of the four functions prints: the
    console is as it was, however the call ends. *)
Theorem silent_prints_nothing home remote t keyword hint df gene w :
  console (snd (ensure_metadata_file home remote t true w)) = console w /\
  console (snd (load_metadata home remote t true w)) = console w /\
  console (snd (fetch_and_display home remote t keyword hint true w))
  = console w /\
  console (snd (save_full_dataset home df gene t true w)) = console w.
Proof.
  split; [apply mute_ensure|].
  split; [apply mute_load_metadata|].
  split; [apply mute_fetch_and_display|].
  apply mute_save_full_dataset.
Qed.

(** X15.  Results files do not collide: for metadata types of the
    catalog, two queries share a results file only when they have the
    same keyword and the same type; and no results file is a candidate
    file of the catalog, so saving never overwrites the cached
    metadata. *)
Theorem results_files_do_not_collide home keyword keyword' t t' :
  In t known_types -> In t' known_types ->
  (results_path home keyword t = results_path home keyword' t' ->
   keyword = keyword' /\ t = t') /\
  (forall spec f,
      METADATA_SPECS !! t' = Some spec -> In f (unzipped_files spec) ->
      results_path home keyword t <> path_join (base_dir home) f).
Proof.
  intros Ht Ht'. split.
  - rewrite !results_path_suffix. intros E.
    apply path_join_inj, append_cancel_l in E.
    now apply results_suffix_inj.
  - intros spec f Hs Hf E. symmetry in E. revert E.
    now apply (candidate_not_results home t' spec).
Qed.

Lemma results_files_do_not_collide_witness :
  (results_path home0 "TP53" "file_list" = results_path home0 "TP53" "file_list"
   -> "TP53" = "TP53" /\ "file_list" = "file_list") /\
  (forall spec f,
      METADATA_SPECS !! "file_list" = Some spec ->
      In f (unzipped_files spec) ->
      results_path home0 "TP53" "file_list" <> path_join (base_dir home0) f).
Proof.
  apply (results_files_do_not_collide home0 "TP53" "TP53" "file_list"
           "file_list").
  - simpl. tauto.
  - simpl. tauto.
Defined.

(** X16.  A keyword with a slash names a results file in a directory
    that does not exist: once the filter has found rows, the silent
    [fetch_and_display] raises [OSError] with the files as
    [load_metadata] left them, and the silent [save_full_dataset] of a
    match set with rows returns without writing. *)
Theorem slash_keyword_is_not_saved home gene t d :
  has_char Rich.SLASH gene = true ->
  empty d = false ->
  (forall w, save_full_dataset home (Some d) gene t true w = (Ok tt, w)) /\
  (forall remote hint w df w1 col,
      load_metadata home remote t true w = (Ok (Some df), w1) ->
      detect_column (columns df) = Some col ->
      filter_rows df col gene = Ok d ->
      fetch_and_display home remote t gene hint true w = (Raise OSError, w1)).
Proof.
  intros Hslash He.
  assert (Hn : creatable (results_name gene t) = Raise OSError).
  { unfold creatable, results_name.
    rewrite !has_char_append, Hslash. reflexivity. }
  split.
  - intros w. now rewrite (save_something _ _ _ _ _ _ He), Hn.
  - intros remote hint w df w1 col Hload Hcol Hf.
    assert (Htr : truthy (Some col) = true).
    { apply (detects_truthy (columns df)). rewrite <- Hcol.
      apply detect_column_detects. eapply load_metadata_trimmed; eauto. }
    rewrite fetch_and_display_unfold, Hload, after_load_run. cbv zeta.
    rewrite Hcol, Htr. cbn [negb].
    change (default EmptyString (Some col)) with col.
    rewrite after_print_ok by reflexivity. rewrite Hf, He.
    rewrite !after_print_ok by reflexivity. now rewrite Hn.
Qed.

Lemma slash_keyword_is_not_saved_witness :
  save_full_dataset home0 (Some slashed_matches) "H3/H4" "antigen_list" true
                    w_slashed = (Ok tt, w_slashed) /\
  fetch_and_display home0 offline "antigen_list" "H3/H4" "Antigen" true
                    w_slashed = (Raise OSError, w_slashed).
Proof.
  destruct (slash_keyword_is_not_saved home0 "H3/H4" "antigen_list"
              slashed_matches) as [H1 H2].
  - reflexivity.
  - reflexivity.
  - split; [apply H1|].
    apply (H2 offline "Antigen" w_slashed
              {| columns := ["Antigen"; "Class"];
                 rows := [[Some "H3/H4 tetramer"; Some "Histone"];
                          [Some "TP53"; Some "TFs and others"]] |}
              w_slashed "Antigen").
    + vm_compute. reflexivity.
    + vm_compute. reflexivity.
    + vm_compute. reflexivity.
Defined.

(** X17.  When the silent [fetch_and_display] returns a match set,
    [fetch_chip_atlas] returns the success dictionary: the number of
    rows found is the number of rows of the set and at least one, the
    columns are those of the set, and the preview has one record for
    each of the first ten rows; with distinct column labels a record
    pairs every label with the cell of its row.  The second save
    changes no file. *)
Theorem tool_success home remote gene t w m w1 :
  fetch_and_display home remote t gene "Antigen" true w = (Ok (Some m), w1) ->
  exists w2 preview,
    fetch_chip_atlas home remote gene t w =
    (Ok (Success gene t (List.length (rows m)) (columns m) preview), w2) /\
    1 <= List.length (rows m) /\
    List.length preview = Nat.min 10 (List.length (rows m)) /\
    (List.NoDup (columns m) ->
     preview = List.map (List.combine (columns m)) (firstn 10 (rows m))) /\
    fs w2 = fs w1 /\ requests w2 = requests w1.
Proof.
  intros H. rewrite fetch_chip_atlas_run, H.
  apply fetch_success_inv in H as (df & wl & _ & Hafter).
  apply after_load_inv in Hafter
    as (col & c & _ & _ & _ & He & Hn & Hc & _ & Hfs & _).
  rewrite He, (save_something _ _ _ _ _ _ He), Hn, Hc. cbv zeta.
  change (print_outcome true ?msg) with (@Ok unit tt). cbv iota.
  eexists. eexists. split; [reflexivity|].
  split.
  { unfold empty in He. destruct (columns m); [discriminate|].
    destruct (rows m); [discriminate|]. cbn [List.length]. lia. }
  split.
  { unfold to_dict_records, head. cbn [columns rows].
    now rewrite List.length_map, List.length_firstn. }
  split.
  { intros Hnd. unfold to_dict_records, head. cbn [columns rows].
    apply List.map_ext. intros row. now apply dict_zip_distinct. }
  cbn [print_to fs requests written]. split; [|reflexivity].
  rewrite Hfs. apply insert_insert_eq.
Qed.

Lemma tool_success_witness :
  exists w2 preview,
    fetch_chip_atlas home0 offline "TP53" "experiment_list" w_cached =
    (Ok (Success "TP53" "experiment_list" 2 (columns antigen_frame) preview),
     w2) /\
    1 <= 2 /\
    List.length preview = Nat.min 10 2 /\
    (List.NoDup (columns antigen_frame) ->
     preview = List.map (List.combine (columns antigen_frame))
                        (firstn 10 (firstn 2 (rows antigen_frame)))) /\
    fs w2 = fs (snd (fetch_and_display home0 offline "experiment_list" "TP53"
                       "Antigen" true w_cached)) /\
    requests w2 =
    requests (snd (fetch_and_display home0 offline "experiment_list" "TP53"
                     "Antigen" true w_cached)).
Proof.
  apply (tool_success home0 offline "TP53" "experiment_list" w_cached
           tp53_matches
           (snd (fetch_and_display home0 offline "experiment_list" "TP53"
                   "Antigen" true w_cached))).
  vm_compute. reflexivity.
Defined.

(** X18.  When the silent [fetch_and_display] does not return a match
    set, [fetch_chip_atlas] does not raise: it returns the no-data
    dictionary after [None] and the error dictionary after an
    exception, and leaves the world as [fetch_and_display] left it. *)
Theorem tool_failure_status home remote gene t w o w1 :
  fetch_and_display home remote t gene "Antigen" true w = (o, w1) ->
  (forall m, o <> Ok (Some m)) ->
  fetch_chip_atlas home remote gene t w =
  (match o with
   | Ok _ =>
       Ok (NoData gene t
             ("No results found for " +:+ gene +:+ " in " +:+ t +:+ "."))
   | Raise e => Ok (Error e)
   | Unmodelled => Unmodelled
   end, w1).
Proof.
  intros H Hno. rewrite fetch_chip_atlas_run, H.
  destruct o as [[m|]|e|]; try reflexivity. now destruct (Hno m).
Qed.

Lemma tool_failure_status_witness :
  fetch_chip_atlas home0 offline "H3/H4" "antigen_list" w_slashed =
  (Ok (Error OSError), w_slashed).
Proof.
  apply (tool_failure_status home0 offline "H3/H4" "antigen_list" w_slashed
           (Raise OSError) w_slashed).
  - vm_compute. reflexivity.
  - discriminate.
Defined.

(** X19.  [fetch_chip_atlas] prints nothing on the console of the
    pipeline, however it ends. *)
Theorem tool_prints_nothing home remote gene t w :
  console (snd (fetch_chip_atlas home remote gene t w)) = console w.
Proof. apply mute_fetch_chip_atlas. Qed.

(** X20.  When [fetch_and_display] returns [None], the [fetch] command
    prints the no-data line and then the error line as well: the
    [typer.Exit] raised inside the [try] block is handled by its own
    [except Exception] clause, which raises [typer.Exit] with code 1
    again.  Gene and metadata type hold no opening bracket. *)
Theorem cli_no_data_is_reported_twice home remote gene t term w1 :
  plain gene -> plain t ->
  fetch_and_display home remote t gene "Antigen" false (world term)
  = (Ok None, w1) ->
  Cli.fetch home remote gene t term =
  (Raised (Exit 1),
   {| world := w1;
      cli_console := cli_console term ++
                     [Retrieving t gene; NoDataFound gene t;
                      ErrorWhile (Exit 1)] |}).
Proof.
  intros Hg Ht H. rewrite (cli_fetch_run _ _ _ _ _ Hg Ht), H. cbv zeta.
  cbn [no_data]. now rewrite <- List.app_assoc.
Qed.

Lemma cli_no_data_is_reported_twice_witness :
  Cli.fetch home0 offline "XYZGENE" "experiment_list"
            {| world := w_cached; cli_console := [] |} =
  (Raised (Exit 1),
   {| world := snd (fetch_and_display home0 offline "experiment_list"
                      "XYZGENE" "Antigen" false w_cached);
      cli_console := [] ++
                     [Retrieving "experiment_list" "XYZGENE";
                      NoDataFound "XYZGENE" "experiment_list";
                      ErrorWhile (Exit 1)] |}).
Proof.
  apply (cli_no_data_is_reported_twice home0 offline "XYZGENE"
           "experiment_list" {| world := w_cached; cli_console := [] |}).
  - reflexivity.
  - reflexivity.
  - vm_compute. reflexivity.
Defined.

(** X21.  An exception that [fetch_and_display] raises is handled by
    the [fetch] command when its message holds no tag (a keyword that is
    not a regular expression, a table with the detected label on two
    columns, a failed Latin-1 read): the command prints the error line
    and raises [typer.Exit] with code 1.  A [MarkupError] is not
    handled: the error line quotes the tag and fails as well, and the
    [MarkupError] leaves the command. *)
Theorem cli_reports_pipeline_errors home remote gene t term e w1 :
  plain gene -> plain t ->
  fetch_and_display home remote t gene "Antigen" false (world term)
  = (Raise e, w1) ->
  (exn_renders e = Ok tt ->
   Cli.fetch home remote gene t term =
   (Raised (Exit 1),
    {| world := w1;
       cli_console := cli_console term ++
                      [Retrieving t gene; ErrorWhile (Pipeline e)] |})) /\
  (e = MarkupError ->
   Cli.fetch home remote gene t term =
   (Raised (Pipeline MarkupError),
    {| world := w1;
       cli_console := cli_console term ++ [Retrieving t gene] |})).
Proof.
  intros Hg Ht H. rewrite (cli_fetch_run _ _ _ _ _ Hg Ht), H. cbv zeta.
  split.
  - intros ->. now rewrite <- List.app_assoc.
  - intros ->. reflexivity.
Qed.

Lemma cli_reports_pipeline_errors_witness :
  Cli.fetch home0 offline "(" "experiment_list"
            {| world := w_cached; cli_console := [] |} =
  (Raised (Exit 1),
   {| world := snd (fetch_and_display home0 offline "experiment_list"
                      "(" "Antigen" false w_cached);
      cli_console := [] ++
                     [Retrieving "experiment_list" "(";
                      ErrorWhile (Pipeline ReError)] |}) /\
  Cli.fetch home0 offline "TP53" "experiment_list"
            {| world := w_tagged; cli_console := [] |} =
  (Raised (Pipeline MarkupError),
   {| world := snd (fetch_and_display home0 offline "experiment_list"
                      "TP53" "Antigen" false w_tagged);
      cli_console := [] ++ [Retrieving "experiment_list" "TP53"] |}).
Proof.
  split.
  - destruct (cli_reports_pipeline_errors home0 offline "(" "experiment_list"
                {| world := w_cached; cli_console := [] |} ReError
                (snd (fetch_and_display home0 offline "experiment_list"
                        "(" "Antigen" false w_cached))) as [H _].
    + reflexivity.
    + reflexivity.
    + vm_compute. reflexivity.
    + apply H. reflexivity.
  - destruct (cli_reports_pipeline_errors home0 offline "TP53"
                "experiment_list"
                {| world := w_tagged; cli_console := [] |} MarkupError
                (snd (fetch_and_display home0 offline "experiment_list"
                        "TP53" "Antigen" false w_tagged))) as [_ H].
    + reflexivity.
    + reflexivity.
    + vm_compute. reflexivity.
    + apply H. reflexivity.
Defined.

(** X22.  When [fetch_and_display] returns a match set for a gene
    without an opening bracket, the [fetch] command returns after two
    lines of its own; its call of [save_full_dataset] prints the saved
    line on the console of the pipeline, changes no file and makes no
    request. *)
Theorem cli_success_saves_again home remote gene t term m w1 :
  plain gene ->
  fetch_and_display home remote t gene "Antigen" false (world term)
  = (Ok (Some m), w1) ->
  exists w2,
    Cli.fetch home remote gene t term =
    (Done tt,
     {| world := w2;
        cli_console := cli_console term ++
                       [Retrieving t gene; SavedUnder gene t] |}) /\
    fs w2 = fs w1 /\ requests w2 = requests w1 /\
    console w2 = console w1 ++ [SavedSuccessfully (results_dir home)
                                                  (results_name gene t)].
Proof.
  intros Hg H.
  destruct (fetch_success_inv _ _ _ _ _ _ _ _ _ H) as (df & wl & Hload & _).
  destruct (load_metadata_known _ _ _ _ _ _ _ Hload) as [spec Hs].
  destruct (known_type_plain _ _ Hs) as [Ht _].
  destruct (save_after_fetch_facts home remote t gene "Antigen" false false
              (world term) m w1 H (or_intror Hg))
    as (w2 & Hsave & Hfs & Hrq & Hcon).
  exists w2. rewrite (cli_fetch_run _ _ _ _ _ Hg Ht), H. cbv zeta.
  assert (He : no_data (Some m) = false).
  { apply fetch_success_inv in H as (df' & wl' & _ & Hafter).
    apply after_load_inv in Hafter
      as (col & c & _ & _ & _ & He & _). exact He. }
  rewrite He, Hsave.
  split; [now rewrite <- List.app_assoc|]. auto.
Qed.

Lemma cli_success_saves_again_witness :
  exists w2,
    Cli.fetch home0 offline "TP53" "experiment_list"
              {| world := w_cached; cli_console := [] |} =
    (Done tt,
     {| world := w2;
        cli_console := [] ++ [Retrieving "experiment_list" "TP53";
                              SavedUnder "TP53" "experiment_list"] |}) /\
    fs w2 = fs (snd (fetch_and_display home0 offline "experiment_list" "TP53"
                       "Antigen" false w_cached)) /\
    requests w2 =
    requests (snd (fetch_and_display home0 offline "experiment_list" "TP53"
                     "Antigen" false w_cached)) /\
    console w2 =
    console (snd (fetch_and_display home0 offline "experiment_list" "TP53"
                    "Antigen" false w_cached))
    ++ [SavedSuccessfully (results_dir home0)
                          (results_name "TP53" "experiment_list")].
Proof.
  apply (cli_success_saves_again home0 offline "TP53" "experiment_list"
           {| world := w_cached; cli_console := [] |} tp53_matches
           (snd (fetch_and_display home0 offline "experiment_list" "TP53"
                   "Antigen" false w_cached))).
  - reflexivity.
  - vm_compute. reflexivity.
Defined.

(** X23.  A gene that is the closing tag [[/]] stops the [fetch]
    command at its first line, which stands before the [try] block:
    [MarkupError] leaves the command, and nothing was requested,
    written or printed. *)
Theorem cli_gene_with_closing_tag home remote t term :
  plain t ->
  Cli.fetch home remote "[/]" t term = (Raised (Pipeline MarkupError), term).
Proof.
  intros Ht. unfold Cli.fetch, and_then, print.
  now rewrite (cli_printed_closing_tag _ Ht).
Qed.

Lemma cli_gene_with_closing_tag_witness :
  Cli.fetch home0 archive "[/]" "experiment_list"
            {| world := w_fresh; cli_console := [] |}
  = (Raised (Pipeline MarkupError),
     {| world := w_fresh; cli_console := [] |}).
Proof.
  apply (cli_gene_with_closing_tag home0 archive "experiment_list"
           {| world := w_fresh; cli_console := [] |}).
  reflexivity.
Defined.
